(** * atooms.simulation: schedulers, observer ledger and the run loop

    A shallow embedding of [atooms/simulation/__init__.py] (and of the
    [Scheduler] class of [atooms/simulation/observers.py]).

    Conventions of the embedding.
    - The code is Python 2: [/] on integers is floor division ([Z.div]),
      integers are unbounded, and [None > 0] evaluates to [False].
    - A Python float (wall-clock reading, rmsd, target value) is modelled
      as the rational that the double holds; infinities and NaN are not
      values of the model. The conversion of an integer to a float rounds
      to the nearest double, ties to even, and raises [OverflowError] from
      [2^1024] on ([py_float]); [steps / 200.] is rounded likewise
      ([round53]). Comparisons and the zero tests of the divisors are
      those of the doubles. The difference of two clock readings is
      taken without rounding, as it is in a double for readings within a
      factor two of each other and for the small integers of the
      examples.
    - What is computed only to be logged (the fractions, speeds, times per
      step and estimated times of the progress lines, the dates built with
      [datetime], and the formatting of every line) is treated as total:
      the model computes these values exactly, does not round them and
      does not model an overflow in them.
    - An exception is a value of type [exn]; fallible pure code returns
      [exn + A], stateful code returns a [result].
    - [time.time()] is an oracle: the k-th reading is [clock w k].
    - A user callable registered as an observer either returns or raises;
      it is taken not to modify the simulation it is called with. *)

From Stdlib Require Import ZArith List String Ascii Bool Lia QArith Permutation.
From Stdlib Require Import DecimalString.
Import ListNotations.
Local Open Scope string_scope.
Local Open Scope list_scope.
Local Open Scope Z_scope.

(** ** Exceptions *)

Inductive exn : Type :=
| SimulationEnd (message : string)
| WallTimeLimit (message : string)
| SchedulerError (message : string)
| ParameterError (message : string)
| KeyboardInterrupt
| ValueError (message : string)
| AttributeError (message : string)
| ZeroDivisionError (message : string)
| RuntimeError (message : string)
| UnboundLocalError (message : string)
| IndexError (message : string)
| OverflowError (message : string).

(** [sys.maxint] of a 64-bit CPython 2. *)
Definition maxint : Z := 9223372036854775807.

(** Python 2 comparison [x > 0] for a value that may be [None]:
    [None] is smaller than every integer. *)
Definition py2_gt0 (x : option Z) : bool :=
  match x with
  | Some v => 0 <? v
  | None => false
  end.

(** ** Numbers *)

(** A number held by an attribute: a Python integer or a float. *)
Inductive number : Type :=
| PyInt (n : Z)
| PyFloat (x : Q).

Definition number_value (v : number) : Q :=
  match v with
  | PyInt n => inject_Z n
  | PyFloat x => x
  end.

(** [num / den] rounded to the nearest integer, ties to the even one
    ([0 <= num], [0 < den]). *)
Definition round_half_even (num den : Z) : Z :=
  let q := num / den in
  let r := num mod den in
  if (den <? 2 * r) || ((2 * r =? den) && Z.odd q) then q + 1 else q.

(** A natural number rounded to 53 significant bits. *)
Definition round_to_53_bits (a : Z) : Z :=
  let k := Z.log2 a in
  if k <? 53 then a
  else round_half_even a (2 ^ (k - 52)) * 2 ^ (k - 52).

(** [float(n)] for an integer [n], also the conversion that [n / 200.]
    and [x / n] apply to [n]. *)
Definition py_float (n : Z) : exn + Q :=
  let m := Z.sgn n * round_to_53_bits (Z.abs n) in
  if 2 ^ 1024 <=? Z.abs m then
    inl (OverflowError "long int too large to convert to float")
  else inr (inject_Z m).

(** A rational rounded to 53 significant bits, ties to even: the double
    nearest to [x] when [2^-1022 <= |x| < 2^1024 - 2^970]. *)
Definition round53 (x : Q) : Q :=
  let a := Z.abs (Qnum x) in
  let b := Zpos (Qden x) in
  if a =? 0 then 0%Q
  else
    let e0 := Z.log2 a - Z.log2 b in
    let e := if (if 0 <=? e0 then b * 2 ^ e0 <=? a else b <=? a * 2 ^ (- e0))
             then e0 else e0 - 1 in
    let u := e - 52 in
    if 0 <=? u then
      inject_Z (Z.sgn (Qnum x) * (round_half_even a (b * 2 ^ u) * 2 ^ u))
    else
      Qmake (Z.sgn (Qnum x) * round_half_even (a * 2 ^ (- u)) b) (Z.to_pos (2 ^ (- u))).

(** [int(x)] for a float [x]: truncation. *)
Definition py_int (x : Q) : Z := Z.quot (Qnum x) (Zpos (Qden x)).

(** [str(n)] for an integer. *)
Definition str_int (n : Z) : string := NilZero.string_of_int (Z.to_int n).

(** [str(x)] for a float, which is ['%.12g' % x] with [.0] appended to a
    result that has neither a point nor an exponent. *)
Fixpoint strip_zeros (rev_digits : list ascii) : list ascii :=
  match rev_digits with
  | "0"%char :: rest => strip_zeros rest
  | _ => rev_digits
  end.

Definition zeros (n : Z) : string :=
  string_of_list_ascii (repeat "0"%char (Z.to_nat n)).

Definition float_str_pos (a b : Z) : string :=
  let da := Z.of_nat (String.length (str_int a)) in
  let db := Z.of_nat (String.length (str_int b)) in
  let d0 := da - db in
  let below := if 0 <=? d0 then a <? b * 10 ^ d0 else a * 10 ^ (- d0) <? b in
  let d := if below then d0 else d0 + 1 in
  let m := if 0 <=? 12 - d then round_half_even (a * 10 ^ (12 - d)) b
           else round_half_even a (b * 10 ^ (d - 12)) in
  let '(m, d) := if m =? 10 ^ 12 then (10 ^ 11, d + 1) else (m, d) in
  let ds := rev (strip_zeros (rev (list_ascii_of_string (str_int m)))) in
  let n := Z.of_nat (List.length ds) in
  if (d <=? -4) || (12 <? d) then
    let e := d - 1 in
    let mant := match ds with
                | [] => EmptyString
                | c :: [] => String c EmptyString
                | c :: rest => String c (String "."%char (string_of_list_ascii rest))
                end in
    mant ++ "e" ++ (if e <? 0 then "-" else "+")
         ++ (if Z.abs e <? 10 then "0" else EmptyString) ++ str_int (Z.abs e)
  else if d <=? 0 then "0." ++ zeros (- d) ++ string_of_list_ascii ds
  else if n <=? d then string_of_list_ascii ds ++ zeros (d - n) ++ ".0"
  else string_of_list_ascii (firstn (Z.to_nat d) ds) ++ "."
       ++ string_of_list_ascii (skipn (Z.to_nat d) ds).

Definition float_str (x : Q) : string :=
  match Qnum x with
  | Z0 => "0.0"
  | Zpos p => float_str_pos (Zpos p) (Zpos (Qden x))
  | Zneg p => "-" ++ float_str_pos (Zpos p) (Zpos (Qden x))
  end.

(** ['%s' % v]. *)
Definition number_str (v : number) : string :=
  match v with
  | PyInt n => str_int n
  | PyFloat x => float_str x
  end.

(** ** Schedulers ([atooms/simulation/__init__.py]) *)

Record Scheduler : Type := mkScheduler {
  interval : option Z;
  calls : option Z;
  target : option Z
}.

(** [Scheduler.__init__(interval, calls=None, target=None)]. *)
Definition Scheduler_init (interval0 calls0 target0 : option Z) : exn + Scheduler :=
  if py2_gt0 interval0 then
    inr (mkScheduler interval0 calls0 target0)
  else
    match calls0 with
    | Some c =>
        if 0 <? c then
          match target0 with
          | Some t => inr (mkScheduler (Some (Z.max 1 (t / c))) calls0 target0)
          | None => inl (SchedulerError "dynamic scheduling not implemented")
          end
        else inr (mkScheduler interval0 calls0 target0)
    | None => inr (mkScheduler interval0 calls0 target0)
    end.

(** [Scheduler.next(this)]. *)
Definition Scheduler_next (s : Scheduler) (this : Z) : Z :=
  match interval s with
  | Some i => if 0 <? i then (this / i + 1) * i else maxint
  | None => maxint
  end.

(** [OnetimeScheduler]: only [interval] is configurable, [calls] and
    [target] are [None]. *)
Record OnetimeScheduler : Type := mkOnetimeScheduler {
  onetime_interval : Z
}.

(** [OnetimeScheduler.next(this)]; the division by a zero interval raises. *)
Definition OnetimeScheduler_next (s : OnetimeScheduler) (this : Z) : exn + Z :=
  if onetime_interval s =? 0 then
    inl (ZeroDivisionError "integer division or modulo by zero")
  else if this / onetime_interval s =? 0 then inr (onetime_interval s)
  else inr maxint.

(** ** Schedulers ([atooms/simulation/observers.py]) *)

Module Observers.

Record Scheduler : Type := mkScheduler {
  interval : option Z;
  calls : option Z;
  target : option Z
}.

(** [Scheduler.__init__(interval, calls=None, target=None)]; this module
    raises [ValueError] where [atooms.simulation] raises [SchedulerError]. *)
Definition Scheduler_init (interval0 calls0 target0 : option Z) : exn + Scheduler :=
  if py2_gt0 interval0 then
    inr (mkScheduler interval0 calls0 target0)
  else
    match calls0 with
    | Some c =>
        if 0 <? c then
          match target0 with
          | Some t => inr (mkScheduler (Some (Z.max 1 (t / c))) calls0 target0)
          | None => inl (ValueError "dynamic scheduling not implemented")
          end
        else inr (mkScheduler interval0 calls0 target0)
    | None => inr (mkScheduler interval0 calls0 target0)
    end.

(** [Scheduler.next(step)]. *)
Definition Scheduler_next (s : Scheduler) (step : Z) : Z :=
  match interval s with
  | Some i => if 0 <? i then (step / i + 1) * i else maxint
  | None => maxint
  end.

End Observers.

(** ** Observers *)

(** The attribute a [Target] monitors; the source instantiates [Target]
    with ['steps'] ([TargetSteps]) and ['rmsd'] ([TargetRMSD]). *)
Inductive attr : Type := attr_steps | attr_rmsd.

Definition attr_name (a : attr) : string :=
  match a with
  | attr_steps => "steps"
  | attr_rmsd => "rmsd"
  end.

(** The class of an observer object with its constructor arguments.
    [TargetWallTime.__init__] does not call [Target.__init__]: such an
    object has [wtime_limit] but neither [name] nor [target].
    [TargetWallTimeNamed] is an object of the class [TargetWallTime] to
    which the caller has assigned these two attributes, as in
    [t = TargetWallTime(5.); t.name = 'steps'; t.target = 5.] (or an
    object of a subclass whose constructor calls [Target.__init__]); the
    model takes the name to be one of the two attributes it knows.
    [Callback] is any other callable handed to [add]. *)
Inductive obs_class : Type :=
| WriterThermo
| WriterConfig
| WriterCheckpoint
| Speedometer (what : option string)
| Target (name : attr) (target : number)
| TargetWallTime (wtime_limit : Q)
| TargetWallTimeNamed (wtime_limit : Q) (name : attr) (target : number)
| UserStop
| Callback.

(** [TargetSteps(target)] holds the integer it is given, [TargetRMSD(target)]
    a float. *)
Definition TargetSteps (target : Z) : obs_class := Target attr_steps (PyInt target).
Definition TargetRMSD (target : Q) : obs_class := Target attr_rmsd (PyFloat target).

(** An observer object: its identity and its class. *)
Record observer : Type := mkObserver {
  oid : nat;
  cls : obs_class
}.

(** [isinstance(o, Target)]. *)
Definition is_Target (o : observer) : bool :=
  match cls o with
  | Target _ _ | TargetWallTime _ | TargetWallTimeNamed _ _ _ => true
  | _ => false
  end.

Definition observer_eq_dec (a b : observer) : {a = b} + {a <> b}.
Proof.
  repeat decide equality.
Defined.

Definition observer_eqb (a b : observer) : bool :=
  if observer_eq_dec a b then true else false.

(** The schedulers a registration may hold. *)
Inductive sched : Type :=
| Periodic (s : Scheduler)
| Onetime (s : OnetimeScheduler).

(** [s.next(this)] by dynamic dispatch. *)
Definition sched_next (s : sched) (this : Z) : exn + Z :=
  match s with
  | Periodic p => inr (Scheduler_next p this)
  | Onetime o => OnetimeScheduler_next o this
  end.

(** ** Observable events and the simulation state *)

Inductive logline : Type :=
| MsgTargetedSteps (n : Z)
| MsgBlank
| MsgTitle
| MsgVersion
| MsgTarget (o : observer)
| MsgWriter (o : observer) (s : sched)
| MsgStarting (n : Z)
| MsgText (m : string)
| MsgFinalRmsd (x : Q)
| MsgWallTime (t : Q)
| MsgTSP (x : Q)
| MsgEndedOn
| MsgEstimatedEnd (eta tsp : Q)
| MsgETA (frac eta tsp : Q)
| MsgRmsdNotSubclassed
| MsgFailed
| MsgGoodbye.

Inductive event : Type :=
| Info (l : logline)
| Warning (l : logline)
| Error (l : logline)
| Mkdir (path : string)
| Call (o : observer) (at_step : Z)
| RunUntil (n : Z).

(** Attributes of an initialised [Speedometer] ([_init] is [True]). *)
Record SpeedometerState : Type := mkSpeedometerState {
  name_target : attr;
  x_target : Q;
  t_last : Q;
  x_last : Q
}.

(** The [Simulation] object, followed by the three components the model
    adds: the attribute store of the speedometer objects (by identity), the
    number of clock readings taken so far and the events emitted so far. *)
Record Simulation : Type := mkSimulation {
  _callback : list observer;
  _scheduler : list sched;
  fixcm_interval : Z;
  restart : bool;
  output_path : option string;
  steps : Z;
  initial_steps : Z;
  start_time : Q;
  target_steps : Z;
  writer_thermo : observer;
  writer_config : observer;
  writer_checkpoint : observer;
  speedometers : list (nat * SpeedometerState);
  reads : nat;
  trace : list event
}.

(** What lies outside the [Simulation] class: the clock, the backend's
    override of [run_until] (the base class has [pass]: always [None]),
    the outcome of user callables, and [len(self.system.particle)]
    ([None] when the object has no [system] attribute, as in the base
    class). *)
Record World : Type := mkWorld {
  clock : nat -> Q;
  backend_run_until : Z -> Z -> option exn;
  callback_call : nat -> Z -> option exn;
  particles : option Z
}.

(** ** Attribute assignment *)

Definition set_ledger (cb : list observer) (sc : list sched) (s : Simulation) : Simulation :=
  mkSimulation cb sc (fixcm_interval s) (restart s) (output_path s) (steps s)
    (initial_steps s) (start_time s) (target_steps s) (writer_thermo s)
    (writer_config s) (writer_checkpoint s) (speedometers s) (reads s) (trace s).

Definition set_callback (cb : list observer) (s : Simulation) : Simulation :=
  set_ledger cb (_scheduler s) s.

Definition set_scheduler (sc : list sched) (s : Simulation) : Simulation :=
  set_ledger (_callback s) sc s.

Definition set_restart (b : bool) (s : Simulation) : Simulation :=
  mkSimulation (_callback s) (_scheduler s) (fixcm_interval s) b (output_path s) (steps s)
    (initial_steps s) (start_time s) (target_steps s) (writer_thermo s)
    (writer_config s) (writer_checkpoint s) (speedometers s) (reads s) (trace s).

Definition set_steps (n : Z) (s : Simulation) : Simulation :=
  mkSimulation (_callback s) (_scheduler s) (fixcm_interval s) (restart s) (output_path s) n
    (initial_steps s) (start_time s) (target_steps s) (writer_thermo s)
    (writer_config s) (writer_checkpoint s) (speedometers s) (reads s) (trace s).

Definition set_initial_steps (n : Z) (s : Simulation) : Simulation :=
  mkSimulation (_callback s) (_scheduler s) (fixcm_interval s) (restart s) (output_path s)
    (steps s) n (start_time s) (target_steps s) (writer_thermo s)
    (writer_config s) (writer_checkpoint s) (speedometers s) (reads s) (trace s).

Definition set_target_steps (n : Z) (s : Simulation) : Simulation :=
  mkSimulation (_callback s) (_scheduler s) (fixcm_interval s) (restart s) (output_path s)
    (steps s) (initial_steps s) (start_time s) n (writer_thermo s)
    (writer_config s) (writer_checkpoint s) (speedometers s) (reads s) (trace s).

Definition set_speedometers (h : list (nat * SpeedometerState)) (s : Simulation) : Simulation :=
  mkSimulation (_callback s) (_scheduler s) (fixcm_interval s) (restart s) (output_path s)
    (steps s) (initial_steps s) (start_time s) (target_steps s) (writer_thermo s)
    (writer_config s) (writer_checkpoint s) h (reads s) (trace s).

Definition set_reads (n : nat) (s : Simulation) : Simulation :=
  mkSimulation (_callback s) (_scheduler s) (fixcm_interval s) (restart s) (output_path s)
    (steps s) (initial_steps s) (start_time s) (target_steps s) (writer_thermo s)
    (writer_config s) (writer_checkpoint s) (speedometers s) n (trace s).

Definition set_trace (t : list event) (s : Simulation) : Simulation :=
  mkSimulation (_callback s) (_scheduler s) (fixcm_interval s) (restart s) (output_path s)
    (steps s) (initial_steps s) (start_time s) (target_steps s) (writer_thermo s)
    (writer_config s) (writer_checkpoint s) (speedometers s) (reads s) t.

(** ** The state-and-exception monad of the methods *)

Inductive result (A : Type) : Type :=
| Return (a : A) (s : Simulation)
| Raise (e : exn) (s : Simulation)
| Timeout (s : Simulation).

Arguments Return {A} a s.
Arguments Raise {A} e s.
Arguments Timeout {A} s.

Definition M (A : Type) : Type := Simulation -> result A.

Definition ret {A : Type} (a : A) : M A := fun s => Return a s.

Definition raise {A : Type} (e : exn) : M A := fun s => Raise e s.

Definition bind {A B : Type} (m : M A) (k : A -> M B) : M B :=
  fun s =>
    match m s with
    | Return a s' => k a s'
    | Raise e s' => Raise e s'
    | Timeout s' => Timeout s'
    end.

Declare Scope sim_scope.
Delimit Scope sim_scope with sim.
Notation "x <- m ;; k" := (bind m (fun x => k))
  (at level 61, m at next level, right associativity) : sim_scope.
Notation "m ;; k" := (bind m (fun _ => k))
  (at level 61, right associativity) : sim_scope.
Local Open Scope sim_scope.

Definition get : M Simulation := fun s => Return s s.

Definition modify (f : Simulation -> Simulation) : M unit := fun s => Return tt (f s).

Definition emit (e : event) : M unit := modify (fun s => set_trace (trace s ++ [e]) s).

Definition state_of {A : Type} (r : result A) : Simulation :=
  match r with
  | Return _ s | Raise _ s | Timeout s => s
  end.

(** ** Python list operations *)

(** [l.index(x)]: position of the first element equal to [x]; [None]
    stands for the [ValueError]. *)
Fixpoint index (x : observer) (l : list observer) : option nat :=
  match l with
  | [] => None
  | y :: l' => if observer_eqb y x then Some O else option_map S (index x l')
  end.

(** [l.pop(i)] for [0 <= i]; [None] stands for the [IndexError]. *)
Definition py_pop {A : Type} (i : nat) (l : list A) : option (A * list A) :=
  match nth_error l i with
  | Some x => Some (x, firstn i l ++ skipn (S i) l)
  | None => None
  end.

(** [l.insert(i, x)]: a negative index counts from the end and the
    position is clamped to the list. *)
Definition py_insert {A : Type} (i : Z) (x : A) (l : list A) : list A :=
  let n := Z.of_nat (List.length l) in
  let j := Z.to_nat (if i <? 0 then Z.max 0 (i + n) else Z.min i n) in
  firstn j l ++ x :: skipn j l.

(** [min(l)]; [None] stands for the [ValueError] on an empty list. *)
Fixpoint py_min (l : list Z) : option Z :=
  match l with
  | [] => None
  | x :: l' =>
      match py_min l' with
      | Some m => Some (if m <? x then m else x)
      | None => Some x
      end
  end.

(** [[i for i, step in enumerate(all_steps) if step == next_step]],
    counting from [i0]. *)
Fixpoint enumerate_eq (i0 : nat) (all_steps : list Z) (next_step : Z) : list nat :=
  match all_steps with
  | [] => []
  | step :: rest =>
      if step =? next_step then i0 :: enumerate_eq (S i0) rest next_step
      else enumerate_eq (S i0) rest next_step
  end.

(** [[s.next(this) for s in schedulers]]: the first failing call aborts
    the comprehension. *)
Fixpoint all_next (schedulers : list sched) (this : Z) : exn + list Z :=
  match schedulers with
  | [] => inr []
  | s :: rest =>
      match sched_next s this with
      | inl e => inl e
      | inr n =>
          match all_next rest this with
          | inl e => inl e
          | inr ns => inr (n :: ns)
          end
      end
  end.

(** [[callbacks[i] for i in ids]]. *)
Fixpoint getitems (callbacks : list observer) (ids : list nat) : exn + list observer :=
  match ids with
  | [] => inr []
  | i :: rest =>
      match nth_error callbacks i with
      | None => inl (IndexError "list index out of range")
      | Some o =>
          match getitems callbacks rest with
          | inl e => inl e
          | inr os => inr (o :: os)
          end
      end
  end.

Definition lift {A : Type} (x : exn + A) : M A :=
  match x with
  | inl e => raise e
  | inr a => ret a
  end.

(** The attribute store of the speedometer objects. *)
Fixpoint lookup_speedometer (i : nat) (h : list (nat * SpeedometerState))
  : option SpeedometerState :=
  match h with
  | [] => None
  | (j, st) :: h' => if Nat.eqb i j then Some st else lookup_speedometer i h'
  end.

Definition store_speedometer (i : nat) (st : SpeedometerState)
  (h : list (nat * SpeedometerState)) : list (nat * SpeedometerState) :=
  (i, st) :: filter (fun p => negb (Nat.eqb (fst p) i)) h.

(** [self._targeters] and [self._non_targeters]. *)
Definition _targeters (s : Simulation) : list observer :=
  filter is_Target (_callback s).

Definition _non_targeters (s : Simulation) : list observer :=
  filter (fun o => negb (is_Target o)) (_callback s).

(** ** Methods of [Simulation] and of the observers *)

Section Methods.

Variable w : World.

(** [time.time()]. *)
Definition time_time : M Q :=
  fun s => Return (clock w (reads s)) (set_reads (S (reads s)) s).

(** [Simulation.elapsed_wall_time]. *)
Definition elapsed_wall_time : M Q :=
  now <- time_time ;;
  s <- get ;;
  ret (Qminus now (start_time s)).

(** The [rmsd] property of the base class. *)
Definition rmsd : M Q :=
  emit (Warning MsgRmsdNotSubclassed) ;;
  ret 0%Q.

(** [float(getattr(sim, name))]: the step counter is an integer, the
    rmsd of the base class the float [0.0]. *)
Definition getattr_float (name : attr) : M Q :=
  match name with
  | attr_steps => s <- get ;; lift (py_float (steps s))
  | attr_rmsd => rmsd
  end.

(** [Simulation.wall_time_per_step]. *)
Definition wall_time_per_step : M Q :=
  e <- elapsed_wall_time ;;
  s <- get ;;
  if steps s - initial_steps s =? 0 then
    raise (ZeroDivisionError "float division by zero")
  else ret (Qdiv e (inject_Z (steps s - initial_steps s))).

(** [Simulation.wall_time_per_step_particle]. *)
Definition wall_time_per_step_particle : M Q :=
  x <- wall_time_per_step ;;
  match particles w with
  | None => raise (AttributeError "'Simulation' object has no attribute 'system'")
  | Some n =>
      if n =? 0 then raise (ZeroDivisionError "float division by zero")
      else ret (Qdiv x (inject_Z n))
  end.

(** [Target.__call__]: [x = float(getattr(sim, self.name))] is compared
    with the target, a float with an integer or a float. [frac] is
    computed for the [log.debug] line only. The message of the
    exception is ['achieved target %s: %s' % (self.name, self.target)]. *)
Definition Target_message (name : attr) (target0 : number) : string :=
  "achieved target " ++ attr_name name ++ ": " ++ number_str target0.

Definition Target_call (name : attr) (target0 : number) : M unit :=
  x <- getattr_float name ;;
  if Qle_bool (number_value target0) x then
    raise (SimulationEnd (Target_message name target0))
  else ret tt.

(** [TargetWallTime.__call__]. *)
Definition TargetWallTime_call (wtime_limit : Q) : M unit :=
  e <- elapsed_wall_time ;;
  if negb (Qle_bool e wtime_limit) then
    raise (WallTimeLimit "target wall time reached")
  else
    t <- elapsed_wall_time ;;
    ret tt.

(** [UserStop.__call__]: the object has no [STORAGE] attribute. *)
Definition UserStop_call : M unit :=
  s <- get ;;
  match output_path s with
  | Some _ => raise (AttributeError "'UserStop' object has no attribute 'STORAGE'")
  | None => raise (RuntimeError "USerStop wont work atm with file storage")
  end.

(** [Speedometer.__call__]. *)
Definition Speedometer_call (self : observer) (what : option string) : M unit :=
  s <- get ;;
  match lookup_speedometer (oid self) (speedometers s) with
  | None =>
      match find is_Target (_callback s) with
      | Some c =>
          match cls c with
          | Target name target0 | TargetWallTimeNamed _ name target0 =>
              t <- time_time ;;
              x <- getattr_float name ;;
              modify (fun s' =>
                set_speedometers
                  (store_speedometer (oid self)
                     (mkSpeedometerState name (number_value target0) t x)
                     (speedometers s')) s')
          | _ => raise (AttributeError "'TargetWallTime' object has no attribute 'name'")
          end
      | None => raise (AttributeError "'Speedometer' object has no attribute 'x_target'")
      end
  | Some st =>
      if negb (Qle_bool (x_target st) 0) then
        t_now <- time_time ;;
        x_now <- getattr_float (name_target st) ;;
        if Qeq_bool (Qminus t_now (t_last st)) 0 then
          raise (ZeroDivisionError "float division by zero")
        else
          let speed := Qdiv (Qminus x_now (x_last st)) (Qminus t_now (t_last st)) in
          let frac := Qdiv x_now (x_target st) in
          if Qeq_bool speed 0 then
            raise (ZeroDivisionError "float division by zero")
          else
            let eta := Qdiv (Qminus (x_target st) x_now) speed in
            tsp <- wall_time_per_step_particle ;;
            emit (Info (match what with
                        | Some "ETA" => MsgEstimatedEnd eta tsp
                        | _ => MsgETA frac eta tsp
                        end)) ;;
            modify (fun s' =>
              set_speedometers
                (store_speedometer (oid self)
                   (mkSpeedometerState (name_target st) (x_target st) t_now x_now)
                   (speedometers s')) s')
      else
        raise (UnboundLocalError "local variable 't_now' referenced before assignment")
  end.

(** [o(self)]: the call is recorded, then dispatched on the class. *)
Definition call_observer (o : observer) : M unit :=
  s <- get ;;
  emit (Call o (steps s)) ;;
  match cls o with
  | WriterThermo | WriterConfig | WriterCheckpoint => ret tt
  | Speedometer what => Speedometer_call o what
  | Target name target0 => Target_call name target0
  | TargetWallTime wtime_limit | TargetWallTimeNamed wtime_limit _ _ =>
      TargetWallTime_call wtime_limit
  | UserStop => UserStop_call
  | Callback =>
      match callback_call w (oid o) (steps s) with
      | Some e => raise e
      | None => ret tt
      end
  end.

(** [Simulation.notify]. *)
Fixpoint notify (observers : list observer) : M unit :=
  match observers with
  | [] => ret tt
  | o :: rest => call_observer o ;; notify rest
  end.

(** The [try] block of [Simulation.add], which moves the checkpoint
    writer behind the other non-targets. The [ValueError] of [index] is
    caught; an [IndexError] of [pop] is not. *)
Definition add_checkpoint_last : M unit :=
  s1 <- get ;;
  match index (writer_checkpoint s1) (_callback s1) with
  | None => ret tt
  | Some idx =>
      let cnt := Z.of_nat (List.length (_non_targeters s1)) in
      match py_pop idx (_callback s1) with
      | None => raise (IndexError "pop index out of range")
      | Some (c, cb) =>
          modify (set_callback (py_insert (cnt - 1) c cb)) ;;
          s2 <- get ;;
          match py_pop idx (_scheduler s2) with
          | None => raise (IndexError "pop index out of range")
          | Some (sc, scs) => modify (set_scheduler (py_insert (cnt - 1) sc scs))
          end
      end
  end.

(** [Simulation.add]. *)
Definition add (callback : observer) (scheduler : sched) : M unit :=
  s <- get ;;
  (if negb (is_Target callback) then
     modify (set_ledger (callback :: _callback s) (scheduler :: _scheduler s))
   else
     modify (set_ledger (_callback s ++ [callback]) (_scheduler s ++ [scheduler]))) ;;
  add_checkpoint_last.

(** [Simulation.__init__]; [initial_state] is not used by the base class.
    The seven objects created here get the identities 0 to 6. *)
Definition Simulation_init (output_path0 : option string) (steps0 : Z)
  (rmsd0 : option Q)
  (thermo_interval thermo_number config_interval config_number
   checkpoint_interval checkpoint_number fixcm_interval0 : Z)
  (restart0 : bool) : result unit :=
  let wt := mkObserver 0 WriterThermo in
  let wc := mkObserver 1 WriterConfig in
  let wk := mkObserver 2 WriterCheckpoint in
  let s0 :=
    mkSimulation [] [] fixcm_interval0 restart0 output_path0 0 0 (clock w O)
      steps0 wt wc wk [] 1%nat
      (match output_path0 with Some p => [Mkdir p] | None => [] end) in
  (sc <- lift (Scheduler_init (Some (Z.max 1 steps0)) None None) ;;
   add (mkObserver 3 (TargetSteps steps0)) (Periodic sc) ;;
   match rmsd0 with
   | Some r =>
       sc <- lift (Scheduler_init (Some 10000) None None) ;;
       add (mkObserver 4 (TargetRMSD r)) (Periodic sc)
   | None => ret tt
   end ;;
   sc <- lift (Scheduler_init None (Some 10) (Some steps0)) ;;
   add (mkObserver 5 (Speedometer None)) (Periodic sc) ;;
   x <- lift (py_float steps0) ;;
   add (mkObserver 6 (Speedometer (Some "ETA")))
     (Onetime (mkOnetimeScheduler (Z.max 1 (py_int (round53 (x / 200)))))) ;;
   sc <- lift (Scheduler_init (Some thermo_interval) (Some thermo_number) (Some steps0)) ;;
   add wt (Periodic sc) ;;
   sc <- lift (Scheduler_init (Some config_interval) (Some config_number) (Some steps0)) ;;
   add wc (Periodic sc) ;;
   sc <- lift (Scheduler_init (Some checkpoint_interval) (Some checkpoint_number)
                 (Some steps0)) ;;
   add wk (Periodic sc)) s0.

(** [Simulation._report_observers]: a [TargetWallTime] has no [target]. *)
Fixpoint _report_observers (l : list (observer * sched)) : M unit :=
  match l with
  | [] => ret tt
  | (f, s) :: rest =>
      (if is_Target f then
         match cls f with
         | TargetWallTime _ =>
             raise (AttributeError "'TargetWallTime' object has no attribute 'target'")
         | _ => emit (Info (MsgTarget f))
         end
       else emit (Info (MsgWriter f s))) ;;
      _report_observers rest
  end.

(** [Simulation.report]; [_report] is [pass]. *)
Definition report : M unit :=
  emit (Info MsgBlank) ;;
  emit (Info MsgTitle) ;;
  emit (Info MsgBlank) ;;
  emit (Info MsgVersion) ;;
  s <- get ;;
  _report_observers (combine (_callback s) (_scheduler s)).

(** [Simulation.run_pre] is [pass]. *)
Definition run_pre : M unit := ret tt.

(** [Simulation.run_until]: [pass] in the base class, the backend's
    override otherwise. *)
Definition run_until (n : Z) : M unit :=
  s <- get ;;
  emit (RunUntil n) ;;
  match backend_run_until w (steps s) n with
  | Some e => raise e
  | None => ret tt
  end.

(** [Simulation._report_end]. *)
Definition _report_end : M unit :=
  x <- rmsd ;;
  emit (Info (MsgFinalRmsd x)) ;;
  t <- elapsed_wall_time ;;
  emit (Info (MsgWallTime t)) ;;
  tsp <- wall_time_per_step_particle ;;
  emit (Info (MsgTSP tsp)) ;;
  emit (Info MsgEndedOn).

(** One pass through the body of [while True] in [Simulation.run]. *)
Definition run_iteration : M unit :=
  s <- get ;;
  all_steps <- lift (all_next (_scheduler s) (steps s)) ;;
  match py_min all_steps with
  | None => raise (ValueError "min() arg is an empty sequence")
  | Some next_step =>
      let next_step_ids := enumerate_eq O all_steps next_step in
      next_obs <- lift (getitems (_callback s) next_step_ids) ;;
      run_until next_step ;;
      modify (set_steps next_step) ;;
      notify next_obs
  end.

(** [while True]: the loop is left by an exception only; [Timeout] is
    the model's answer when [fuel] passes do not suffice. *)
Fixpoint run_loop (fuel : nat) : M unit :=
  match fuel with
  | O => fun s => Timeout s
  | S fuel' => run_iteration ;; run_loop fuel'
  end.

(** The statements of [run] before [try]. *)
Definition run_prologue (target_steps0 : option Z) : M unit :=
  match target_steps0 with
  | Some t =>
      s <- get ;;
      (if target_steps s <? t then modify (set_restart true) else ret tt) ;;
      modify (set_target_steps t) ;;
      emit (Info (MsgTargetedSteps t))
  | None => ret tt
  end ;;
  s <- get ;;
  modify (set_initial_steps (steps s)) ;;
  run_pre ;;
  report.

(** The body of [try]. *)
Definition run_body (fuel : nat) : M unit :=
  s <- get ;;
  notify (_targeters s) ;;
  s1 <- get ;;
  (if negb (restart s1) then notify (_non_targeters s1) else ret tt) ;;
  s2 <- get ;;
  emit (Info (MsgStarting (steps s2))) ;;
  emit (Info MsgBlank) ;;
  run_loop fuel.

(** The [except] clauses, applied to the outcome of the body. *)
Definition run_except (r : result unit) : result unit :=
  match r with
  | Raise (SimulationEnd m) s =>
      (call_observer (writer_checkpoint s) ;;
       emit (Info (MsgText m)) ;;
       s' <- get ;;
       if initial_steps s' =? steps s' then ret tt else _report_end) s
  | Raise KeyboardInterrupt s => Return tt s
  | Raise e s => (emit (Error MsgFailed) ;; raise e) s
  | _ => r
  end.

(** The [finally] clause. *)
Definition run_finally (r : result unit) : result unit :=
  match r with
  | Return a s => Return a (set_trace (trace s ++ [Info MsgGoodbye]) s)
  | Raise e s => Raise e (set_trace (trace s ++ [Info MsgGoodbye]) s)
  | Timeout s => Timeout s
  end.

(** The [try] statement of [run]. *)
Definition run_try (fuel : nat) : M unit :=
  fun s => run_finally (run_except (run_body fuel s)).

(** [Simulation.run(target_steps=None)]. *)
Definition run (target_steps0 : option Z) (fuel : nat) : M unit :=
  run_prologue target_steps0 ;;
  run_try fuel.

End Methods.

(** ** The ledger as a list of registrations *)

Abbreviation registration := (observer * sched)%type.

(** [zip(self._callback, self._scheduler)]. *)
Definition ledger (s : Simulation) : list registration :=
  combine (_callback s) (_scheduler s).

(** [add] called once for each registration, in order. *)
Fixpoint add_all (regs : list registration) : M unit :=
  match regs with
  | [] => ret tt
  | (o, sc) :: rest => add o sc ;; add_all rest
  end.

(** A writer other than the checkpoint writer [wc]. *)
Definition plain_writer (wc : observer) (p : registration) : bool :=
  negb (is_Target (fst p)) && negb (observer_eqb (fst p) wc).

(** The ordering invariant of the ledger: the two lists run in parallel,
    the checkpoint writer is not a [Target], the non-targets come before
    the targets, and a registered checkpoint writer is the last
    non-target. *)
Definition ledger_ok (s : Simulation) : Prop :=
  List.length (_callback s) = List.length (_scheduler s) /\
  is_Target (writer_checkpoint s) = false /\
  _callback s = _non_targeters s ++ _targeters s /\
  (In (writer_checkpoint s) (_callback s) ->
   exists pre, _non_targeters s = pre ++ [writer_checkpoint s]).

(** The same invariant on registrations: [N] holds the non-targets and
    [T] the targets. *)
Definition ledger_split (s : Simulation) (N T : list registration) : Prop :=
  _callback s = map fst (N ++ T) /\
  _scheduler s = map snd (N ++ T) /\
  Forall (fun p => is_Target (fst p) = false) N /\
  Forall (fun p => is_Target (fst p) = true) T /\
  is_Target (writer_checkpoint s) = false /\
  (In (writer_checkpoint s) (map fst N) ->
   exists pre p, N = pre ++ [p] /\ fst p = writer_checkpoint s).

(** ** Example worlds, simulations and registrations *)

(** A backend with one particle whose clock advances by one second at
    each reading; nothing interrupts the run. *)
Definition ticking_world : World :=
  mkWorld (fun k => inject_Z (Z.of_nat k)) (fun _ _ => None) (fun _ _ => None) (Some 1).

(** [Simulation(initial_state, steps=50)]. *)
Definition sim50 : Simulation :=
  state_of (Simulation_init ticking_world None 50 None 0 0 0 0 0 0 0 false).

(** A user callback every 10 steps, an rmsd target and a second
    user callback every 25 steps. *)
Definition example_regs : list registration :=
  [ (mkObserver 7 Callback, Periodic (mkScheduler (Some 10) None None));
    (mkObserver 8 (TargetRMSD 5), Periodic (mkScheduler (Some 10000) None None));
    (mkObserver 9 Callback, Periodic (mkScheduler (Some 25) None None)) ].

(** ** Reading the trace *)

(** The events that record an observer call or a call of [run_until]. *)
Definition is_call (e : event) : bool :=
  match e with
  | Call _ _ | RunUntil _ => true
  | _ => false
  end.

Definition calls_of (evs : list event) : list event := filter is_call evs.

(** A registration is due when its scheduler answers [next_step] at
    step [this]. *)
Definition is_due (this next_step : Z) (p : registration) : bool :=
  match sched_next (snd p) this with
  | inr n => n =? next_step
  | inl _ => false
  end.

(** The observers due at [next_step], in ledger order. *)
Definition due_observers (s : Simulation) (next_step : Z) : list observer :=
  map fst (filter (is_due (steps s) next_step) (ledger s)).

(** A computation that never rebinds [self.writer_checkpoint]. *)
Definition keeps_checkpoint {A : Type} (m : M A) : Prop :=
  forall s, writer_checkpoint (state_of (m s)) = writer_checkpoint s.

(** [sim50] after the statements of [run(50)] before [try], and at the
    point where the body of [try] is left. *)
Definition sim50_started : Simulation :=
  state_of (run_prologue (Some 50) sim50).

Definition sim50_ended : Simulation :=
  state_of (run_body ticking_world 100 sim50_started).

(** [sim50] once [run(50)] has returned. *)
Definition sim50_after_run : Simulation :=
  state_of (run ticking_world (Some 50) 100 sim50).

(** [Simulation(initial_state, steps=100)] with
    [add(TargetWallTime(0), Scheduler(1))]. *)
Definition wall_time_target : observer := mkObserver 7 (TargetWallTime 0).

Definition sim_wall_time : Simulation :=
  state_of
    (add wall_time_target (Periodic (mkScheduler (Some 1) None None))
       (state_of (Simulation_init ticking_world None 100 None 0 0 0 0 0 0 0 false))).

(** [isinstance(o, TargetWallTime)]. *)
Definition is_wall_time_target (o : observer) : bool :=
  match cls o with
  | TargetWallTime _ | TargetWallTimeNamed _ _ _ => true
  | _ => false
  end.

(** [Simulation(initial_state, steps=100)] with a wall-time target of 5
    seconds that carries the attributes of a [Target]
    ([t = TargetWallTime(5.); t.name = 'steps'; t.target = 5.]),
    registered by [add(t, Scheduler(100))]. *)
Definition coarse_wall_time_target : observer :=
  mkObserver 7 (TargetWallTimeNamed 5 attr_steps (PyFloat 5)).

Definition sim_coarse_wall_time : Simulation :=
  state_of
    (add coarse_wall_time_target (Periodic (mkScheduler (Some 100) None None))
       (state_of (Simulation_init ticking_world None 100 None 0 0 0 0 0 0 0 false))).

(** That simulation at the point where [run()] enters its loop: the
    state in which no pass of the loop is allowed. *)
Definition sim_coarse_at_loop : Simulation :=
  state_of (run ticking_world None 0 sim_coarse_wall_time).

(** A backend whose [run_until] is interrupted by the operator. *)
Definition interrupting_world : World :=
  mkWorld (fun k => inject_Z (Z.of_nat k)) (fun _ _ => Some KeyboardInterrupt)
    (fun _ _ => None) (Some 1).

Definition sim50_interrupted : Simulation :=
  state_of (run_body interrupting_world 10 sim50_started).

(** The base class alone: no [system] attribute, [run_until] is [pass]. *)
Definition base_world : World :=
  mkWorld (fun k => inject_Z (Z.of_nat k)) (fun _ _ => None) (fun _ _ => None) None.

(** [Simulation(initial_state)], the step target left at its default 0. *)
Definition sim0 : Simulation :=
  state_of (Simulation_init base_world None 0 None 0 0 0 0 0 0 0 false).

(** ** Well-formed schedules *)

(** A one-time scheduler is usable when its interval is positive (the
    constructor passes [max(1, ...)]); periodic schedulers always are. *)
Definition usable (sc : sched) : Prop :=
  match sc with
  | Periodic _ => True
  | Onetime o => 0 < onetime_interval o
  end.

(** ** Reading the report *)

(** A [TargetWallTime] object as its constructor leaves it. *)
Definition is_TargetWallTime (o : observer) : bool :=
  match cls o with
  | TargetWallTime _ => true
  | _ => false
  end.

(** The lines logged by [run] before [try]. *)
Definition is_report_line (e : event) : bool :=
  match e with
  | Info (MsgTargetedSteps _) | Info MsgBlank | Info MsgTitle | Info MsgVersion
  | Info (MsgTarget _) | Info (MsgWriter _ _) => true
  | _ => false
  end.

(** ** Runs that reach the step target *)

(** A clock that moves forward between any two readings. *)
Definition clock_ticks (w : World) : Prop :=
  forall k : nat, (clock w k < clock w (S k))%Q.

(** The observers that [Simulation.__init__] registers when no [rmsd] is
    given: the writers, the speedometers and [TargetSteps(N)]. *)
Definition is_default_observer (N : Z) (o : observer) : Prop :=
  match cls o with
  | WriterThermo | WriterConfig | WriterCheckpoint | Speedometer _ => True
  | Target attr_steps t => t = PyInt N
  | _ => False
  end.

(** What a speedometer bound to the step target [N] has stored after a
    call: the step count and the clock reading of that call. *)
Definition speedometer_behind (w : World) (N : Z) (s : Simulation)
  (st : SpeedometerState) : Prop :=
  name_target st = attr_steps /\
  x_target st = inject_Z N /\
  (exists x, x_last st = inject_Z x /\ x <= steps s) /\
  (exists k, (k < reads s)%nat /\ t_last st = clock w k).

(** The attributes of the simulation that [run] leaves alone after the
    statements before [try]. *)
Definition same_setup (s0 s : Simulation) : Prop :=
  _callback s = _callback s0 /\
  _scheduler s = _scheduler s0 /\
  initial_steps s = initial_steps s0 /\
  writer_checkpoint s = writer_checkpoint s0 /\
  restart s = restart s0.

(** The invariant of the loop of [run] for a simulation with default
    observers. *)
Definition run_invariant (w : World) (N : Z) (s0 s : Simulation) : Prop :=
  same_setup s0 s /\
  Forall (fun p => speedometer_behind w N s (snd p)) (speedometers s).

(** A speedometer that is called at the current step for the first time
    since the step counter moved: either it was never called, or the
    step it stored is behind and steps were taken in this run. *)
Definition speedometer_ready (s : Simulation) (o : observer) : Prop :=
  forall st, lookup_speedometer (oid o) (speedometers s) = Some st ->
             (exists x, x_last st = inject_Z x /\ x < steps s) /\
             initial_steps s <> steps s.

(** A simulation as the constructor leaves it (no [rmsd]), possibly
    advanced: parallel lists, usable schedulers, distinct default
    observers, the step target [N] registered every [N] steps. *)
Definition default_setup (N : Z) (s : Simulation) : Prop :=
  List.length (_callback s) = List.length (_scheduler s) /\
  Forall usable (_scheduler s) /\
  NoDup (map oid (_callback s)) /\
  Forall (is_default_observer N) (_callback s) /\
  (exists c p, In (c, Periodic p) (ledger s) /\ is_Target c = true /\
               interval p = Some N) /\
  cls (writer_checkpoint s) = WriterCheckpoint.

(** ** What [run] leaves alone *)

(** A computation that leaves the observation [f] of the simulation
    unchanged, however it ends. *)
Definition keeps {X A : Type} (f : Simulation -> X) (m : M A) : Prop :=
  forall s, f (state_of (m s)) = f s.

(** The attributes assigned by the constructor, by [add] and by the
    statements of [run] before [try]. *)
Record Setup : Type := mkSetup {
  setup_callback : list observer;
  setup_scheduler : list sched;
  setup_fixcm_interval : Z;
  setup_output_path : option string;
  setup_start_time : Q;
  setup_writer_thermo : observer;
  setup_writer_config : observer;
  setup_writer_checkpoint : observer;
  setup_restart : bool;
  setup_target_steps : Z;
  setup_initial_steps : Z
}.

Definition setup_of (s : Simulation) : Setup :=
  mkSetup (_callback s) (_scheduler s) (fixcm_interval s) (output_path s)
    (start_time s) (writer_thermo s) (writer_config s) (writer_checkpoint s)
    (restart s) (target_steps s) (initial_steps s).





(** A world whose clock advances at every reading and stays within one
    second: the k-th reading is [k / (k + 1)]. *)
Definition quick_world : World :=
  mkWorld (fun k => Qmake (Z.of_nat k) (Pos.of_succ_nat k))
    (fun _ _ => None) (fun _ _ => None) (Some 1).

(** [Simulation(initial_state, steps=50)] built in that world. *)
Definition quick_sim50 : Simulation :=
  state_of (Simulation_init quick_world None 50 None 0 0 0 0 0 0 0 false).

(* ================================================================== *)
(** * Properties *)

(** ** Arithmetic of [Scheduler.next] *)

Lemma next_multiple_gt (i x : Z) : 0 < i -> x < (x / i + 1) * i.
Proof.
  intros Hi.
  pose proof (Z.div_mod x i ltac:(lia)) as Hdm.
  pose proof (Z.mod_pos_bound x i Hi) as Hb.
  nia.
Qed.

Lemma next_multiple_least (i x m : Z) :
  0 < i -> x < m -> (i | m) -> (x / i + 1) * i <= m.
Proof.
  intros Hi Hlt [q ->].
  assert (x / i < q) by (apply Z.div_lt_upper_bound; lia).
  nia.
Qed.

Lemma next_multiple_quotient (i x : Z) : 0 < i -> (x / i + 1) * i / i = x / i + 1.
Proof.
  intros Hi. apply Z.div_mul. lia.
Qed.

Lemma Scheduler_next_fixed (s : Scheduler) (i x : Z) :
  interval s = Some i -> 0 < i -> Scheduler_next s x = (x / i + 1) * i.
Proof.
  intros Hs Hi. unfold Scheduler_next. rewrite Hs.
  destruct (Z.ltb_spec 0 i); [reflexivity | lia].
Qed.

Lemma Scheduler_next_iter (s : Scheduler) (i x : Z) (n : nat) :
  interval s = Some i -> 0 < i ->
  Nat.iter (S n) (Scheduler_next s) x = (x / i + Z.of_nat (S n)) * i.
Proof.
  intros Hs Hi. induction n as [|n IH].
  - simpl. rewrite (Scheduler_next_fixed s i x Hs Hi). reflexivity.
  - change (Nat.iter (S (S n)) (Scheduler_next s) x)
      with (Scheduler_next s (Nat.iter (S n) (Scheduler_next s) x)).
    rewrite IH, (Scheduler_next_fixed s i _ Hs Hi).
    rewrite Z.div_mul by lia. f_equal. lia.
Qed.

(** C4: for [interval > 0] (and [step >= 0]) the constructor keeps the
    interval and [next(step)] is [((step // interval) + 1) * interval], with
    floor division, in both modules; this is the least multiple of the
    interval strictly above [step]; repeated application from [step] is
    strictly increasing and reaches every multiple of the interval above
    [step]. *)
Theorem Scheduler_next_multiples (interval0 step : Z) (calls0 target0 : option Z) :
  0 < interval0 -> 0 <= step ->
  exists (s : Scheduler) (s' : Observers.Scheduler),
    Scheduler_init (Some interval0) calls0 target0 = inr s /\
    Observers.Scheduler_init (Some interval0) calls0 target0 = inr s' /\
    (forall x, Observers.Scheduler_next s' x = Scheduler_next s x) /\
    Scheduler_next s step = (step / interval0 + 1) * interval0 /\
    step < Scheduler_next s step /\
    (interval0 | Scheduler_next s step) /\
    (forall m, step < m -> (interval0 | m) -> Scheduler_next s step <= m) /\
    (forall n, Nat.iter n (Scheduler_next s) step
               < Nat.iter (S n) (Scheduler_next s) step) /\
    (forall k, step < k * interval0 ->
               exists n, Nat.iter n (Scheduler_next s) step = k * interval0).
Proof.
  intros Hi Hstep.
  exists (mkScheduler (Some interval0) calls0 target0).
  exists (Observers.mkScheduler (Some interval0) calls0 target0).
  assert (Hgt : py2_gt0 (Some interval0) = true) by (apply Z.ltb_lt; exact Hi).
  set (s := mkScheduler (Some interval0) calls0 target0).
  assert (Hs : interval s = Some interval0) by reflexivity.
  repeat split.
  - unfold Scheduler_init. rewrite Hgt. reflexivity.
  - unfold Observers.Scheduler_init. rewrite Hgt. reflexivity.
  - apply (Scheduler_next_fixed s interval0 step Hs Hi).
  - rewrite (Scheduler_next_fixed s interval0 step Hs Hi).
    apply next_multiple_gt; exact Hi.
  - rewrite (Scheduler_next_fixed s interval0 step Hs Hi).
    exists (step / interval0 + 1). reflexivity.
  - intros m Hm Hd. rewrite (Scheduler_next_fixed s interval0 step Hs Hi).
    apply next_multiple_least; assumption.
  - intros n.
    change (Nat.iter (S n) (Scheduler_next s) step)
      with (Scheduler_next s (Nat.iter n (Scheduler_next s) step)).
    rewrite (Scheduler_next_fixed s interval0 _ Hs Hi).
    apply next_multiple_gt; exact Hi.
  - intros k Hk.
    assert (Hq : step / interval0 < k) by (apply Z.div_lt_upper_bound; lia).
    exists (S (Z.to_nat (k - step / interval0 - 1))).
    rewrite (Scheduler_next_iter s interval0 step _ Hs Hi).
    f_equal. lia.
Qed.

Lemma Scheduler_next_multiples_witness :
  exists (s : Scheduler) (s' : Observers.Scheduler),
    Scheduler_init (Some 10) None None = inr s /\
    Observers.Scheduler_init (Some 10) None None = inr s' /\
    (forall x, Observers.Scheduler_next s' x = Scheduler_next s x) /\
    Scheduler_next s 25 = (25 / 10 + 1) * 10 /\
    25 < Scheduler_next s 25 /\
    (10 | Scheduler_next s 25) /\
    (forall m, 25 < m -> (10 | m) -> Scheduler_next s 25 <= m) /\
    (forall n, Nat.iter n (Scheduler_next s) 25
               < Nat.iter (S n) (Scheduler_next s) 25) /\
    (forall k, 25 < k * 10 ->
               exists n, Nat.iter n (Scheduler_next s) 25 = k * 10).
Proof.
  apply (Scheduler_next_multiples 10 25 None None); lia.
Defined.

(** C7: with [interval == 0] and [calls > 0], construction raises the
    configuration error ([SchedulerError], [ValueError] in
    [observers.py]) when [target] is unset; with a target it succeeds and
    the derived interval is [max(1, target / calls)]; [calls = 5] and
    [target = 100] give the interval 20. *)
Theorem Scheduler_init_fixed_calls (c : Z) :
  0 < c ->
  Scheduler_init (Some 0) (Some c) None
    = inl (SchedulerError "dynamic scheduling not implemented") /\
  Observers.Scheduler_init (Some 0) (Some c) None
    = inl (ValueError "dynamic scheduling not implemented") /\
  (forall t,
     Scheduler_init (Some 0) (Some c) (Some t)
       = inr (mkScheduler (Some (Z.max 1 (t / c))) (Some c) (Some t)) /\
     Observers.Scheduler_init (Some 0) (Some c) (Some t)
       = inr (Observers.mkScheduler (Some (Z.max 1 (t / c))) (Some c) (Some t))) /\
  option_map interval
    (match Scheduler_init (Some 0) (Some 5) (Some 100) with
     | inr s => Some s
     | inl _ => None
     end) = Some (Some 20).
Proof.
  intros Hc.
  assert (Hgt : (0 <? c) = true) by (apply Z.ltb_lt; exact Hc).
  unfold Scheduler_init, Observers.Scheduler_init. simpl py2_gt0.
  cbv iota. rewrite Hgt.
  repeat split.
Qed.

Lemma Scheduler_init_fixed_calls_witness :
  Scheduler_init (Some 0) (Some 5) None
    = inl (SchedulerError "dynamic scheduling not implemented") /\
  Observers.Scheduler_init (Some 0) (Some 5) None
    = inl (ValueError "dynamic scheduling not implemented") /\
  (forall t,
     Scheduler_init (Some 0) (Some 5) (Some t)
       = inr (mkScheduler (Some (Z.max 1 (t / 5))) (Some 5) (Some t)) /\
     Observers.Scheduler_init (Some 0) (Some 5) (Some t)
       = inr (Observers.mkScheduler (Some (Z.max 1 (t / 5))) (Some 5) (Some t))) /\
  option_map interval
    (match Scheduler_init (Some 0) (Some 5) (Some 100) with
     | inr s => Some s
     | inl _ => None
     end) = Some (Some 20).
Proof.
  apply (Scheduler_init_fixed_calls 5). lia.
Defined.

(** C10: with no step taken since the snapshot of [run]
    ([steps == initial_steps]), [wall_time_per_step] reads the clock and
    raises [ZeroDivisionError], and so does
    [wall_time_per_step_particle], which calls it first. *)
Theorem wall_time_per_step_no_steps (w : World) (s : Simulation) :
  steps s = initial_steps s ->
  wall_time_per_step w s
    = Raise (ZeroDivisionError "float division by zero") (set_reads (S (reads s)) s) /\
  wall_time_per_step_particle w s
    = Raise (ZeroDivisionError "float division by zero") (set_reads (S (reads s)) s).
Proof.
  intros Heq.
  assert (H : wall_time_per_step w s
              = Raise (ZeroDivisionError "float division by zero")
                  (set_reads (S (reads s)) s)).
  { unfold wall_time_per_step, elapsed_wall_time, time_time, bind, get, ret. simpl.
    rewrite Heq, Z.sub_diag. reflexivity. }
  split; [exact H|].
  unfold wall_time_per_step_particle, bind. rewrite H. reflexivity.
Qed.

(** ** Python list operations *)

Lemma observer_eqb_eq (a b : observer) : observer_eqb a b = true <-> a = b.
Proof.
  unfold observer_eqb. destruct (observer_eq_dec a b); split; congruence.
Qed.

Lemma observer_eqb_refl (a : observer) : observer_eqb a a = true.
Proof. apply observer_eqb_eq. reflexivity. Qed.

Lemma index_None (x : observer) (l : list observer) :
  index x l = None -> ~ In x l.
Proof.
  induction l as [|y l IH]; simpl; [tauto|].
  destruct (observer_eqb y x) eqn:E; [discriminate|].
  destruct (index x l); [discriminate|].
  intros _ [H|H].
  - subst. rewrite observer_eqb_refl in E. discriminate.
  - exact (IH eq_refl H).
Qed.

Lemma index_In (x : observer) (l : list observer) :
  In x l -> exists i, index x l = Some i.
Proof.
  intros H. destruct (index x l) eqn:E; [eauto|].
  exfalso. exact (index_None x l E H).
Qed.

Lemma index_app_l (x : observer) (l l' : list observer) (i : nat) :
  index x l = Some i -> index x (l ++ l') = Some i.
Proof.
  revert i. induction l as [|y l IH]; simpl; [discriminate|].
  intros i. destruct (observer_eqb y x); [trivial|].
  destruct (index x l) as [j|]; [|discriminate].
  rewrite (IH j eq_refl). trivial.
Qed.

(** The first occurrence found by [index], on a list of registrations. *)
Lemma index_map_split (x : observer) (N : list registration) (i : nat) :
  index x (map fst N) = Some i ->
  exists A p B,
    N = A ++ p :: B /\ fst p = x /\ List.length A = i /\ ~ In x (map fst A).
Proof.
  revert i. induction N as [|q N IH]; simpl; [discriminate|].
  intros i. destruct (observer_eqb (fst q) x) eqn:E.
  - intros [= <-]. exists [], q, N. apply observer_eqb_eq in E.
    repeat split; simpl; auto.
  - destruct (index x (map fst N)) as [j|]; [|discriminate].
    intros [= <-]. destruct (IH j eq_refl) as (A & p & B & -> & Hp & Hl & Hn).
    exists (q :: A), p, B. repeat split; simpl; auto.
    intros [H|H]; [|tauto].
    apply observer_eqb_eq in H. congruence.
Qed.

Lemma py_pop_middle {A : Type} (l1 : list A) (x : A) (l2 : list A) :
  py_pop (List.length l1) (l1 ++ x :: l2) = Some (x, l1 ++ l2).
Proof.
  induction l1 as [|a l1 IH]; [reflexivity|].
  unfold py_pop in *. simpl.
  destruct (nth_error (l1 ++ x :: l2) (List.length l1)); [|discriminate].
  injection IH as -> H. simpl in H. rewrite H. reflexivity.
Qed.

Lemma py_insert_middle {A : Type} (l1 : list A) (x : A) (l2 : list A) :
  py_insert (Z.of_nat (List.length l1)) x (l1 ++ l2) = l1 ++ x :: l2.
Proof.
  unfold py_insert.
  destruct (Z.ltb_spec (Z.of_nat (List.length l1)) 0); [lia|].
  rewrite length_app, Z.min_l by lia.
  rewrite Nat2Z.id.
  rewrite firstn_app, Nat.sub_diag, firstn_all. simpl. rewrite app_nil_r.
  rewrite skipn_app, Nat.sub_diag, skipn_all. reflexivity.
Qed.

Lemma filter_Forall_true {A : Type} (f : A -> bool) (l : list A) :
  Forall (fun x => f x = true) l -> filter f l = l.
Proof.
  induction 1 as [|x l Hx _ IH]; simpl; [reflexivity|].
  rewrite Hx, IH. reflexivity.
Qed.

Lemma filter_Forall_false {A : Type} (f : A -> bool) (l : list A) :
  Forall (fun x => f x = false) l -> filter f l = [].
Proof.
  induction 1 as [|x l Hx _ IH]; simpl; [reflexivity|].
  rewrite Hx, IH. reflexivity.
Qed.

Lemma combine_map_fst_snd {A B : Type} (L : list (A * B)) :
  combine (map fst L) (map snd L) = L.
Proof.
  induction L as [|[a b] L IH]; simpl; [reflexivity|]. rewrite IH. reflexivity.
Qed.

Lemma map_fst_combine_eq {A B : Type} (l : list A) (l' : list B) :
  List.length l = List.length l' -> map fst (combine l l') = l.
Proof.
  revert l'. induction l as [|a l IH]; intros [|b l']; simpl; try discriminate.
  - reflexivity.
  - intros [= H]. rewrite (IH l' H). reflexivity.
Qed.

Lemma map_snd_combine_eq {A B : Type} (l : list A) (l' : list B) :
  List.length l = List.length l' -> map snd (combine l l') = l'.
Proof.
  revert l'. induction l as [|a l IH]; intros [|b l']; simpl; try discriminate.
  - reflexivity.
  - intros [= H]. rewrite (IH l' H). reflexivity.
Qed.

(** ** The ledger under [add] *)

Lemma index_Some_In (x : observer) (l : list observer) (i : nat) :
  index x l = Some i -> In x l.
Proof.
  intros H. destruct (in_dec observer_eq_dec x l) as [Hin|Hin]; [exact Hin|].
  exfalso. revert i H. induction l as [|y l IH]; simpl; [discriminate|].
  intros i. destruct (observer_eqb y x) eqn:E.
  - apply observer_eqb_eq in E. subst. simpl in Hin. tauto.
  - destruct (index x l) as [j|]; [|discriminate].
    intros _. apply (IH (fun H => Hin (or_intror H)) j eq_refl).
Qed.

Lemma non_targeters_split (N T : list registration) :
  Forall (fun p => is_Target (fst p) = false) N ->
  Forall (fun p => is_Target (fst p) = true) T ->
  filter (fun o => negb (is_Target o)) (map fst (N ++ T)) = map fst N.
Proof.
  intros HN HT. rewrite map_app, filter_app.
  rewrite (filter_Forall_true _ (map fst N)), (filter_Forall_false _ (map fst T)).
  - apply app_nil_r.
  - apply Forall_map. eapply Forall_impl; [|exact HT]. simpl. intros p ->. reflexivity.
  - apply Forall_map. eapply Forall_impl; [|exact HN]. simpl. intros p ->. reflexivity.
Qed.

Lemma targeters_split (N T : list registration) :
  Forall (fun p => is_Target (fst p) = false) N ->
  Forall (fun p => is_Target (fst p) = true) T ->
  filter is_Target (map fst (N ++ T)) = map fst T.
Proof.
  intros HN HT. rewrite map_app, filter_app.
  rewrite (filter_Forall_false _ (map fst N)), (filter_Forall_true _ (map fst T)).
  - reflexivity.
  - apply Forall_map. exact HT.
  - apply Forall_map. exact HN.
Qed.

(** What the [try] block of [add] does to a ledger whose non-targets [N1]
    precede its targets [T1]. *)
Lemma add_checkpoint_last_split (s : Simulation) (N1 T1 : list registration) :
  _callback s = map fst (N1 ++ T1) ->
  _scheduler s = map snd (N1 ++ T1) ->
  Forall (fun p => is_Target (fst p) = false) N1 ->
  Forall (fun p => is_Target (fst p) = true) T1 ->
  is_Target (writer_checkpoint s) = false ->
  exists N',
    add_checkpoint_last s
      = Return tt (set_ledger (map fst (N' ++ T1)) (map snd (N' ++ T1)) s) /\
    ((~ In (writer_checkpoint s) (map fst N1) /\ N' = N1) \/
     (exists A p B,
        N1 = A ++ p :: B /\ fst p = writer_checkpoint s /\
        ~ In (writer_checkpoint s) (map fst A) /\ N' = A ++ B ++ [p])).
Proof.
  intros Hcb Hsc HN HT Hwc.
  assert (HnotT : ~ In (writer_checkpoint s) (map fst T1)).
  { intros Hin. apply in_map_iff in Hin. destruct Hin as (p & Hp & Hin).
    rewrite Forall_forall in HT. specialize (HT p Hin). congruence. }
  unfold add_checkpoint_last, bind, get.
  destruct (index (writer_checkpoint s) (_callback s)) as [idx|] eqn:Hidx.
  - (* the checkpoint writer is registered: it sits among the non-targets *)
    assert (HinN : In (writer_checkpoint s) (map fst N1)).
    { apply index_Some_In in Hidx. rewrite Hcb, map_app in Hidx.
      apply in_app_or in Hidx. tauto. }
    destruct (index_In _ _ HinN) as [j Hj].
    assert (idx = j).
    { pose proof (index_app_l _ _ (map fst T1) _ Hj) as H.
      rewrite <- map_app in H. rewrite <- Hcb in H. congruence. }
    subst j.
    destruct (index_map_split _ _ _ Hj) as (A & p & B & -> & Hp & Hlen & HnA).
    exists (A ++ B ++ [p]). split.
    2:{ right. exists A, p, B. auto. }
    assert (Hcnt : Z.of_nat (List.length (_non_targeters s)) - 1
                   = Z.of_nat (List.length (A ++ B))).
    { unfold _non_targeters. rewrite Hcb, (non_targeters_split _ _ HN HT).
      rewrite length_map, !length_app. simpl. lia. }
    assert (Hcb' : _callback s = map fst A ++ fst p :: map fst (B ++ T1)).
    { rewrite Hcb, <- app_assoc, map_app. reflexivity. }
    assert (Hsc' : _scheduler s = map snd A ++ snd p :: map snd (B ++ T1)).
    { rewrite Hsc, <- app_assoc, map_app. reflexivity. }
    subst idx.
    assert (Hpop1 : py_pop (List.length A) (_callback s)
                    = Some (fst p, map fst ((A ++ B) ++ T1))).
    { rewrite Hcb', <- (length_map fst A), py_pop_middle.
      rewrite <- map_app, app_assoc. reflexivity. }
    assert (Hpop2 : py_pop (List.length A) (_scheduler s)
                    = Some (snd p, map snd ((A ++ B) ++ T1))).
    { rewrite Hsc', <- (length_map snd A), py_pop_middle.
      rewrite <- map_app, app_assoc. reflexivity. }
    assert (Hins : forall (X : Type) (f : registration -> X),
               py_insert (Z.of_nat (List.length (A ++ B))) (f p) (map f ((A ++ B) ++ T1))
               = map f ((A ++ B ++ [p]) ++ T1)).
    { intros X f. rewrite (map_app f (A ++ B)), <- (length_map f (A ++ B)).
      rewrite py_insert_middle. rewrite !map_app. simpl.
      rewrite <- !app_assoc. reflexivity. }
    cbv zeta. rewrite Hcnt, Hpop1.
    unfold modify, set_callback. simpl.
    rewrite Hpop2. rewrite !Hins. reflexivity.
  - (* not registered: the [ValueError] is caught *)
    exists N1. split.
    + unfold ret. rewrite <- Hcb, <- Hsc. destruct s; reflexivity.
    + left. split; [|reflexivity].
      intros Hin. apply (index_None _ _ Hidx).
      rewrite Hcb, map_app. apply in_or_app. auto.
Qed.

Lemma add_step (o : observer) (sc : sched) (s : Simulation) (N T : list registration) :
  ledger_split s N T ->
  exists N',
    let T1 := if is_Target o then T ++ [(o, sc)] else T in
    let s' := set_ledger (map fst (N' ++ T1)) (map snd (N' ++ T1)) s in
    add o sc s = Return tt s' /\
    ledger_split s' N' T1 /\
    Permutation N' (if is_Target o then N else (o, sc) :: N) /\
    filter (plain_writer (writer_checkpoint s)) N'
      = filter (plain_writer (writer_checkpoint s))
          (if is_Target o then N else (o, sc) :: N) /\
    (is_Target o = false -> o <> writer_checkpoint s ->
     exists rest, N' = (o, sc) :: rest).
Proof.
  intros (Hcb & Hsc & HN & HT & Hwc & Hlast).
  set (N1 := if is_Target o then N else (o, sc) :: N).
  set (T1 := if is_Target o then T ++ [(o, sc)] else T).
  set (s1 := if negb (is_Target o)
             then set_ledger (o :: _callback s) (sc :: _scheduler s) s
             else set_ledger (_callback s ++ [o]) (_scheduler s ++ [sc]) s).
  assert (Hadd : add o sc s = add_checkpoint_last s1).
  { unfold add, bind, get, modify, s1. destruct (is_Target o); reflexivity. }
  assert (Hcb1 : _callback s1 = map fst (N1 ++ T1)).
  { unfold s1, N1, T1. destruct (is_Target o); simpl; rewrite Hcb.
    - rewrite app_assoc, (map_app fst (N ++ T)). reflexivity.
    - reflexivity. }
  assert (Hsc1 : _scheduler s1 = map snd (N1 ++ T1)).
  { unfold s1, N1, T1. destruct (is_Target o); simpl; rewrite Hsc.
    - rewrite app_assoc, (map_app snd (N ++ T)). reflexivity.
    - reflexivity. }
  assert (Hwc1 : writer_checkpoint s1 = writer_checkpoint s).
  { unfold s1. destruct (is_Target o); reflexivity. }
  assert (HN1 : Forall (fun p => is_Target (fst p) = false) N1).
  { unfold N1. destruct (is_Target o) eqn:Ho; [exact HN|].
    constructor; [exact Ho | exact HN]. }
  assert (HT1 : Forall (fun p => is_Target (fst p) = true) T1).
  { unfold T1. destruct (is_Target o) eqn:Ho; [|exact HT].
    apply Forall_app. split; [exact HT|]. constructor; [exact Ho | constructor]. }
  assert (Hwc1' : is_Target (writer_checkpoint s1) = false) by (rewrite Hwc1; exact Hwc).
  destruct (add_checkpoint_last_split s1 N1 T1 Hcb1 Hsc1 HN1 HT1 Hwc1')
    as (N' & Hrun & Hshape).
  exists N'. cbv zeta.
  assert (Hs' : set_ledger (map fst (N' ++ T1)) (map snd (N' ++ T1)) s1
                = set_ledger (map fst (N' ++ T1)) (map snd (N' ++ T1)) s).
  { unfold s1. destruct (is_Target o); reflexivity. }
  rewrite Hs' in Hrun. rewrite Hwc1 in Hshape.
  split; [rewrite Hadd; exact Hrun|].
  destruct Hshape as [[Hnin ->] | (A & p & B & HeqN1 & Hp & HnA & ->)].
  - (* the checkpoint writer is not registered *)
    split; [|split; [|split]].
    + unfold ledger_split. simpl. repeat split; auto. tauto.
    + apply Permutation_refl.
    + reflexivity.
    + intros Ho _. exists N. unfold N1. rewrite Ho. reflexivity.
  - (* it moves behind the other non-targets *)
    assert (HN' : Forall (fun q => is_Target (fst q) = false) (A ++ B ++ [p])).
    { rewrite HeqN1 in HN1. apply Forall_app in HN1. destruct HN1 as [HA HpB].
      inversion HpB; subst. repeat (apply Forall_app; split); auto. }
    split; [|split; [|split]].
    + unfold ledger_split. simpl. repeat split; auto.
      intros _. exists (A ++ B), p. rewrite <- app_assoc. auto.
    + fold N1. rewrite HeqN1. apply Permutation_app_head.
      apply Permutation_sym, Permutation_cons_append.
    + fold N1. rewrite HeqN1. rewrite !filter_app. simpl.
      assert (Hpl : plain_writer (writer_checkpoint s) p = false).
      { unfold plain_writer. rewrite Hp, observer_eqb_refl.
        apply andb_false_r. }
      rewrite Hpl. rewrite app_nil_r. reflexivity.
    + intros Ho Hne. unfold N1 in HeqN1. rewrite Ho in HeqN1.
      destruct A as [|a A]; simpl in HeqN1.
      * exfalso. injection HeqN1 as Hq _. subst p. simpl in Hp. congruence.
      * injection HeqN1 as <- _. exists (A ++ B ++ [p]). reflexivity.
Qed.

Lemma add_all_app (l1 l2 : list registration) (s : Simulation) :
  add_all (l1 ++ l2) s = bind (add_all l1) (fun _ => add_all l2) s.
Proof.
  revert s. induction l1 as [|[o sc] l1 IH]; intros s; simpl.
  - reflexivity.
  - unfold bind in *. destruct (add o sc s) as [[] s1| |]; auto.
Qed.

Lemma map_fst_filter (f : observer -> bool) (l : list registration) :
  map fst (filter (fun p => f (fst p)) l) = filter f (map fst l).
Proof.
  induction l as [|p l IH]; simpl; [reflexivity|].
  destruct (f (fst p)); simpl; rewrite IH; reflexivity.
Qed.

(** Any sequence of [add] calls, on the decomposed ledger. *)
Lemma add_all_split (regs : list registration) :
  forall (s : Simulation) (N T : list registration),
    ledger_split s N T ->
    exists N',
      let T' := T ++ filter (fun p => is_Target (fst p)) regs in
      let s' := set_ledger (map fst (N' ++ T')) (map snd (N' ++ T')) s in
      add_all regs s = Return tt s' /\
      ledger_split s' N' T' /\
      Permutation (N' ++ T') ((N ++ T) ++ regs) /\
      filter (plain_writer (writer_checkpoint s)) N'
        = rev (filter (plain_writer (writer_checkpoint s)) regs)
          ++ filter (plain_writer (writer_checkpoint s)) N /\
      (forall regs0 o sc,
         regs = regs0 ++ [(o, sc)] ->
         is_Target o = false -> o <> writer_checkpoint s ->
         exists rest, N' = (o, sc) :: rest).
Proof.
  induction regs as [|[o sc] regs0 IH] using rev_ind; intros s N T Hsplit.
  - exists N. cbv zeta. simpl. rewrite !app_nil_r.
    assert (Hs : set_ledger (map fst (N ++ T)) (map snd (N ++ T)) s = s).
    { destruct Hsplit as (Hcb & Hsc & _). rewrite <- Hcb, <- Hsc.
      destruct s; reflexivity. }
    rewrite Hs. split; [reflexivity|]. split; [exact Hsplit|].
    split; [apply Permutation_refl|]. split; [reflexivity|].
    intros regs1 o sc Habs. destruct regs1; discriminate.
  - destruct (IH s N T Hsplit) as (N0 & Hrun0 & Hsplit0 & Hperm0 & Hplain0 & _).
    cbv zeta in Hrun0, Hsplit0, Hperm0.
    set (T0 := T ++ filter (fun p => is_Target (fst p)) regs0) in *.
    set (s0 := set_ledger (map fst (N0 ++ T0)) (map snd (N0 ++ T0)) s) in *.
    destruct (add_step o sc s0 N0 T0 Hsplit0)
      as (N' & Hrun & Hsplit' & Hperm & Hplain & Hhead).
    cbv zeta in Hrun, Hsplit'.
    change (writer_checkpoint s0) with (writer_checkpoint s) in *.
    set (T1 := if is_Target o then T0 ++ [(o, sc)] else T0) in *.
    assert (HT1 : T1 = T ++ filter (fun p => is_Target (fst p)) (regs0 ++ [(o, sc)])).
    { unfold T1, T0. rewrite filter_app. simpl.
      destruct (is_Target o); [rewrite <- app_assoc | rewrite app_nil_r]; reflexivity. }
    exists N'. cbv zeta. rewrite <- HT1.
    split; [|split; [|split; [|split]]].
    + rewrite add_all_app. unfold bind. rewrite Hrun0.
      change (add_all [(o, sc)] s0) with (bind (add o sc) (fun _ => ret tt) s0).
      unfold bind. rewrite Hrun. reflexivity.
    + exact Hsplit'.
    + rewrite app_assoc.
      transitivity ((N0 ++ T0) ++ [(o, sc)]).
      2:{ apply Permutation_app_tail. exact Hperm0. }
      unfold T1. destruct (is_Target o).
      * rewrite app_assoc. do 2 apply Permutation_app_tail. exact Hperm.
      * transitivity (((o, sc) :: N0) ++ T0).
        { apply Permutation_app_tail. exact Hperm. }
        simpl. apply Permutation_cons_append.
    + rewrite Hplain, filter_app, rev_app_distr.
      assert (Hpw : is_Target o = true ->
                    plain_writer (writer_checkpoint s) (o, sc) = false).
      { intros H. unfold plain_writer. simpl. rewrite H. reflexivity. }
      destruct (is_Target o) eqn:Ho; cbn [filter rev app].
      * rewrite (Hpw eq_refl). cbn [rev app]. exact Hplain0.
      * destruct (plain_writer (writer_checkpoint s) (o, sc));
          cbn [rev app]; rewrite Hplain0; reflexivity.
    + intros regs1 o' sc' Heq Ho Hne.
      apply app_inj_tail in Heq. destruct Heq as [_ Heq].
      injection Heq as <- <-. exact (Hhead Ho Hne).
Qed.

Lemma ledger_split_ok (s : Simulation) (N T : list registration) :
  ledger_split s N T ->
  ledger_ok s /\
  ledger s = N ++ T /\
  _non_targeters s = map fst N /\
  _targeters s = map fst T.
Proof.
  intros (Hcb & Hsc & HN & HT & Hwc & Hlast).
  assert (Hnt : _non_targeters s = map fst N).
  { unfold _non_targeters. rewrite Hcb. apply non_targeters_split; assumption. }
  assert (Htg : _targeters s = map fst T).
  { unfold _targeters. rewrite Hcb. apply targeters_split; assumption. }
  split; [|split; [|split]]; auto.
  - unfold ledger_ok. rewrite Hnt, Htg. split; [|split; [|split]].
    + rewrite Hcb, Hsc, !length_map. reflexivity.
    + exact Hwc.
    + rewrite Hcb. apply map_app.
    + intros Hin. rewrite Hcb, map_app in Hin. apply in_app_or in Hin.
      destruct Hin as [Hin|Hin].
      * destruct (Hlast Hin) as (pre & p & -> & Hp).
        exists (map fst pre). rewrite map_app. simpl. rewrite Hp. reflexivity.
      * exfalso. apply in_map_iff in Hin. destruct Hin as (p & Hp & Hin).
        rewrite Forall_forall in HT. specialize (HT p Hin). congruence.
  - unfold ledger. rewrite Hcb, Hsc. apply combine_map_fst_snd.
Qed.

Lemma ledger_ok_split (s : Simulation) :
  ledger_ok s -> exists N T, ledger_split s N T.
Proof.
  intros (Hlen & Hwc & Hord & Hck).
  assert (Hcb : _callback s = map fst (ledger s))
    by (symmetry; apply map_fst_combine_eq; exact Hlen).
  assert (Hsc : _scheduler s = map snd (ledger s))
    by (symmetry; apply map_snd_combine_eq; exact Hlen).
  assert (HF1 : Forall (fun o => is_Target o = false) (_non_targeters s)).
  { apply Forall_forall. intros o Ho. apply filter_In in Ho.
    destruct Ho as [_ Ho]. apply negb_true_iff in Ho. exact Ho. }
  assert (HF2 : Forall (fun o => is_Target o = true) (_targeters s)).
  { apply Forall_forall. intros o Ho. apply filter_In in Ho. tauto. }
  remember (_non_targeters s) as F1 eqn:EF1.
  remember (_targeters s) as F2 eqn:EF2.
  assert (Hm : map fst (ledger s) = F1 ++ F2) by congruence.
  apply map_eq_app in Hm. destruct Hm as (N & T & HL & HmN & HmT).
  exists N, T. unfold ledger_split. rewrite <- HL.
  split; [exact Hcb|]. split; [exact Hsc|].
  split; [|split; [|split]].
  - rewrite <- HmN in HF1. apply Forall_map in HF1. exact HF1.
  - rewrite <- HmT in HF2. apply Forall_map in HF2. exact HF2.
  - exact Hwc.
  - intros Hin.
    assert (Hin' : In (writer_checkpoint s) (_callback s)).
    { rewrite Hord, <- HmN. apply in_or_app. auto. }
    destruct (Hck Hin') as (pre & Hpre).
    rewrite <- HmN in Hpre. apply map_eq_app in Hpre.
    destruct Hpre as (N1 & N2 & -> & _ & H2).
    destruct N2 as [|p [|q N2]]; try discriminate.
    injection H2 as H2. exists N1, p. auto.
Qed.

(** C2: after any sequence of [add] calls on a simulation whose ledger is
    in order, every call has succeeded and changed the ledger only; the
    ledger is in order again (parallel lists, non-targets before targets,
    a registered checkpoint writer last among the non-targets, that is
    immediately before the first target); the targets are the former
    targets followed by the added ones in the order of the calls; the
    registrations of the ledger are the former ones and the added ones,
    each observer with the scheduler it came with; the writers other than
    the checkpoint writer stand newest first, and a writer just added is
    the head of the ledger. *)
Theorem add_keeps_ledger_order (regs : list registration) (s0 : Simulation) :
  ledger_ok s0 ->
  exists s',
    add_all regs s0 = Return tt s' /\
    s' = set_ledger (_callback s') (_scheduler s') s0 /\
    ledger_ok s' /\
    _targeters s' = _targeters s0 ++ filter is_Target (map fst regs) /\
    (In (writer_checkpoint s0) (_callback s') ->
     exists pre,
       _callback s' = pre ++ writer_checkpoint s0 :: _targeters s' /\
       Forall (fun o => is_Target o = false) pre) /\
    Permutation (ledger s') (ledger s0 ++ regs) /\
    filter (plain_writer (writer_checkpoint s0)) (ledger s')
      = rev (filter (plain_writer (writer_checkpoint s0)) regs)
        ++ filter (plain_writer (writer_checkpoint s0)) (ledger s0) /\
    (forall regs0 o sc,
       regs = regs0 ++ [(o, sc)] ->
       is_Target o = false -> o <> writer_checkpoint s0 ->
       exists rest, ledger s' = (o, sc) :: rest).
Proof.
  intros Hok.
  destruct (ledger_ok_split s0 Hok) as (N & T & Hsplit).
  destruct (add_all_split regs s0 N T Hsplit)
    as (N' & Hrun & Hsplit' & Hperm & Hplain & Hhead).
  cbv zeta in Hrun, Hsplit'.
  set (T' := T ++ filter (fun p => is_Target (fst p)) regs) in *.
  set (s' := set_ledger (map fst (N' ++ T')) (map snd (N' ++ T')) s0) in *.
  destruct (ledger_split_ok s0 N T Hsplit) as (_ & HL0 & Hnt0 & Htg0).
  destruct (ledger_split_ok s' N' T' Hsplit') as (Hok' & HL' & Hnt' & Htg').
  assert (HT : Forall (fun p : registration => is_Target (fst p) = true) T)
    by (destruct Hsplit as (_ & _ & _ & HT & _); exact HT).
  assert (HN : Forall (fun p : registration => is_Target (fst p) = false) N)
    by (destruct Hsplit as (_ & _ & HN & _); exact HN).
  assert (HN' : Forall (fun p : registration => is_Target (fst p) = false) N')
    by (destruct Hsplit' as (_ & _ & HN' & _); exact HN').
  assert (Hfilt : forall (L1 L2 : list registration),
             Forall (fun p => is_Target (fst p) = false) L1 ->
             Forall (fun p => is_Target (fst p) = true) L2 ->
             filter (plain_writer (writer_checkpoint s0)) (L1 ++ L2)
             = filter (plain_writer (writer_checkpoint s0)) L1).
  { intros L1 L2 _ H2. rewrite filter_app.
    rewrite (filter_Forall_false _ L2); [apply app_nil_r|].
    eapply Forall_impl; [|exact H2]. simpl. intros p Hp.
    unfold plain_writer. rewrite Hp. reflexivity. }
  exists s'. split; [exact Hrun|].
  split; [reflexivity|]. split; [exact Hok'|].
  split; [|split; [|split; [|split]]].
  - rewrite Htg', Htg0. unfold T'. rewrite map_app, map_fst_filter. reflexivity.
  - intros Hin.
    destruct Hok' as (_ & _ & Hord & Hck).
    change (writer_checkpoint s') with (writer_checkpoint s0) in Hck.
    destruct (Hck Hin) as (pre & Hpre).
    exists pre. split.
    + rewrite Hord at 1. rewrite Hpre, <- app_assoc. reflexivity.
    + assert (HF : Forall (fun o => is_Target o = false) (_non_targeters s')).
      { rewrite Hnt'. apply Forall_map. exact HN'. }
      rewrite Hpre in HF. apply Forall_app in HF. tauto.
  - rewrite HL', HL0. exact Hperm.
  - rewrite HL', HL0.
    assert (HT'F : Forall (fun p : registration => is_Target (fst p) = true) T')
      by (destruct Hsplit' as (_ & _ & _ & H & _); exact H).
    rewrite (Hfilt N' T' HN' HT'F), (Hfilt N T HN HT). exact Hplain.
  - intros regs0 o sc Heq Ho Hne.
    destruct (Hhead regs0 o sc Heq Ho Hne) as (rest & ->).
    rewrite HL'. exists (rest ++ T'). reflexivity.
Qed.

Lemma bind_assoc {A B C : Type} (m : M A) (k : A -> M B) (k' : B -> M C) (s : Simulation) :
  bind (bind m k) k' s = bind m (fun a => bind (k a) k') s.
Proof.
  unfold bind. destruct (m s); reflexivity.
Qed.

Lemma Scheduler_init_with_target (i c : option Z) (t : Z) :
  exists sc, Scheduler_init i c (Some t) = inr sc.
Proof.
  unfold Scheduler_init. destruct (py2_gt0 i); [eauto|].
  destruct c as [c|]; [|eauto]. destruct (0 <? c); eauto.
Qed.

(** Every constructed simulation has its ledger in order, with the
    checkpoint writer registered. (The constructor raises [OverflowError]
    when [steps] is too large for a float.) *)
Lemma Simulation_init_ledger_ok (w : World) (output_path0 : option string)
  (steps0 : Z) (rmsd0 : option Q)
  (thermo_interval thermo_number config_interval config_number
   checkpoint_interval checkpoint_number fixcm_interval0 : Z) (restart0 : bool)
  (s : Simulation) :
  Simulation_init w output_path0 steps0 rmsd0 thermo_interval thermo_number
    config_interval config_number checkpoint_interval checkpoint_number
    fixcm_interval0 restart0 = Return tt s ->
  ledger_ok s /\
  writer_checkpoint s = mkObserver 2 WriterCheckpoint /\
  In (writer_checkpoint s) (_callback s).
Proof.
  unfold Simulation_init.
  set (s0 := mkSimulation [] [] fixcm_interval0 restart0 output_path0 0 0 (clock w O)
               steps0 (mkObserver 0 WriterThermo) (mkObserver 1 WriterConfig)
               (mkObserver 2 WriterCheckpoint) [] 1%nat
               (match output_path0 with Some p => [Mkdir p] | None => [] end)).
  destruct (Scheduler_init_with_target None (Some 10) steps0) as [sc3 H3].
  destruct (Scheduler_init_with_target (Some thermo_interval) (Some thermo_number) steps0)
    as [sc4 H4].
  destruct (Scheduler_init_with_target (Some config_interval) (Some config_number) steps0)
    as [sc5 H5].
  destruct (Scheduler_init_with_target (Some checkpoint_interval)
              (Some checkpoint_number) steps0) as [sc6 H6].
  assert (H1 : Scheduler_init (Some (Z.max 1 steps0)) None None
               = inr (mkScheduler (Some (Z.max 1 steps0)) None None)).
  { unfold Scheduler_init. simpl. destruct (Z.ltb_spec 0 (Z.max 1 steps0)); [reflexivity|lia]. }
  rewrite H1, H3, H4, H5, H6. clear H1 H3 H4 H5 H6.
  change (Scheduler_init (Some 10000) None None)
    with (@inr exn Scheduler (mkScheduler (Some 10000) None None)).
  destruct (py_float steps0) as [e|x].
  { (* the conversion of [steps] fails: no object is constructed *)
    intros Hinit. exfalso. revert Hinit.
    destruct rmsd0 as [r|]; cbn [lift]; unfold bind, ret, raise;
      repeat match goal with
             | |- context [add ?o ?sc ?st] =>
                 destruct (add o sc st) as [[] ?|? ?|?]; try discriminate
             end. }
  set (regs := [(mkObserver 3 (TargetSteps steps0),
                 Periodic (mkScheduler (Some (Z.max 1 steps0)) None None))]
               ++ match rmsd0 with
                  | Some r => [(mkObserver 4 (TargetRMSD r),
                                Periodic (mkScheduler (Some 10000) None None))]
                  | None => []
                  end
               ++ [(mkObserver 5 (Speedometer None), Periodic sc3);
                   (mkObserver 6 (Speedometer (Some "ETA")),
                    Onetime (mkOnetimeScheduler
                               (Z.max 1 (py_int (round53 (x / 200))))));
                   (mkObserver 0 WriterThermo, Periodic sc4);
                   (mkObserver 1 WriterConfig, Periodic sc5);
                   (mkObserver 2 WriterCheckpoint, Periodic sc6)]).
  match goal with |- ?run = _ -> _ => assert (Hrun : run = add_all regs s0) end.
  { unfold regs.
    destruct rmsd0 as [r|]; cbn [app add_all lift];
      unfold bind, ret;
      repeat match goal with
             | |- context [add ?o ?sc ?st] =>
                 destruct (add o sc st) as [[] ?|? ?|?]; try reflexivity
             end. }
  rewrite Hrun. clear Hrun.
  assert (Hsplit0 : ledger_split s0 [] []).
  { unfold ledger_split. simpl. repeat split; auto. intros []. }
  destruct (add_all_split regs s0 [] [] Hsplit0) as (N' & Hr & Hsplit & Hperm & _).
  cbv zeta in Hr, Hsplit, Hperm.
  set (T' := [] ++ filter (fun p : registration => is_Target (fst p)) regs) in *.
  set (s' := set_ledger (map fst (N' ++ T')) (map snd (N' ++ T')) s0) in *.
  rewrite Hr. intros Hinit. injection Hinit as <-.
  destruct (ledger_split_ok s' N' T' Hsplit) as (Hok & HL & _).
  split; [exact Hok|]. split; [reflexivity|].
  destruct Hsplit as (Hcb & _). rewrite Hcb.
  assert (Hin : In (mkObserver 2 WriterCheckpoint, Periodic sc6) (N' ++ T')).
  { apply (Permutation_in (l := ([] ++ []) ++ regs));
      [apply Permutation_sym; exact Hperm|].
    cbn [app]. unfold regs. apply in_or_app. right. apply in_or_app. right.
    simpl. tauto. }
  apply (in_map fst) in Hin. exact Hin.
Qed.

Lemma sim50_ledger_ok : ledger_ok sim50.
Proof.
  unfold ledger_ok. split; [reflexivity|]. split; [reflexivity|].
  split; [reflexivity|]. intros _.
  exists (firstn 4 (_callback sim50)). vm_compute. reflexivity.
Qed.

Lemma add_keeps_ledger_order_witness :
  ledger_ok sim50 /\
  exists s',
    add_all example_regs sim50 = Return tt s' /\
    s' = set_ledger (_callback s') (_scheduler s') sim50 /\
    ledger_ok s' /\
    _targeters s' = _targeters sim50 ++ filter is_Target (map fst example_regs) /\
    (In (writer_checkpoint sim50) (_callback s') ->
     exists pre,
       _callback s' = pre ++ writer_checkpoint sim50 :: _targeters s' /\
       Forall (fun o => is_Target o = false) pre) /\
    Permutation (ledger s') (ledger sim50 ++ example_regs) /\
    filter (plain_writer (writer_checkpoint sim50)) (ledger s')
      = rev (filter (plain_writer (writer_checkpoint sim50)) example_regs)
        ++ filter (plain_writer (writer_checkpoint sim50)) (ledger sim50) /\
    (forall regs0 o sc,
       example_regs = regs0 ++ [(o, sc)] ->
       is_Target o = false -> o <> writer_checkpoint sim50 ->
       exists rest, ledger s' = (o, sc) :: rest).
Proof.
  split.
  - exact sim50_ledger_ok.
  - apply (add_keeps_ledger_order example_regs sim50). exact sim50_ledger_ok.
Defined.

(** ** Traces of observer calls *)

Ltac break_match :=
  match goal with
  | |- context [match ?x with _ => _ end] =>
      match x with
      | context [match _ with _ => _ end] => fail 1
      | _ => destruct x eqn:?
      end
  | |- context [if ?x then _ else _] =>
      match x with
      | context [if _ then _ else _] => fail 1
      | _ => destruct x eqn:?
      end
  end.

(** A call records itself, may log, and leaves the step counter alone. *)
Lemma call_observer_trace (w : World) (o : observer) (s : Simulation) :
  exists evs,
    trace (state_of (call_observer w o s)) = trace s ++ Call o (steps s) :: evs /\
    calls_of evs = [] /\
    steps (state_of (call_observer w o s)) = steps s /\
    _callback (state_of (call_observer w o s)) = _callback s /\
    _scheduler (state_of (call_observer w o s)) = _scheduler s.
Proof.
  unfold call_observer, Speedometer_call, Target_call, TargetWallTime_call,
    UserStop_call, wall_time_per_step_particle, wall_time_per_step,
    getattr_float, rmsd, elapsed_wall_time, time_time, lift,
    bind, get, emit, modify, ret, raise.
  cbn [state_of trace steps set_trace set_reads reads _callback speedometers
       output_path start_time initial_steps].
  repeat (break_match;
          cbn [state_of trace steps set_trace set_reads reads _callback _scheduler
               speedometers set_speedometers output_path start_time initial_steps] in *);
    try discriminate;
    (eexists; split;
     [rewrite <- ?app_assoc; cbn [app]; reflexivity
     | repeat split; reflexivity]).
Qed.

Lemma calls_of_app (l1 l2 : list event) :
  calls_of (l1 ++ l2) = calls_of l1 ++ calls_of l2.
Proof. apply filter_app. Qed.

(** [notify] calls a prefix of its argument, in order, at the current
    step: all of it unless an observer raises. *)
Lemma notify_trace (w : World) (observers : list observer) :
  forall s : Simulation,
  exists called rest evs,
    observers = called ++ rest /\
    trace (state_of (notify w observers s)) = trace s ++ evs /\
    calls_of evs = map (fun o => Call o (steps s)) called /\
    steps (state_of (notify w observers s)) = steps s /\
    (forall u s', notify w observers s = Return u s' -> rest = []).
Proof.
  induction observers as [|o obs IH]; intros s.
  - exists [], [], []. simpl. rewrite app_nil_r. repeat split; auto.
  - destruct (call_observer_trace w o s) as (evs1 & Htr1 & Hc1 & Hst1 & _).
    cbn [notify]. unfold bind.
    destruct (call_observer w o s) as [[] s1|e s1|s1] eqn:Hcall;
      cbn [state_of] in Htr1, Hst1.
    + destruct (IH s1) as (called & rest & evs & Hobs & Htr & Hc & Hst & Hret).
      exists (o :: called), rest, (Call o (steps s) :: evs1 ++ evs).
      split; [simpl; rewrite Hobs; reflexivity|].
      split; [rewrite Htr, Htr1, <- app_assoc; reflexivity|].
      split; [|split; [congruence | exact Hret]].
      change (Call o (steps s) :: evs1 ++ evs)
        with ([Call o (steps s)] ++ evs1 ++ evs).
      rewrite !calls_of_app, Hc1, Hc, Hst1. reflexivity.
    + exists [o], obs, (Call o (steps s) :: evs1).
      split; [reflexivity|]. split; [exact Htr1|].
      split; [|split; [exact Hst1 | discriminate]].
      change (Call o (steps s) :: evs1) with ([Call o (steps s)] ++ evs1).
      rewrite calls_of_app, Hc1. reflexivity.
    + exists [o], obs, (Call o (steps s) :: evs1).
      split; [reflexivity|]. split; [exact Htr1|].
      split; [|split; [exact Hst1 | discriminate]].
      change (Call o (steps s) :: evs1) with ([Call o (steps s)] ++ evs1).
      rewrite calls_of_app, Hc1. reflexivity.
Qed.

(** ** The loop body *)

Lemma all_next_Forall2 (scs : list sched) (this : Z) :
  forall ns, all_next scs this = inr ns ->
             Forall2 (fun sc n => sched_next sc this = inr n) scs ns.
Proof.
  induction scs as [|sc scs IH]; simpl; intros ns H.
  - injection H as <-. constructor.
  - destruct (sched_next sc this) as [e|n] eqn:Hn; [discriminate|].
    destruct (all_next scs this) as [e|ns'] eqn:Hns; [discriminate|].
    injection H as <-. constructor; auto.
Qed.

Lemma py_min_Some (ns : list Z) (m : Z) :
  py_min ns = Some m -> In m ns /\ Forall (fun n => m <= n) ns.
Proof.
  revert m. induction ns as [|x ns IH]; simpl; intros m H; [discriminate|].
  destruct (py_min ns) as [m'|] eqn:Hm.
  - destruct (IH m' eq_refl) as [Hin Hall]. injection H as <-.
    destruct (Z.ltb_spec m' x).
    + split; [auto|]. constructor; [lia | exact Hall].
    + split; [auto|]. constructor; [lia|].
      eapply Forall_impl; [|exact Hall]. simpl. intros. lia.
  - injection H as <-. destruct ns; [|simpl in Hm; destruct (py_min ns); discriminate].
    split; [auto|]. constructor; [lia | constructor].
Qed.

Lemma py_min_nonempty (ns : list Z) : ns <> [] -> exists m, py_min ns = Some m.
Proof.
  destruct ns as [|x ns]; [congruence|]. intros _. simpl.
  destruct (py_min ns); eauto.
Qed.

(** The index comprehension followed by the lookups selects the
    registrations that are due. *)
Lemma getitems_enumerate (this m : Z) (cb : list observer) :
  forall (scs : list sched) (ns : list Z) (pre : list observer),
    Forall2 (fun sc n => sched_next sc this = inr n) scs ns ->
    List.length cb = List.length scs ->
    getitems (pre ++ cb) (enumerate_eq (List.length pre) ns m)
    = inr (map fst (filter (is_due this m) (combine cb scs))).
Proof.
  induction cb as [|o cb IH]; intros scs ns pre HF Hlen.
  - destruct scs; [|discriminate]. inversion HF; subst. reflexivity.
  - destruct scs as [|sc scs]; [discriminate|].
    inversion HF as [|sc' n scs' ns' Hn HF']; subst.
    injection Hlen as Hlen.
    specialize (IH scs ns' (pre ++ [o]) HF' Hlen).
    rewrite <- app_assoc, length_app, Nat.add_comm in IH. simpl in IH.
    cbn [enumerate_eq combine filter]. unfold is_due at 1. simpl snd. rewrite Hn.
    destruct (n =? m).
    + cbn [getitems]. rewrite nth_error_app2 by lia. rewrite Nat.sub_diag.
      simpl nth_error. cbv iota. rewrite IH. reflexivity.
    + exact IH.
Qed.

(** The loop body, once the comprehensions have been evaluated. *)
Lemma run_iteration_unfold (w : World) (s : Simulation) (all_steps : list Z) (m : Z) :
  List.length (_callback s) = List.length (_scheduler s) ->
  all_next (_scheduler s) (steps s) = inr all_steps ->
  py_min all_steps = Some m ->
  run_iteration w s
  = (run_until w m ;; modify (set_steps m) ;; notify w (due_observers s m)) s.
Proof.
  intros Hlen Hall Hmin.
  pose proof (all_next_Forall2 _ _ _ Hall) as HF.
  unfold run_iteration. unfold bind at 1, get at 1.
  rewrite Hall. unfold bind at 1, lift at 1, ret at 1.
  rewrite Hmin.
  pose proof (getitems_enumerate (steps s) m (_callback s) (_scheduler s)
                all_steps [] HF Hlen) as Hget.
  simpl in Hget. rewrite Hget.
  unfold bind at 1, lift at 1, ret at 1. reflexivity.
Qed.

(** The advance and the dispatch, when the backend returns. *)
Lemma advance_and_dispatch_trace (w : World) (s : Simulation) (m : Z)
  (observers : list observer) :
  backend_run_until w (steps s) m = None ->
  exists called rest evs,
    observers = called ++ rest /\
    trace (state_of ((run_until w m ;; modify (set_steps m) ;; notify w observers) s))
      = trace s ++ RunUntil m :: evs /\
    calls_of evs = map (fun o => Call o m) called /\
    steps (state_of ((run_until w m ;; modify (set_steps m) ;; notify w observers) s))
      = m /\
    (forall u s',
       (run_until w m ;; modify (set_steps m) ;; notify w observers) s = Return u s' ->
       rest = []).
Proof.
  intros Hback.
  unfold run_until, bind, get, emit, modify. rewrite Hback. unfold ret.
  set (s2 := set_steps m (set_trace (trace s ++ [RunUntil m]) s)).
  destruct (notify_trace w observers s2)
    as (called & rest & evs & Hobs & Htr & Hc & Hst & Hret).
  exists called, rest, evs.
  split; [exact Hobs|].
  split; [rewrite Htr; unfold s2; simpl; rewrite <- app_assoc; reflexivity|].
  split; [exact Hc|]. split; [exact Hst | exact Hret].
Qed.

(** C3: one pass of the main loop. With [all_steps] the answers of
    [scheduler.next(steps)] for every registration, [next_step] is their
    minimum; the pass calls [run_until(next_step)], sets [steps] to
    [next_step] and then notifies the observers whose scheduler answered
    [next_step], in ledger order. When the backend returns, the trace of
    the pass is the [run_until] followed by calls, all at step
    [next_step], of a prefix of these observers: of all of them when the
    pass completes, up to the one that raised otherwise. *)
Theorem run_iteration_dispatch (w : World) (s : Simulation) (all_steps : list Z) :
  List.length (_callback s) = List.length (_scheduler s) ->
  _scheduler s <> [] ->
  all_next (_scheduler s) (steps s) = inr all_steps ->
  exists next_step,
    Forall2 (fun sc n => sched_next sc (steps s) = inr n) (_scheduler s) all_steps /\
    In next_step all_steps /\
    Forall (fun n => next_step <= n) all_steps /\
    run_iteration w s
      = (run_until w next_step ;;
         modify (set_steps next_step) ;;
         notify w (due_observers s next_step)) s /\
    (backend_run_until w (steps s) next_step = None ->
     exists called rest evs,
       due_observers s next_step = called ++ rest /\
       trace (state_of (run_iteration w s)) = trace s ++ RunUntil next_step :: evs /\
       calls_of evs = map (fun o => Call o next_step) called /\
       steps (state_of (run_iteration w s)) = next_step /\
       (forall u s', run_iteration w s = Return u s' -> rest = [])).
Proof.
  intros Hlen Hne Hall.
  pose proof (all_next_Forall2 _ _ _ Hall) as HF.
  assert (Hne' : all_steps <> []).
  { intros ->. inversion HF as [Hs|]. congruence. }
  destruct (py_min_nonempty all_steps Hne') as [m Hmin].
  destruct (py_min_Some _ _ Hmin) as [Hin Hle].
  pose proof (run_iteration_unfold w s all_steps m Hlen Hall Hmin) as Hiter.
  exists m. split; [exact HF|]. split; [exact Hin|]. split; [exact Hle|].
  split; [exact Hiter|].
  intros Hback. rewrite Hiter.
  exact (advance_and_dispatch_trace w s m (due_observers s m) Hback).
Qed.

Lemma run_iteration_dispatch_witness :
  exists next_step,
    Forall2 (fun sc n => sched_next sc (steps sim50) = inr n) (_scheduler sim50)
      [maxint; maxint; 1; 5; maxint; 50] /\
    In next_step [maxint; maxint; 1; 5; maxint; 50] /\
    Forall (fun n => next_step <= n) [maxint; maxint; 1; 5; maxint; 50] /\
    run_iteration ticking_world sim50
      = (run_until ticking_world next_step ;;
         modify (set_steps next_step) ;;
         notify ticking_world (due_observers sim50 next_step)) sim50 /\
    (backend_run_until ticking_world (steps sim50) next_step = None ->
     exists called rest evs,
       due_observers sim50 next_step = called ++ rest /\
       trace (state_of (run_iteration ticking_world sim50))
         = trace sim50 ++ RunUntil next_step :: evs /\
       calls_of evs = map (fun o => Call o next_step) called /\
       steps (state_of (run_iteration ticking_world sim50)) = next_step /\
       (forall u s', run_iteration ticking_world sim50 = Return u s' -> rest = [])).
Proof.
  apply (run_iteration_dispatch ticking_world sim50 [maxint; maxint; 1; 5; maxint; 50]).
  - reflexivity.
  - discriminate.
  - vm_compute. reflexivity.
Defined.

(** ** The checkpoint writer is never rebound *)

Lemma keeps_checkpoint_bind {A B : Type} (m : M A) (k : A -> M B) :
  keeps_checkpoint m -> (forall a, keeps_checkpoint (k a)) ->
  keeps_checkpoint (bind m k).
Proof.
  intros Hm Hk s. unfold bind. specialize (Hm s).
  destruct (m s) as [a s1|e s1|s1]; simpl in *; [|assumption..].
  rewrite (Hk a s1). exact Hm.
Qed.

Lemma keeps_checkpoint_ret {A : Type} (a : A) : keeps_checkpoint (ret a).
Proof. intros s. reflexivity. Qed.

Lemma keeps_checkpoint_raise {A : Type} (e : exn) : keeps_checkpoint (@raise A e).
Proof. intros s. reflexivity. Qed.

Lemma keeps_checkpoint_get : keeps_checkpoint get.
Proof. intros s. reflexivity. Qed.

Lemma keeps_checkpoint_emit (e : event) : keeps_checkpoint (emit e).
Proof. intros s. reflexivity. Qed.

Lemma keeps_checkpoint_lift {A : Type} (x : exn + A) : keeps_checkpoint (lift x).
Proof. intros s. destruct x; reflexivity. Qed.

Lemma keeps_checkpoint_call_observer (w : World) (o : observer) :
  keeps_checkpoint (call_observer w o).
Proof.
  intros s.
  unfold call_observer, Speedometer_call, Target_call, TargetWallTime_call,
    UserStop_call, wall_time_per_step_particle, wall_time_per_step,
    getattr_float, rmsd, elapsed_wall_time, time_time, lift,
    bind, get, emit, modify, ret, raise.
  cbn [state_of trace steps set_trace set_reads reads _callback speedometers
       output_path start_time initial_steps].
  repeat (break_match;
          cbn [state_of trace steps set_trace set_reads reads _callback _scheduler
               speedometers set_speedometers output_path start_time initial_steps
               writer_checkpoint] in *);
    try discriminate; reflexivity.
Qed.

Lemma keeps_checkpoint_notify (w : World) (observers : list observer) :
  keeps_checkpoint (notify w observers).
Proof.
  induction observers as [|o obs IH]; cbn [notify].
  - apply keeps_checkpoint_ret.
  - apply keeps_checkpoint_bind; [apply keeps_checkpoint_call_observer | intros; exact IH].
Qed.

Lemma keeps_checkpoint_run_until (w : World) (n : Z) : keeps_checkpoint (run_until w n).
Proof.
  intros s. unfold run_until, bind, get, emit, modify, ret, raise. simpl.
  destruct (backend_run_until w (steps s) n); reflexivity.
Qed.

Lemma keeps_checkpoint_run_iteration (w : World) : keeps_checkpoint (run_iteration w).
Proof.
  unfold run_iteration.
  apply keeps_checkpoint_bind; [apply keeps_checkpoint_get | intros s0].
  apply keeps_checkpoint_bind; [apply keeps_checkpoint_lift | intros all_steps].
  destruct (py_min all_steps); [|apply keeps_checkpoint_raise].
  apply keeps_checkpoint_bind; [apply keeps_checkpoint_lift | intros next_obs].
  apply keeps_checkpoint_bind; [apply keeps_checkpoint_run_until | intros _].
  apply keeps_checkpoint_bind; [intros s; reflexivity | intros _].
  apply keeps_checkpoint_notify.
Qed.

Lemma keeps_checkpoint_run_loop (w : World) (fuel : nat) : keeps_checkpoint (run_loop w fuel).
Proof.
  induction fuel as [|fuel IH]; cbn [run_loop].
  - intros s. reflexivity.
  - apply keeps_checkpoint_bind; [apply keeps_checkpoint_run_iteration | intros; exact IH].
Qed.

Lemma keeps_checkpoint_run_body (w : World) (fuel : nat) : keeps_checkpoint (run_body w fuel).
Proof.
  unfold run_body.
  apply keeps_checkpoint_bind; [apply keeps_checkpoint_get | intros s0].
  apply keeps_checkpoint_bind; [apply keeps_checkpoint_notify | intros _].
  apply keeps_checkpoint_bind; [apply keeps_checkpoint_get | intros s1].
  apply keeps_checkpoint_bind.
  { destruct (negb (restart s1));
      [apply keeps_checkpoint_notify | apply keeps_checkpoint_ret]. }
  intros _.
  apply keeps_checkpoint_bind; [apply keeps_checkpoint_get | intros s2].
  apply keeps_checkpoint_bind; [apply keeps_checkpoint_emit | intros _].
  apply keeps_checkpoint_bind; [apply keeps_checkpoint_emit | intros _].
  apply keeps_checkpoint_run_loop.
Qed.

Lemma keeps_checkpoint_report_observers (l : list registration) :
  keeps_checkpoint (_report_observers l).
Proof.
  induction l as [|[f sc] l IH]; cbn [_report_observers].
  - apply keeps_checkpoint_ret.
  - apply keeps_checkpoint_bind; [|intros; exact IH].
    destruct (is_Target f); [destruct (cls f)|];
      first [apply keeps_checkpoint_emit | apply keeps_checkpoint_raise].
Qed.

Lemma keeps_checkpoint_run_prologue (target_steps0 : option Z) :
  keeps_checkpoint (run_prologue target_steps0).
Proof.
  unfold run_prologue, report, run_pre.
  apply keeps_checkpoint_bind.
  { destruct target_steps0 as [t|]; [|apply keeps_checkpoint_ret].
    apply keeps_checkpoint_bind; [apply keeps_checkpoint_get | intros s0].
    apply keeps_checkpoint_bind.
    { destruct (target_steps s0 <? t); [intros s; reflexivity | apply keeps_checkpoint_ret]. }
    intros _.
    apply keeps_checkpoint_bind; [intros s; reflexivity | intros _].
    apply keeps_checkpoint_emit. }
  intros _.
  apply keeps_checkpoint_bind; [apply keeps_checkpoint_get | intros s0].
  apply keeps_checkpoint_bind; [intros s; reflexivity | intros _].
  apply keeps_checkpoint_bind; [apply keeps_checkpoint_ret | intros _].
  repeat (apply keeps_checkpoint_bind; [apply keeps_checkpoint_emit | intros _]).
  apply keeps_checkpoint_bind; [apply keeps_checkpoint_get | intros s1].
  apply keeps_checkpoint_report_observers.
Qed.

(** ** Termination of [run] *)

Lemma call_WriterCheckpoint (w : World) (o : observer) (s : Simulation) :
  cls o = WriterCheckpoint ->
  call_observer w o s = Return tt (set_trace (trace s ++ [Call o (steps s)]) s).
Proof.
  intros Hcls. unfold call_observer, bind, get, emit, modify, ret.
  rewrite Hcls. reflexivity.
Qed.

(** The end-of-run summary, when steps were taken. *)
Lemma report_end_outcome (w : World) (s : Simulation) :
  initial_steps s <> steps s ->
  exists evs,
    trace (state_of (_report_end w s)) = trace s ++ evs /\
    calls_of evs = [] /\
    (exists x, In (Info (MsgFinalRmsd x)) evs) /\
    steps (state_of (_report_end w s)) = steps s /\
    (forall m s', _report_end w s <> Raise (SimulationEnd m) s') /\
    (forall s', _report_end w s <> Timeout s') /\
    ((exists n, particles w = Some n /\ n <> 0) ->
     exists s', _report_end w s = Return tt s').
Proof.
  intros Hneq.
  assert (Hd : (steps s - initial_steps s =? 0) = false) by (apply Z.eqb_neq; lia).
  unfold _report_end, wall_time_per_step_particle, wall_time_per_step, rmsd,
    elapsed_wall_time, time_time, bind, get, emit, modify, ret, raise.
  cbn [state_of trace steps set_trace set_reads reads initial_steps start_time].
  rewrite Hd.
  destruct (particles w) as [n|] eqn:Hp; [destruct (Z.eqb_spec n 0) as [Hn|Hn]|];
    cbn [state_of trace steps set_trace set_reads reads initial_steps start_time];
    (eexists; split; [rewrite <- ?app_assoc; cbn [app]; reflexivity|];
     split; [reflexivity|];
     split; [eexists; simpl; eauto|];
     split; [reflexivity|];
     split; [discriminate|]; split; [discriminate|]).
  - intros (n' & Hn' & Hnz). congruence.
  - eauto.
  - intros (n' & Hn' & Hnz). congruence.
Qed.

(** The [except SimulationEnd] clause followed by [finally]. *)
Lemma SimulationEnd_handler (w : World) (s1 : Simulation) (m : string) :
  cls (writer_checkpoint s1) = WriterCheckpoint ->
  let r := run_finally (run_except w (Raise (SimulationEnd m) s1)) in
  exists evs,
    trace (state_of r)
      = trace s1 ++ Call (writer_checkpoint s1) (steps s1) :: Info (MsgText m)
                 :: evs ++ [Info MsgGoodbye] /\
    calls_of evs = [] /\
    ((exists x, In (Info (MsgFinalRmsd x)) evs) <-> initial_steps s1 <> steps s1) /\
    steps (state_of r) = steps s1 /\
    (forall m' s', r <> Raise (SimulationEnd m') s') /\
    (forall s', r <> Timeout s') /\
    (initial_steps s1 = steps s1 \/ (exists n, particles w = Some n /\ n <> 0) ->
     exists s', r = Return tt s').
Proof.
  intros Hcls r. subst r.
  set (s3 := set_trace ((trace s1 ++ [Call (writer_checkpoint s1) (steps s1)])
                          ++ [Info (MsgText m)])
               (set_trace (trace s1 ++ [Call (writer_checkpoint s1) (steps s1)]) s1)).
  assert (Htr3 : trace s3
                 = trace s1 ++ [Call (writer_checkpoint s1) (steps s1); Info (MsgText m)])
    by (unfold s3; cbn [trace set_trace]; rewrite <- app_assoc; reflexivity).
  assert (Hst3 : steps s3 = steps s1) by reflexivity.
  assert (Hin3 : initial_steps s3 = initial_steps s1) by reflexivity.
  assert (Hexc : run_except w (Raise (SimulationEnd m) s1)
                 = if initial_steps s3 =? steps s3 then Return tt s3
                   else _report_end w s3).
  { unfold run_except. unfold bind at 1.
    rewrite (call_WriterCheckpoint w _ s1 Hcls).
    unfold bind, emit, modify, get, ret.
    match goal with
    | |- (if _ then _ else _) ?X = _ => change X with s3
    end.
    destruct (initial_steps s3 =? steps s3); reflexivity. }
  rewrite Hexc. clearbody s3. clear Hexc.
  rewrite Hin3, Hst3.
  destruct (Z.eqb_spec (initial_steps s1) (steps s1)) as [Heq|Hneq].
  - (* no step was taken: no summary *)
    exists []. cbn [run_finally state_of trace set_trace steps app].
    rewrite Htr3, <- app_assoc.
    split; [reflexivity|]. split; [reflexivity|].
    split; [split; [intros [x []] | intros H; contradiction]|].
    split; [exact Hst3|].
    split; [discriminate|]. split; [discriminate|]. eauto.
  - (* steps were taken: the summary is emitted *)
    assert (Hneq3 : initial_steps s3 <> steps s3) by congruence.
    destruct (report_end_outcome w s3 Hneq3)
      as (evs & Htr & Hc & Hsum & Hst & Hnoend & Hnotime & Hret).
    exists evs.
    assert (Htrf : forall r : result unit,
               (forall s', r <> Timeout s') ->
               trace (state_of (run_finally r)) = trace (state_of r) ++ [Info MsgGoodbye]).
    { intros [a s'|e s'|s'] H; [reflexivity | reflexivity | exfalso; exact (H s' eq_refl)]. }
    assert (Hstf : forall r : result unit, steps (state_of (run_finally r)) = steps (state_of r)).
    { intros [a s'|e s'|s']; reflexivity. }
    split.
    { rewrite (Htrf _ Hnotime), Htr, Htr3, <- !app_assoc. reflexivity. }
    split; [exact Hc|].
    split; [split; [intros _; exact Hneq | intros _; exact Hsum]|].
    split; [rewrite Hstf, Hst; exact Hst3|].
    split.
    { intros m' s' H. destruct (_report_end w s3) as [a s4|e s4|s4] eqn:E;
        cbn [run_finally] in H; try discriminate.
      injection H as He _. exact (Hnoend m' s4 (f_equal (fun x => Raise x s4) He)). }
    split.
    { intros s' H. destruct (_report_end w s3) as [a s4|e s4|s4] eqn:E;
        cbn [run_finally] in H; try discriminate.
      exact (Hnotime s4 eq_refl). }
    intros [H|H]; [contradiction|].
    destruct (Hret H) as (s' & ->). cbn [run_finally]. eauto.
Qed.

(** C1: when the body of [try] in [run] raises [SimulationEnd] (with the
    simulation in state [s1]), the handler runs once: it calls the
    checkpoint writer at once, whatever its schedule, logs the message,
    and emits the end-of-run summary exactly when
    [initial_steps != steps]; the closing line follows. No further
    observer is called, the step counter stays, and [run] does not raise
    [SimulationEnd]: it returns, unless the summary itself fails for want
    of [system.particle]. *)
Theorem run_catches_SimulationEnd (w : World) (target_steps0 : option Z)
  (fuel : nat) (s s0 s1 : Simulation) (m : string) :
  cls (writer_checkpoint s) = WriterCheckpoint ->
  run_prologue target_steps0 s = Return tt s0 ->
  run_body w fuel s0 = Raise (SimulationEnd m) s1 ->
  exists evs,
    trace (state_of (run w target_steps0 fuel s))
      = trace s1 ++ Call (writer_checkpoint s) (steps s1) :: Info (MsgText m)
                 :: evs ++ [Info MsgGoodbye] /\
    calls_of evs = [] /\
    ((exists x, In (Info (MsgFinalRmsd x)) evs) <-> initial_steps s1 <> steps s1) /\
    steps (state_of (run w target_steps0 fuel s)) = steps s1 /\
    (forall m' s', run w target_steps0 fuel s <> Raise (SimulationEnd m') s') /\
    (forall s', run w target_steps0 fuel s <> Timeout s') /\
    (initial_steps s1 = steps s1 \/ (exists n, particles w = Some n /\ n <> 0) ->
     exists s', run w target_steps0 fuel s = Return tt s').
Proof.
  intros Hcls Hpro Hbody.
  assert (Hwc0 : writer_checkpoint s0 = writer_checkpoint s).
  { pose proof (keeps_checkpoint_run_prologue target_steps0 s) as H.
    rewrite Hpro in H. exact H. }
  assert (Hwc1 : writer_checkpoint s1 = writer_checkpoint s).
  { pose proof (keeps_checkpoint_run_body w fuel s0) as H.
    rewrite Hbody in H. simpl in H. congruence. }
  assert (Hrun : run w target_steps0 fuel s
                 = run_finally (run_except w (Raise (SimulationEnd m) s1))).
  { unfold run, bind. rewrite Hpro. unfold run_try. rewrite Hbody. reflexivity. }
  rewrite Hrun. rewrite <- Hwc1.
  apply SimulationEnd_handler. rewrite Hwc1. exact Hcls.
Qed.

Lemma run_catches_SimulationEnd_witness :
  exists evs,
    trace (state_of (run ticking_world (Some 50) 100 sim50))
      = trace sim50_ended
        ++ Call (writer_checkpoint sim50) (steps sim50_ended)
           :: Info (MsgText "achieved target steps: 50") :: evs ++ [Info MsgGoodbye] /\
    calls_of evs = [] /\
    ((exists x, In (Info (MsgFinalRmsd x)) evs)
     <-> initial_steps sim50_ended <> steps sim50_ended) /\
    steps (state_of (run ticking_world (Some 50) 100 sim50)) = steps sim50_ended /\
    (forall m' s', run ticking_world (Some 50) 100 sim50 <> Raise (SimulationEnd m') s') /\
    (forall s', run ticking_world (Some 50) 100 sim50 <> Timeout s') /\
    (initial_steps sim50_ended = steps sim50_ended
     \/ (exists n, particles ticking_world = Some n /\ n <> 0) ->
     exists s', run ticking_world (Some 50) 100 sim50 = Return tt s').
Proof.
  apply (run_catches_SimulationEnd ticking_world (Some 50) 100 sim50
           sim50_started sim50_ended "achieved target steps: 50").
  - reflexivity.
  - vm_compute. reflexivity.
  - vm_compute. reflexivity.
Defined.

Lemma wall_time_per_step_no_steps_witness :
  steps sim50 = initial_steps sim50 /\
  wall_time_per_step ticking_world sim50
    = Raise (ZeroDivisionError "float division by zero")
        (set_reads (S (reads sim50)) sim50) /\
  wall_time_per_step_particle ticking_world sim50
    = Raise (ZeroDivisionError "float division by zero")
        (set_reads (S (reads sim50)) sim50).
Proof.
  split; [reflexivity|].
  apply (wall_time_per_step_no_steps ticking_world sim50). reflexivity.
Defined.

(** ** Exceptions other than [SimulationEnd] *)

(** C5 (the code departs from the claim):
    [Simulation(initial_state, steps=100)] with
    [add(TargetWallTime(0), Scheduler(1))], then [run()], whatever the
    clock and the backend. The claim has the run end softly at the first
    tick, with the forced checkpoint. In the code
    [TargetWallTime.__init__] sets [wtime_limit] only, and [report()],
    which [run] calls before [try], reads [target] of every [Target]:
    [run] raises [AttributeError] there. The log holds report lines only
    (neither a failure line nor the closing line), no observer is called
    (neither the wall-time target nor the checkpoint writer) and the
    step counter stays 0; the run does not end by [SimulationEnd], and
    the exception leaves [run]. *)
Theorem wall_time_target_fails_in_report (w : World) (fuel : nat) :
  exists s1,
    run w None fuel sim_wall_time
    = Raise (AttributeError "'TargetWallTime' object has no attribute 'target'") s1 /\
    In wall_time_target (_targeters sim_wall_time) /\
    steps s1 = 0 /\
    calls_of (trace s1) = [] /\
    forallb is_report_line (trace s1) = true.
Proof.
  pose (s1 := state_of (run_prologue None sim_wall_time)).
  assert (Hpro : run_prologue None sim_wall_time
                 = Raise (AttributeError
                            "'TargetWallTime' object has no attribute 'target'") s1)
    by (vm_compute; reflexivity).
  assert (Hin : In wall_time_target (_targeters sim_wall_time))
    by (vm_compute; tauto).
  assert (Hsteps : steps s1 = 0) by (vm_compute; reflexivity).
  assert (Hcalls : calls_of (trace s1) = []) by (vm_compute; reflexivity).
  assert (Hlines : forallb is_report_line (trace s1) = true)
    by (vm_compute; reflexivity).
  clearbody s1. exists s1.
  split; [unfold run, bind; rewrite Hpro; reflexivity|].
  split; [exact Hin|]. split; [exact Hsteps|]. split; [exact Hcalls | exact Hlines].
Qed.

(** C6 (the code departs from the claim): [run(50)] and then [run(150)]
    on [Simulation(initial_state, steps=50)]. The first call returns at
    step 50. The second call sets the restart flag and the new target,
    starts from step 50 and does not notify the writers; but the step
    target registered by the constructor still holds 50, so the initial
    check of the targets ends the run at once: [run_until] is never
    called and the step counter stays at 50. Likewise
    [Simulation(initial_state).run(50)], whose step target holds 0, ends
    at step 0 without any advance. *)
Theorem restart_stops_at_old_target :
  run ticking_world (Some 50) 100 sim50 = Return tt sim50_after_run /\
  steps sim50_after_run = 50 /\
  run ticking_world (Some 150) 200 sim50_after_run
    = Return tt (state_of (run ticking_world (Some 150) 200 sim50_after_run)) /\
  restart (state_of (run ticking_world (Some 150) 200 sim50_after_run)) = true /\
  target_steps (state_of (run ticking_world (Some 150) 200 sim50_after_run)) = 150 /\
  initial_steps (state_of (run ticking_world (Some 150) 200 sim50_after_run)) = 50 /\
  steps (state_of (run ticking_world (Some 150) 200 sim50_after_run)) = 50 /\
  calls_of
    (skipn (List.length (trace sim50_after_run))
       (trace (state_of (run ticking_world (Some 150) 200 sim50_after_run))))
    = [Call (mkObserver 3 (TargetSteps 50)) 50;
       Call (mkObserver 2 WriterCheckpoint) 50] /\
  run base_world (Some 50) 100 sim0
    = Return tt (state_of (run base_world (Some 50) 100 sim0)) /\
  steps (state_of (run base_world (Some 50) 100 sim0)) = 0 /\
  calls_of (trace (state_of (run base_world (Some 50) 100 sim0)))
    = [Call (mkObserver 3 (TargetSteps 0)) 0;
       Call (mkObserver 2 WriterCheckpoint) 0].
Proof.
  split; [vm_compute; reflexivity|].
  split; [vm_compute; reflexivity|].
  split; [vm_compute; reflexivity|].
  split; [vm_compute; reflexivity|].
  split; [vm_compute; reflexivity|].
  split; [vm_compute; reflexivity|].
  split; [vm_compute; reflexivity|].
  split; [vm_compute; reflexivity|].
  split; [vm_compute; reflexivity|].
  split; [vm_compute; reflexivity|].
  vm_compute; reflexivity.
Qed.

(** C8, as the code has it: a [KeyboardInterrupt] leaving the body of
    [try] is not raised again; [run] returns with the state the
    interrupt left, the closing line added: no checkpoint call and no
    summary. *)
Theorem keyboard_interrupt_ends_run (w : World) (target_steps0 : option Z)
  (fuel : nat) (s s0 s1 : Simulation) :
  run_prologue target_steps0 s = Return tt s0 ->
  run_body w fuel s0 = Raise KeyboardInterrupt s1 ->
  run w target_steps0 fuel s
  = Return tt (set_trace (trace s1 ++ [Info MsgGoodbye]) s1).
Proof.
  intros Hpro Hbody.
  unfold run, bind. rewrite Hpro. unfold run_try. rewrite Hbody. reflexivity.
Qed.

Lemma keyboard_interrupt_ends_run_witness :
  run interrupting_world (Some 50) 10 sim50
  = Return tt (set_trace (trace sim50_interrupted ++ [Info MsgGoodbye]) sim50_interrupted).
Proof.
  apply (keyboard_interrupt_ends_run interrupting_world (Some 50) 10 sim50
           sim50_started sim50_interrupted).
  - vm_compute. reflexivity.
  - vm_compute. reflexivity.
Defined.

(** C8, as the claim has it, fails: the operator interrupts the first
    [run_until] of [run(50)]; [run] returns, and the events after the
    interrupt do not begin with a call of the checkpoint writer. *)
Lemma keyboard_interrupt_no_checkpoint :
  run_prologue (Some 50) sim50 = Return tt sim50_started /\
  run_body interrupting_world 10 sim50_started
    = Raise KeyboardInterrupt sim50_interrupted /\
  ~ (exists evs,
       trace (state_of (run interrupting_world (Some 50) 10 sim50))
       = trace sim50_interrupted
         ++ Call (writer_checkpoint sim50) (steps sim50_interrupted) :: evs).
Proof.
  split; [vm_compute; reflexivity|].
  split; [vm_compute; reflexivity|].
  intros [evs H]. vm_compute in H. discriminate H.
Qed.

(** ** Wall-time targets and the schedule *)

Lemma due_observers_In (s : Simulation) (next_step : Z) (o : observer) :
  In o (due_observers s next_step) <->
  exists sc, In (o, sc) (ledger s) /\ sched_next sc (steps s) = inr next_step.
Proof.
  unfold due_observers. rewrite in_map_iff. split.
  - intros ([o' sc] & Ho & Hin). simpl in Ho. subst o'.
    apply filter_In in Hin. destruct Hin as [Hin Hdue].
    exists sc. split; [exact Hin|].
    unfold is_due in Hdue. simpl in Hdue.
    destruct (sched_next sc (steps s)) as [e|n]; [discriminate|].
    apply Z.eqb_eq in Hdue. congruence.
  - intros (sc & Hin & Hn). exists (o, sc). split; [reflexivity|].
    apply filter_In. split; [exact Hin|].
    unfold is_due. simpl. rewrite Hn. apply Z.eqb_refl.
Qed.

(** C9, as the code has it: in a pass of the loop a registered wall-time
    target is handed to [notify] exactly when a scheduler it was
    registered with answers the minimum [next_step]; when none does, the
    pass does not call it. (Like every target it is among
    [_targeters], which [run] notifies once before the loop.) *)
Theorem wall_time_target_follows_scheduler (w : World) (s : Simulation)
  (all_steps : list Z) (o : observer) :
  is_wall_time_target o = true ->
  List.length (_callback s) = List.length (_scheduler s) ->
  _scheduler s <> [] ->
  all_next (_scheduler s) (steps s) = inr all_steps ->
  exists next_step,
    In next_step all_steps /\
    Forall (fun n => next_step <= n) all_steps /\
    run_iteration w s
      = (run_until w next_step ;;
         modify (set_steps next_step) ;;
         notify w (due_observers s next_step)) s /\
    (In o (due_observers s next_step) <->
     exists sc, In (o, sc) (ledger s) /\ sched_next sc (steps s) = inr next_step) /\
    ((forall sc, In (o, sc) (ledger s) -> sched_next sc (steps s) <> inr next_step) ->
     exists evs,
       trace (state_of (run_iteration w s)) = trace s ++ evs /\
       forall n, ~ In (Call o n) evs) /\
    (In o (_callback s) -> In o (_targeters s)).
Proof.
  intros Hcls Hlen Hne Hall.
  assert (Hne' : all_steps <> []).
  { intros ->. pose proof (all_next_Forall2 _ _ _ Hall) as HF.
    inversion HF as [Hs|]. congruence. }
  destruct (py_min_nonempty all_steps Hne') as [m Hmin].
  destruct (py_min_Some _ _ Hmin) as [Hin Hle].
  pose proof (run_iteration_unfold w s all_steps m Hlen Hall Hmin) as Hiter.
  exists m. split; [exact Hin|]. split; [exact Hle|]. split; [exact Hiter|].
  split; [apply due_observers_In|].
  split.
  - intros Hnot.
    destruct (backend_run_until w (steps s) m) as [e|] eqn:Hback.
    + (* the backend raises: nothing is dispatched *)
      exists [RunUntil m]. split.
      * rewrite Hiter. unfold run_until, bind, get, emit, modify, raise.
        rewrite Hback. reflexivity.
      * intros n [H|[]]. discriminate H.
    + destruct (advance_and_dispatch_trace w s m (due_observers s m) Hback)
        as (called & rest & evs & Hdue & Htr & Hc & _).
      exists (RunUntil m :: evs). split; [rewrite Hiter; exact Htr|].
      intros n [H|H]; [discriminate H|].
      assert (Hin' : In (Call o n) (calls_of evs)).
      { apply filter_In. split; [exact H | reflexivity]. }
      rewrite Hc in Hin'. apply in_map_iff in Hin'.
      destruct Hin' as (o' & Heq & Ho'). injection Heq as -> _.
      assert (Hd : In o (due_observers s m)).
      { rewrite Hdue. apply in_or_app. auto. }
      apply due_observers_In in Hd. destruct Hd as (sc & Hreg & Hn).
      exact (Hnot sc Hreg Hn).
  - intros Ho. apply filter_In. split; [exact Ho|].
    unfold is_Target. unfold is_wall_time_target in Hcls.
    destruct (cls o); try discriminate; reflexivity.
Qed.

Lemma wall_time_target_follows_scheduler_witness :
  exists next_step,
    In next_step [maxint; maxint; 1; 10; maxint; 100; 100] /\
    Forall (fun n => next_step <= n) [maxint; maxint; 1; 10; maxint; 100; 100] /\
    run_iteration ticking_world sim_coarse_at_loop
      = (run_until ticking_world next_step ;;
         modify (set_steps next_step) ;;
         notify ticking_world (due_observers sim_coarse_at_loop next_step))
          sim_coarse_at_loop /\
    (In coarse_wall_time_target (due_observers sim_coarse_at_loop next_step) <->
     exists sc,
       In (coarse_wall_time_target, sc) (ledger sim_coarse_at_loop) /\
       sched_next sc (steps sim_coarse_at_loop) = inr next_step) /\
    ((forall sc,
        In (coarse_wall_time_target, sc) (ledger sim_coarse_at_loop) ->
        sched_next sc (steps sim_coarse_at_loop) <> inr next_step) ->
     exists evs,
       trace (state_of (run_iteration ticking_world sim_coarse_at_loop))
       = trace sim_coarse_at_loop ++ evs /\
       forall n, ~ In (Call coarse_wall_time_target n) evs) /\
    (In coarse_wall_time_target (_callback sim_coarse_at_loop) ->
     In coarse_wall_time_target (_targeters sim_coarse_at_loop)).
Proof.
  apply (wall_time_target_follows_scheduler ticking_world sim_coarse_at_loop
           [maxint; maxint; 1; 10; maxint; 100; 100] coarse_wall_time_target).
  - reflexivity.
  - vm_compute. reflexivity.
  - vm_compute. discriminate.
  - vm_compute. reflexivity.
Defined.

(** C9, as the claim has it, fails:
    [Simulation(initial_state, steps=100)] with a wall-time target of 5
    seconds registered with [Scheduler(100)], run by [run()] with a
    clock that advances one second per reading and a backend that
    provides [system.particle]. The run enters its loop; the first pass
    advances to step 1 and notifies the ETA speedometer only, although
    the wall-time target is registered. In the whole run the wall-time
    target is called once, with the targets before the loop: the passes
    to the steps 1, 10, 20, ..., 100 do not notify it (at step 100 the
    step target, which stands before it, ends the run). The run returns
    at step 100 and reports 27 seconds of wall time: the limit of 5
    seconds was passed unnoticed. *)
Lemma coarse_wall_time_target_not_notified :
  is_wall_time_target coarse_wall_time_target = true /\
  In (coarse_wall_time_target, Periodic (mkScheduler (Some 100) None None))
    (ledger sim_coarse_wall_time) /\
  run ticking_world None 0 sim_coarse_wall_time = Timeout sim_coarse_at_loop /\
  run_iteration ticking_world sim_coarse_at_loop
    = Return tt (state_of (run_iteration ticking_world sim_coarse_at_loop)) /\
  calls_of (skipn (List.length (trace sim_coarse_at_loop))
              (trace (state_of (run_iteration ticking_world sim_coarse_at_loop))))
    = [RunUntil 1; Call (mkObserver 6 (Speedometer (Some "ETA"))) 1] /\
  run ticking_world None 200 sim_coarse_wall_time
    = Return tt (state_of (run ticking_world None 200 sim_coarse_wall_time)) /\
  steps (state_of (run ticking_world None 200 sim_coarse_wall_time)) = 100 /\
  calls_of (trace (state_of (run ticking_world None 200 sim_coarse_wall_time)))
    = [Call (mkObserver 3 (TargetSteps 100)) 0;
       Call coarse_wall_time_target 0;
       Call (mkObserver 1 WriterConfig) 0;
       Call (mkObserver 0 WriterThermo) 0;
       Call (mkObserver 6 (Speedometer (Some "ETA"))) 0;
       Call (mkObserver 5 (Speedometer None)) 0;
       Call (mkObserver 2 WriterCheckpoint) 0;
       RunUntil 1; Call (mkObserver 6 (Speedometer (Some "ETA"))) 1;
       RunUntil 10; Call (mkObserver 5 (Speedometer None)) 10;
       RunUntil 20; Call (mkObserver 5 (Speedometer None)) 20;
       RunUntil 30; Call (mkObserver 5 (Speedometer None)) 30;
       RunUntil 40; Call (mkObserver 5 (Speedometer None)) 40;
       RunUntil 50; Call (mkObserver 5 (Speedometer None)) 50;
       RunUntil 60; Call (mkObserver 5 (Speedometer None)) 60;
       RunUntil 70; Call (mkObserver 5 (Speedometer None)) 70;
       RunUntil 80; Call (mkObserver 5 (Speedometer None)) 80;
       RunUntil 90; Call (mkObserver 5 (Speedometer None)) 90;
       RunUntil 100; Call (mkObserver 5 (Speedometer None)) 100;
       Call (mkObserver 3 (TargetSteps 100)) 100;
       Call (mkObserver 2 WriterCheckpoint) 100] /\
  In (Info (MsgWallTime 27))
    (trace (state_of (run ticking_world None 200 sim_coarse_wall_time))).
Proof.
  split; [reflexivity|].
  split; [vm_compute; tauto|].
  split; [vm_compute; reflexivity|].
  split; [vm_compute; reflexivity|].
  split; [vm_compute; reflexivity|].
  split; [vm_compute; reflexivity|].
  split; [vm_compute; reflexivity|].
  split; [vm_compute; reflexivity|].
  vm_compute. tauto.
Qed.

(* ================================================================== *)
(** * Further properties of the schedulers *)



(** X2: a scheduler that was constructed (no error) is of one of two
    kinds. If [interval > 0] or [calls > 0] held at construction, its
    interval [k] is positive and [next(x)] is a multiple of [k] with
    [x < next(x) <= x + k]; otherwise the scheduler is disabled and
    [next] answers [sys.maxint] at every step. *)
Theorem Scheduler_constructed_fires_later_or_never
  (interval0 calls0 target0 : option Z) (s : Scheduler) :
  Scheduler_init interval0 calls0 target0 = inr s ->
  if py2_gt0 interval0 || py2_gt0 calls0 then
    exists k,
      0 < k /\ interval s = Some k /\
      forall x, x < Scheduler_next s x <= x + k /\ (k | Scheduler_next s x)
  else
    forall x, Scheduler_next s x = maxint.
Proof.
  assert (Hfire : forall (sc : Scheduler) k,
             0 < k -> interval sc = Some k ->
             forall x, x < Scheduler_next sc x <= x + k /\ (k | Scheduler_next sc x)).
  { intros sc k Hk Hsc x. rewrite (Scheduler_next_fixed sc k x Hsc Hk).
    pose proof (next_multiple_gt k x Hk) as Hgt.
    pose proof (Z.mul_div_le x k Hk) as Hle.
    split; [lia|]. exists (x / k + 1). reflexivity. }
  unfold Scheduler_init.
  destruct (py2_gt0 interval0) eqn:Hi; cbn [orb].
  - intros [= <-]. destruct interval0 as [k|]; [|discriminate].
    apply Z.ltb_lt in Hi. exists k. split; [exact Hi|]. split; [reflexivity|].
    apply Hfire; [exact Hi | reflexivity].
  - destruct calls0 as [c|]; cbn [py2_gt0].
    + destruct (0 <? c) eqn:Hc.
      * destruct target0 as [t|]; [|discriminate]. intros [= <-].
        exists (Z.max 1 (t / c)). split; [lia|]. split; [reflexivity|].
        apply Hfire; [lia | reflexivity].
      * intros [= <-] x. unfold Scheduler_next. cbn [interval].
        destruct interval0 as [k|]; [|reflexivity].
        cbn [py2_gt0] in Hi. rewrite Hi. reflexivity.
    + intros [= <-] x. unfold Scheduler_next. cbn [interval].
      destruct interval0 as [k|]; [|reflexivity].
      cbn [py2_gt0] in Hi. rewrite Hi. reflexivity.
Qed.

Lemma Scheduler_constructed_fires_later_or_never_witness :
  exists k,
    0 < k /\ interval (mkScheduler (Some 5) (Some 10) (Some 50)) = Some k /\
    forall x, x < Scheduler_next (mkScheduler (Some 5) (Some 10) (Some 50)) x <= x + k /\
              (k | Scheduler_next (mkScheduler (Some 5) (Some 10) (Some 50)) x).
Proof.
  apply (Scheduler_constructed_fires_later_or_never None (Some 10) (Some 50)
           (mkScheduler (Some 5) (Some 10) (Some 50))).
  reflexivity.
Defined.

(** X3: the [Scheduler] classes of [atooms/simulation/__init__.py] and
    of [atooms/simulation/observers.py] agree: on the same arguments
    both constructors fail, with the same message ([SchedulerError]
    here, [ValueError] there), or both succeed with the same attributes,
    and then [next] gives the same answer at every step. *)
Theorem Scheduler_modules_agree (interval0 calls0 target0 : option Z) :
  match Scheduler_init interval0 calls0 target0,
        Observers.Scheduler_init interval0 calls0 target0 with
  | inr s, inr s' =>
      interval s = Observers.interval s' /\
      calls s = Observers.calls s' /\
      target s = Observers.target s' /\
      forall x, Scheduler_next s x = Observers.Scheduler_next s' x
  | inl (SchedulerError m), inl (ValueError m') => m = m'
  | _, _ => False
  end.
Proof.
  unfold Scheduler_init, Observers.Scheduler_init.
  destruct (py2_gt0 interval0).
  - repeat split.
  - destruct calls0 as [c|]; [|repeat split].
    destruct (0 <? c); [|repeat split].
    destruct target0; [repeat split | reflexivity].
Qed.

(** ** Progress of the loop *)

Lemma sched_next_later (sc : sched) (this : Z) :
  usable sc -> this < maxint ->
  exists n, sched_next sc this = inr n /\ this < n.
Proof.
  intros Hu Hmax. destruct sc as [p|o]; cbn [sched_next usable] in *.
  - exists (Scheduler_next p this). split; [reflexivity|].
    unfold Scheduler_next. destruct (interval p) as [k|]; [|exact Hmax].
    destruct (Z.ltb_spec 0 k); [|exact Hmax].
    apply next_multiple_gt. assumption.
  - unfold OnetimeScheduler_next.
    destruct (Z.eqb_spec (onetime_interval o) 0); [lia|].
    destruct (Z.eqb_spec (this / onetime_interval o) 0) as [H0|H0].
    + exists (onetime_interval o). split; [reflexivity|].
      apply Z.div_small_iff in H0; lia.
    + exists maxint. split; [reflexivity | exact Hmax].
Qed.

Lemma all_next_later (scs : list sched) (this : Z) :
  Forall usable scs -> this < maxint ->
  exists ns, all_next scs this = inr ns /\ Forall (fun n => this < n) ns.
Proof.
  intros Hu Hmax. induction Hu as [|sc scs Hsc _ IH].
  - exists []. split; [reflexivity | constructor].
  - destruct (sched_next_later sc this Hsc Hmax) as (n & Hn & Hlt).
    destruct IH as (ns & Hns & Hall).
    exists (n :: ns). cbn [all_next]. rewrite Hn, Hns.
    split; [reflexivity | constructor; assumption].
Qed.

(** X4: a pass of the loop moves the step counter strictly forward. With
    parallel, non-empty lists, usable schedulers and [steps] below
    [sys.maxint], no scheduler call fails, the step [m] chosen by the
    pass is above [steps], and when the backend returns the pass leaves
    [steps == m]; when the backend raises [e] the pass raises [e] with
    the step counter unchanged. *)
Theorem run_iteration_advances (w : World) (s : Simulation) :
  List.length (_callback s) = List.length (_scheduler s) ->
  _scheduler s <> [] ->
  Forall usable (_scheduler s) ->
  steps s < maxint ->
  exists m,
    steps s < m /\
    (backend_run_until w (steps s) m = None ->
     steps (state_of (run_iteration w s)) = m) /\
    (forall e, backend_run_until w (steps s) m = Some e ->
               run_iteration w s
               = Raise e (set_trace (trace s ++ [RunUntil m]) s)).
Proof.
  intros Hlen Hne Hu Hmax.
  destruct (all_next_later _ _ Hu Hmax) as (ns & Hall & Hlater).
  assert (Hne' : ns <> []).
  { intros ->. pose proof (all_next_Forall2 _ _ _ Hall) as HF.
    inversion HF as [Hs|]. congruence. }
  destruct (py_min_nonempty ns Hne') as [m Hmin].
  destruct (py_min_Some _ _ Hmin) as [Hin _].
  pose proof (run_iteration_unfold w s ns m Hlen Hall Hmin) as Hiter.
  exists m. split.
  { rewrite Forall_forall in Hlater. exact (Hlater m Hin). }
  split.
  - intros Hback. rewrite Hiter.
    destruct (advance_and_dispatch_trace w s m (due_observers s m) Hback)
      as (_ & _ & _ & _ & _ & _ & Hst & _).
    exact Hst.
  - intros e Hback. rewrite Hiter.
    unfold run_until, bind, get, emit, modify, raise. rewrite Hback. reflexivity.
Qed.

Lemma sim50_usable : Forall usable (_scheduler sim50).
Proof.
  repeat constructor.
Qed.

Lemma run_iteration_advances_witness :
  exists m,
    steps sim50 < m /\
    (backend_run_until ticking_world (steps sim50) m = None ->
     steps (state_of (run_iteration ticking_world sim50)) = m) /\
    (forall e, backend_run_until ticking_world (steps sim50) m = Some e ->
               run_iteration ticking_world sim50
               = Raise e (set_trace (trace sim50 ++ [RunUntil m]) sim50)).
Proof.
  apply (run_iteration_advances ticking_world sim50).
  - reflexivity.
  - discriminate.
  - exact sim50_usable.
  - reflexivity.
Defined.

(* ================================================================== *)
(** * Further properties of the simulation *)

(** Integers up to [2^53] in magnitude are floats. *)
Lemma py_float_exact (n : Z) : Z.abs n <= 2 ^ 53 -> py_float n = inr (inject_Z n).
Proof.
  intros Hn.
  assert (Hcases : Z.abs n < 2 ^ 53 \/ n = 2 ^ 53 \/ n = - 2 ^ 53) by lia.
  destruct Hcases as [Hlt|[->| ->]]; [|vm_compute; reflexivity..].
  unfold py_float, round_to_53_bits.
  assert (Hlog : (Z.log2 (Z.abs n) <? 53) = true).
  { apply Z.ltb_lt. destruct (Z.eq_dec (Z.abs n) 0) as [->|Hnz]; [reflexivity|].
    apply Z.log2_lt_pow2; lia. }
  rewrite Hlog, Z.mul_comm, Z.abs_sgn.
  assert (Hsmall : (2 ^ 1024 <=? Z.abs n) = false).
  { apply Z.leb_gt. apply Z.lt_trans with (2 ^ 53); [exact Hlt|].
    apply Z.pow_lt_mono_r; lia. }
  rewrite Hsmall. reflexivity.
Qed.

(** The outcome of the constructor. *)
Lemma Simulation_init_outcome (w : World) (output_path0 : option string)
  (steps0 : Z) (rmsd0 : option Q)
  (thermo_interval thermo_number config_interval config_number
   checkpoint_interval checkpoint_number fixcm_interval0 : Z) (restart0 : bool) :
  exists sc_speed sc_thermo sc_config sc_checkpoint,
    Scheduler_init None (Some 10) (Some steps0) = inr sc_speed /\
    Scheduler_init (Some thermo_interval) (Some thermo_number) (Some steps0)
      = inr sc_thermo /\
    Scheduler_init (Some config_interval) (Some config_number) (Some steps0)
      = inr sc_config /\
    Scheduler_init (Some checkpoint_interval) (Some checkpoint_number) (Some steps0)
      = inr sc_checkpoint /\
    match py_float steps0 with
    | inl e =>
        exists s,
          Simulation_init w output_path0 steps0 rmsd0 thermo_interval thermo_number
            config_interval config_number checkpoint_interval checkpoint_number
            fixcm_interval0 restart0 = Raise e s
    | inr x =>
        Simulation_init w output_path0 steps0 rmsd0 thermo_interval thermo_number
          config_interval config_number checkpoint_interval checkpoint_number
          fixcm_interval0 restart0
        = Return tt
            (mkSimulation
               ([mkObserver 1 WriterConfig; mkObserver 0 WriterThermo;
                 mkObserver 6 (Speedometer (Some "ETA"));
                 mkObserver 5 (Speedometer None);
                 mkObserver 2 WriterCheckpoint; mkObserver 3 (TargetSteps steps0)]
                ++ match rmsd0 with
                   | Some r => [mkObserver 4 (TargetRMSD r)]
                   | None => []
                   end)
               ([Periodic sc_config; Periodic sc_thermo;
                 Onetime (mkOnetimeScheduler (Z.max 1 (py_int (round53 (x / 200)))));
                 Periodic sc_speed; Periodic sc_checkpoint;
                 Periodic (mkScheduler (Some (Z.max 1 steps0)) None None)]
                ++ match rmsd0 with
                   | Some r => [Periodic (mkScheduler (Some 10000) None None)]
                   | None => []
                   end)
               fixcm_interval0 restart0 output_path0 0 0 (clock w O) steps0
               (mkObserver 0 WriterThermo) (mkObserver 1 WriterConfig)
               (mkObserver 2 WriterCheckpoint) [] 1%nat
               (match output_path0 with Some p => [Mkdir p] | None => [] end))
    end.
Proof.
  destruct (Scheduler_init_with_target None (Some 10) steps0) as [sc3 H3].
  destruct (Scheduler_init_with_target (Some thermo_interval) (Some thermo_number) steps0)
    as [sc4 H4].
  destruct (Scheduler_init_with_target (Some config_interval) (Some config_number) steps0)
    as [sc5 H5].
  destruct (Scheduler_init_with_target (Some checkpoint_interval)
              (Some checkpoint_number) steps0) as [sc6 H6].
  assert (H1 : Scheduler_init (Some (Z.max 1 steps0)) None None
               = inr (mkScheduler (Some (Z.max 1 steps0)) None None)).
  { unfold Scheduler_init. simpl. destruct (Z.ltb_spec 0 (Z.max 1 steps0)); [reflexivity|lia]. }
  exists sc3, sc4, sc5, sc6.
  split; [exact H3|]. split; [exact H4|]. split; [exact H5|]. split; [exact H6|].
  unfold Simulation_init. rewrite H1, H3, H4, H5, H6.
  change (Scheduler_init (Some 10000) None None)
    with (@inr exn Scheduler (mkScheduler (Some 10000) None None)).
  destruct (py_float steps0) as [e|x].
  - destruct rmsd0 as [r|]; eexists; vm_compute; reflexivity.
  - unfold bind, lift, ret. cbv beta iota.
    set (i := Z.max 1 (py_int (round53 (x / 200)))). clearbody i.
    destruct rmsd0 as [r|]; vm_compute; reflexivity.
Qed.

(** The integers too large for a float: from [2^1024 - 2^970] on in
    magnitude, where rounding to 53 bits reaches [2^1024]. *)
Lemma round_to_53_bits_overflow (a : Z) :
  0 <= a ->
  (2 ^ 1024 <= round_to_53_bits a <-> 2 ^ 1024 - 2 ^ 970 <= a).
Proof.
  intros Ha. unfold round_to_53_bits.
  destruct (Z.eq_dec a 0) as [->|Hnz].
  { cbn. split; intros H; exfalso; revert H; apply Z.lt_nge; reflexivity. }
  assert (Hpos : 0 < a) by lia.
  destruct (Z.log2_spec a Hpos) as [Hlo Hhi].
  set (k := Z.log2 a) in *.
  assert (Hk0 : 0 <= k) by apply Z.log2_nonneg.
  destruct (Z.ltb_spec k 53) as [Hk|Hk].
  - assert (H1 : 2 ^ Z.succ k <= 2 ^ 53) by (apply Z.pow_le_mono_r; lia).
    assert (H2 : 2 ^ 53 < 2 ^ 1024 - 2 ^ 970) by reflexivity.
    assert (H3 : 2 ^ 970 > 0) by reflexivity.
    lia.
  - set (d := 2 ^ (k - 52)).
    assert (Hd : 0 < d) by (apply Z.pow_pos_nonneg; lia).
    assert (Hkd : 2 ^ k = 2 ^ 52 * d).
    { unfold d. rewrite <- Z.pow_add_r by lia. f_equal. lia. }
    assert (Hkd' : 2 ^ Z.succ k = 2 ^ 53 * d).
    { unfold d. rewrite <- Z.pow_add_r by lia. f_equal. lia. }
    pose proof (Z.div_mod a d ltac:(lia)) as Hdm.
    pose proof (Z.mod_pos_bound a d Hd) as Hr.
    set (q := a / d) in *. set (r := a mod d) in *.
    assert (Hq : 2 ^ 52 <= q < 2 ^ 53).
    { split.
      - apply Z.div_le_lower_bound; [exact Hd|]. rewrite Z.mul_comm, <- Hkd. exact Hlo.
      - apply Z.div_lt_upper_bound; [exact Hd|]. rewrite Z.mul_comm, <- Hkd'. exact Hhi. }
    assert (Hrnd : round_half_even a d = q /\ ~ (d < 2 * r \/ (2 * r = d /\ Z.odd q = true))
                   \/ round_half_even a d = q + 1 /\ (d < 2 * r \/ (2 * r = d /\ Z.odd q = true))).
    { unfold round_half_even. fold q r.
      destruct (Z.ltb_spec d (2 * r)) as [H1|H1]; cbn [orb].
      - right. split; [reflexivity | left; exact H1].
      - destruct (Z.eqb_spec (2 * r) d) as [H2|H2]; cbn [andb].
        + destruct (Z.odd q) eqn:Hodd.
          * right. split; [reflexivity | right; split; [exact H2 | reflexivity]].
          * left. split; [reflexivity|]. intros [H|[_ H]]; [lia | discriminate].
        + left. split; [reflexivity|]. intros [H|[H _]]; lia. }
    destruct (Z.le_gt_cases 1024 k) as [Hbig|Hsmall].
    + (* at least 2^1024 *)
      assert (H1 : 2 ^ 1024 <= 2 ^ k) by (apply Z.pow_le_mono_r; lia).
      assert (H3 : 2 ^ 970 > 0) by reflexivity.
      split; [lia|]. intros _.
      assert (q * d <= round_half_even a d * d).
      { apply Z.mul_le_mono_nonneg_r; [lia|]. destruct Hrnd as [[-> _]|[-> _]]; lia. }
      assert (2 ^ 52 * d <= q * d) by (apply Z.mul_le_mono_nonneg_r; lia).
      lia.
    + destruct (Z.eq_dec k 1023) as [Hk1023|Hne].
      * assert (Hdv : d = 2 * 2 ^ 970) by (unfold d; rewrite Hk1023; reflexivity).
        assert (H1024 : 2 ^ 1024 = 2 ^ 54 * 2 ^ 970) by reflexivity.
        assert (HP : 0 < 2 ^ 970) by reflexivity.
        rewrite H1024. clear H1024 Hlo Hhi Hkd Hkd'.
        set (P := 2 ^ 970) in *. clearbody P.
        change (2 ^ 54) with 18014398509481984.
        change (2 ^ 53) with 9007199254740992 in Hq.
        change (2 ^ 52) with 4503599627370496 in Hq.
        destruct (Z.eq_dec q 9007199254740991) as [Hq1|Hq1].
        -- assert (Hodd : Z.odd q = true) by (rewrite Hq1; reflexivity).
           rewrite Hodd in Hrnd. rewrite Hq1 in *.
           destruct Hrnd as [[-> Hn]|[-> Hy]]; lia.
        -- assert (Hqp : q * P <= 9007199254740990 * P)
             by (apply Z.mul_le_mono_nonneg_r; lia).
           destruct Hrnd as [[-> _]|[-> _]]; lia.
      * assert (H1 : 2 ^ Z.succ k <= 2 ^ 1023) by (apply Z.pow_le_mono_r; lia).
        assert (H2 : 2 ^ 1023 < 2 ^ 1024 - 2 ^ 970) by reflexivity.
        assert (H3 : 2 ^ 1023 < 2 ^ 1024) by reflexivity.
        split; [|lia]. intros Hm. exfalso.
        assert (round_half_even a d * d <= (q + 1) * d).
        { apply Z.mul_le_mono_nonneg_r; [lia|]. destruct Hrnd as [[-> _]|[-> _]]; lia. }
        assert ((q + 1) * d <= 2 ^ 53 * d) by (apply Z.mul_le_mono_nonneg_r; lia).
        lia.
Qed.

Lemma round_to_53_bits_nonneg (a : Z) : 0 <= a -> 0 <= round_to_53_bits a.
Proof.
  intros Ha. unfold round_to_53_bits.
  destruct (Z.log2 a <? 53); [exact Ha|].
  assert (Hd : 0 <= 2 ^ (Z.log2 a - 52)) by apply Z.pow_nonneg, Z.le_0_2.
  apply Z.mul_nonneg_nonneg; [|exact Hd].
  unfold round_half_even.
  assert (Hq : 0 <= a / 2 ^ (Z.log2 a - 52)) by (apply Z_div_nonneg_nonneg; assumption).
  match goal with |- 0 <= if ?b then _ else _ => destruct b end; lia.
Qed.

Lemma py_float_overflow (n : Z) :
  match py_float n with
  | inl e =>
      e = OverflowError "long int too large to convert to float" /\
      2 ^ 1024 - 2 ^ 970 <= Z.abs n
  | inr _ => Z.abs n < 2 ^ 1024 - 2 ^ 970
  end.
Proof.
  unfold py_float.
  pose proof (round_to_53_bits_overflow (Z.abs n) (Z.abs_nonneg n)) as H.
  assert (Habs : Z.abs (Z.sgn n * round_to_53_bits (Z.abs n))
                 = if n =? 0 then 0 else Z.abs (round_to_53_bits (Z.abs n))).
  { rewrite Z.abs_mul. destruct n as [|p|p]; cbn [Z.sgn Z.eqb Z.abs];
      [reflexivity | |]; apply Z.mul_1_l. }
  rewrite Habs. clear Habs.
  assert (H970 : 0 < 2 ^ 970) by reflexivity.
  assert (H1024 : 2 ^ 970 < 2 ^ 1024) by reflexivity.
  destruct (Z.eqb_spec n 0) as [->|Hn].
  - cbn [Z.abs]. destruct (Z.leb_spec (2 ^ 1024) 0); [exfalso; lia | lia].
  - destruct (Z.leb_spec (2 ^ 1024) (Z.abs (round_to_53_bits (Z.abs n)))) as [Hb|Hb].
    + split; [reflexivity|]. apply H.
      rewrite Z.abs_eq in Hb by apply round_to_53_bits_nonneg, Z.abs_nonneg.
      exact Hb.
    + destruct (Z.lt_ge_cases (Z.abs n) (2 ^ 1024 - 2 ^ 970)) as [Hl|Hg]; [exact Hl|].
      apply H in Hg.
      rewrite Z.abs_eq in Hb by apply round_to_53_bits_nonneg, Z.abs_nonneg. lia.
Qed.

(** X5: the constructor fails exactly when [steps] is too large for a
    float, [2^1024 - 2^970] or more in magnitude:
    [int(self.target_steps / 200.)] then raises [OverflowError]. No
    interval and no number of calls makes it fail, since every scheduler
    it builds is given a target. The ledger it leaves is, in dispatch
    order: the config writer, the thermo writer, the ETA speedometer
    (one-time, at [max(1, int(steps / 200.))], the division being one of
    floats), the speedometer, the checkpoint writer, the step target
    (every [max(1, steps)] steps) and, if [rmsd] was given, the rmsd
    target (every 10000 steps). The step counter starts at 0. *)
Theorem Simulation_init_ledger (w : World) (output_path0 : option string)
  (steps0 : Z) (rmsd0 : option Q)
  (thermo_interval thermo_number config_interval config_number
   checkpoint_interval checkpoint_number fixcm_interval0 : Z) (restart0 : bool) :
  match py_float steps0 with
  | inl e =>
      e = OverflowError "long int too large to convert to float" /\
      2 ^ 1024 - 2 ^ 970 <= Z.abs steps0 /\
      exists s,
        Simulation_init w output_path0 steps0 rmsd0 thermo_interval thermo_number
          config_interval config_number checkpoint_interval checkpoint_number
          fixcm_interval0 restart0 = Raise e s
  | inr x =>
      Z.abs steps0 < 2 ^ 1024 - 2 ^ 970 /\
      exists sc_speed sc_thermo sc_config sc_checkpoint s,
        Scheduler_init None (Some 10) (Some steps0) = inr sc_speed /\
        Scheduler_init (Some thermo_interval) (Some thermo_number) (Some steps0)
          = inr sc_thermo /\
        Scheduler_init (Some config_interval) (Some config_number) (Some steps0)
          = inr sc_config /\
        Scheduler_init (Some checkpoint_interval) (Some checkpoint_number)
          (Some steps0) = inr sc_checkpoint /\
        Simulation_init w output_path0 steps0 rmsd0 thermo_interval thermo_number
          config_interval config_number checkpoint_interval checkpoint_number
          fixcm_interval0 restart0 = Return tt s /\
        _callback s
          = [mkObserver 1 WriterConfig; mkObserver 0 WriterThermo;
             mkObserver 6 (Speedometer (Some "ETA")); mkObserver 5 (Speedometer None);
             mkObserver 2 WriterCheckpoint; mkObserver 3 (TargetSteps steps0)]
            ++ match rmsd0 with
               | Some r => [mkObserver 4 (TargetRMSD r)]
               | None => []
               end /\
        _scheduler s
          = [Periodic sc_config; Periodic sc_thermo;
             Onetime (mkOnetimeScheduler (Z.max 1 (py_int (round53 (x / 200)))));
             Periodic sc_speed; Periodic sc_checkpoint;
             Periodic (mkScheduler (Some (Z.max 1 steps0)) None None)]
            ++ match rmsd0 with
               | Some r => [Periodic (mkScheduler (Some 10000) None None)]
               | None => []
               end /\
        steps s = 0 /\ initial_steps s = 0 /\ target_steps s = steps0 /\
        restart s = restart0 /\ output_path s = output_path0 /\
        writer_checkpoint s = mkObserver 2 WriterCheckpoint /\
        Forall usable (_scheduler s)
  end.
Proof.
  destruct (Simulation_init_outcome w output_path0 steps0 rmsd0 thermo_interval
              thermo_number config_interval config_number checkpoint_interval
              checkpoint_number fixcm_interval0 restart0)
    as (sc3 & sc4 & sc5 & sc6 & H3 & H4 & H5 & H6 & Hinit).
  pose proof (py_float_overflow steps0) as Hover.
  destruct (py_float steps0) as [e|x] eqn:Hx.
  - destruct Hover as [He Hbig].
    split; [exact He|]. split; [exact Hbig | exact Hinit].
  - split; [exact Hover|].
    exists sc3, sc4, sc5, sc6. eexists.
    split; [exact H3|]. split; [exact H4|]. split; [exact H5|]. split; [exact H6|].
    split; [exact Hinit|].
    cbn [_callback _scheduler steps initial_steps target_steps restart output_path
         writer_checkpoint].
    repeat (split; [reflexivity|]).
    apply Forall_app. split.
    + constructor; [exact I|]. constructor; [exact I|].
      constructor; [cbn [usable onetime_interval]; lia|].
      constructor; [exact I|]. constructor; [exact I|].
      constructor; [exact I | constructor].
    + destruct rmsd0; [constructor; [exact I | constructor] | constructor].
Qed.

(** ** Exit paths of [run] *)

Lemma bind_Return_inv {A B : Type} (m : M A) (k : A -> M B) (s : Simulation)
  (b : B) (s' : Simulation) :
  bind m k s = Return b s' ->
  exists a s1, m s = Return a s1 /\ k a s1 = Return b s'.
Proof.
  unfold bind. destruct (m s) as [a s1|e s1|s1]; try discriminate. eauto.
Qed.

(** [while True] has no [break]: the loop never ends normally. *)
Lemma run_loop_never_returns (w : World) (fuel : nat) :
  forall s u s', run_loop w fuel s <> Return u s'.
Proof.
  induction fuel as [|fuel IH]; intros s u s'; cbn [run_loop].
  - discriminate.
  - intros H. apply bind_Return_inv in H. destruct H as (a & s1 & _ & H).
    exact (IH s1 u s' H).
Qed.

Lemma run_body_never_returns (w : World) (fuel : nat) (s : Simulation) :
  forall u s', run_body w fuel s <> Return u s'.
Proof.
  intros u s' H. unfold run_body in H.
  repeat (apply bind_Return_inv in H; destruct H as (? & ? & _ & H)).
  exact (run_loop_never_returns w fuel _ u s' H).
Qed.

(** The bare [except] clause followed by [finally]. *)
Lemma other_exception_handler (w : World) (e : exn) (s1 : Simulation) :
  (forall m, e <> SimulationEnd m) -> e <> KeyboardInterrupt ->
  run_finally (run_except w (Raise e s1))
  = Raise e (set_trace (trace s1 ++ [Error MsgFailed; Info MsgGoodbye]) s1).
Proof.
  intros Hend Hki.
  assert (H : run_except w (Raise e s1)
              = Raise e (set_trace (trace s1 ++ [Error MsgFailed]) s1)).
  { destruct e; try reflexivity.
    - exfalso. exact (Hend _ eq_refl).
    - exfalso. exact (Hki eq_refl). }
  rewrite H. cbn [run_finally]. f_equal.
  unfold set_trace. cbn [trace]. rewrite <- app_assoc. reflexivity.
Qed.

(** X6: the exit paths of the [try] statement of [run]. The body never
    ends normally. An exception other than [SimulationEnd] and
    [KeyboardInterrupt] is raised again unchanged, after the failure line
    and the closing line. So [run] returns normally only when the body
    raised [SimulationEnd] or [KeyboardInterrupt]; and on every exit path
    the closing line is the last event logged. *)
Theorem run_try_exit_paths (w : World) (fuel : nat) (s : Simulation) :
  cls (writer_checkpoint s) = WriterCheckpoint ->
  (forall u s1, run_body w fuel s <> Return u s1) /\
  (forall e s1,
     run_body w fuel s = Raise e s1 ->
     (forall m, e <> SimulationEnd m) -> e <> KeyboardInterrupt ->
     run_try w fuel s
     = Raise e (set_trace (trace s1 ++ [Error MsgFailed; Info MsgGoodbye]) s1)) /\
  (forall u s',
     run_try w fuel s = Return u s' ->
     exists s1,
       (exists m, run_body w fuel s = Raise (SimulationEnd m) s1) \/
       run_body w fuel s = Raise KeyboardInterrupt s1) /\
  ((forall s1, run_body w fuel s <> Timeout s1) ->
   exists evs, trace (state_of (run_try w fuel s)) = evs ++ [Info MsgGoodbye]).
Proof.
  intros Hcls.
  split; [apply run_body_never_returns|].
  split.
  { intros e s1 Hbody Hend Hki. unfold run_try. rewrite Hbody.
    apply other_exception_handler; assumption. }
  split.
  { intros u s' Hret. unfold run_try in Hret.
    destruct (run_body w fuel s) as [a s1|e s1|s1] eqn:Hbody.
    - exfalso. exact (run_body_never_returns w fuel s a s1 Hbody).
    - exists s1. destruct e; try (cbn in Hret; discriminate Hret).
      + left. eauto.
      + right. reflexivity.
    - cbn in Hret. discriminate Hret. }
  intros Hfuel. unfold run_try.
  destruct (run_body w fuel s) as [a s1|e s1|s1] eqn:Hbody.
  - exfalso. exact (run_body_never_returns w fuel s a s1 Hbody).
  - assert (Hwc1 : cls (writer_checkpoint s1) = WriterCheckpoint).
    { pose proof (keeps_checkpoint_run_body w fuel s) as H.
      rewrite Hbody in H. cbn [state_of] in H. rewrite H. exact Hcls. }
    destruct e as [m| | | | | | | | | | |];
      try (rewrite other_exception_handler by (try discriminate; intros; discriminate);
           cbn [state_of trace set_trace];
           exists (trace s1 ++ [Error MsgFailed]);
           rewrite <- app_assoc; reflexivity).
    + destruct (SimulationEnd_handler w s1 m Hwc1) as (evs & Htr & _).
      rewrite Htr.
      exists (trace s1 ++ Call (writer_checkpoint s1) (steps s1)
                :: Info (MsgText m) :: evs).
      rewrite <- app_assoc. reflexivity.
    + exists (trace s1). reflexivity.
  - exfalso. exact (Hfuel s1 eq_refl).
Qed.

Lemma run_try_exit_paths_witness :
  (forall u s1, run_body ticking_world 100 sim50_started <> Return u s1) /\
  (forall e s1,
     run_body ticking_world 100 sim50_started = Raise e s1 ->
     (forall m, e <> SimulationEnd m) -> e <> KeyboardInterrupt ->
     run_try ticking_world 100 sim50_started
     = Raise e (set_trace (trace s1 ++ [Error MsgFailed; Info MsgGoodbye]) s1)) /\
  (forall u s',
     run_try ticking_world 100 sim50_started = Return u s' ->
     exists s1,
       (exists m, run_body ticking_world 100 sim50_started
                  = Raise (SimulationEnd m) s1) \/
       run_body ticking_world 100 sim50_started = Raise KeyboardInterrupt s1) /\
  ((forall s1, run_body ticking_world 100 sim50_started <> Timeout s1) ->
   exists evs,
     trace (state_of (run_try ticking_world 100 sim50_started))
     = evs ++ [Info MsgGoodbye]).
Proof.
  apply (run_try_exit_paths ticking_world 100 sim50_started). reflexivity.
Defined.

Lemma set_trace_same (s : Simulation) : set_trace (trace s) s = s.
Proof. destruct s; reflexivity. Qed.

(** [_report_observers] logs one line for each registration, up to the
    first wall-time target, where it fails. *)
Lemma report_observers_outcome (l : list registration) :
  forall s, exists evs,
    forallb is_report_line evs = true /\
    _report_observers l s
    = if existsb is_TargetWallTime (map fst l)
      then Raise (AttributeError "'TargetWallTime' object has no attribute 'target'")
             (set_trace (trace s ++ evs) s)
      else Return tt (set_trace (trace s ++ evs) s).
Proof.
  induction l as [|[f sc] l IH]; intros s.
  - exists []. split; [reflexivity|]. cbn. rewrite app_nil_r, set_trace_same. reflexivity.
  - cbn [_report_observers map fst existsb]. unfold bind.
    assert (Hstep : forall line,
               is_report_line (Info line) = true ->
               is_TargetWallTime f = false ->
               exists evs,
                 forallb is_report_line evs = true /\
                 match emit (Info line) s with
                 | Return _ s' => _report_observers l s'
                 | Raise e s' => Raise e s'
                 | Timeout s' => Timeout s'
                 end
                 = if is_TargetWallTime f || existsb is_TargetWallTime (map fst l)
                   then Raise (AttributeError
                                 "'TargetWallTime' object has no attribute 'target'")
                          (set_trace (trace s ++ evs) s)
                   else Return tt (set_trace (trace s ++ evs) s)).
    { intros line Hline Hf. rewrite Hf. cbn [orb]. unfold emit, modify.
      destruct (IH (set_trace (trace s ++ [Info line]) s)) as (evs & Hev & Hr).
      exists (Info line :: evs). split.
      - cbn [forallb]. rewrite Hline, Hev. reflexivity.
      - rewrite Hr. cbn [trace set_trace].
        replace ((trace s ++ [Info line]) ++ evs) with (trace s ++ Info line :: evs)
          by (rewrite <- app_assoc; reflexivity).
        destruct (existsb is_TargetWallTime (map fst l)); reflexivity. }
    unfold is_Target, is_TargetWallTime in *.
    destruct (cls f); try (apply Hstep; reflexivity).
    exists []. split; [reflexivity|]. cbn [orb]. unfold raise.
    rewrite app_nil_r, set_trace_same. reflexivity.
Qed.

(** X7: [run] reports before [try], and the report reads [target] of
    every [Target] in the ledger. With parallel lists: if a wall-time
    target is registered, [run] raises the [AttributeError] of its
    missing [target] attribute from [report()]; only report lines are
    logged (neither the failure line nor the closing line), no observer
    is called and the step counter is untouched. If none is registered,
    the statements before [try] complete. *)
Theorem run_report_failure (w : World) (target_steps0 : option Z) (fuel : nat)
  (s : Simulation) :
  List.length (_callback s) = List.length (_scheduler s) ->
  exists evs s0,
    forallb is_report_line evs = true /\
    trace s0 = trace s ++ evs /\
    steps s0 = steps s /\
    if existsb is_TargetWallTime (_callback s) then
      run w target_steps0 fuel s
      = Raise (AttributeError "'TargetWallTime' object has no attribute 'target'") s0
    else
      run_prologue target_steps0 s = Return tt s0.
Proof.
  intros Hlen.
  assert (Hcb : forall X : Simulation,
             _callback X = _callback s -> _scheduler X = _scheduler s ->
             map fst (combine (_callback X) (_scheduler X)) = _callback s).
  { intros X -> ->. apply map_fst_combine_eq. exact Hlen. }
  assert (Hpro : forall pre (X : Simulation),
             forallb is_report_line pre = true ->
             trace X = trace s ++ pre -> steps X = steps s ->
             _callback X = _callback s -> _scheduler X = _scheduler s ->
             exists evs s0,
               forallb is_report_line evs = true /\
               trace s0 = trace s ++ evs /\ steps s0 = steps s /\
               _report_observers (combine (_callback X) (_scheduler X)) X
               = if existsb is_TargetWallTime (_callback s)
                 then Raise (AttributeError
                               "'TargetWallTime' object has no attribute 'target'") s0
                 else Return tt s0).
  { intros pre X Hpre Htr Hst HcX HsX.
    destruct (report_observers_outcome (combine (_callback X) (_scheduler X)) X)
      as (evs & Hev & Hr).
    rewrite (Hcb X HcX HsX) in Hr.
    exists (pre ++ evs), (set_trace (trace X ++ evs) X).
    split; [rewrite forallb_app, Hpre, Hev; reflexivity|].
    split; [cbn [trace set_trace]; rewrite Htr, <- app_assoc; reflexivity|].
    split; [exact Hst|].
    rewrite Hr. destruct (existsb is_TargetWallTime (_callback s)); reflexivity. }
  assert (Hrun : forall r,
             run_prologue target_steps0 s = r ->
             forall s0,
               (if existsb is_TargetWallTime (_callback s)
                then r = Raise (AttributeError
                                  "'TargetWallTime' object has no attribute 'target'") s0
                else r = Return tt s0) ->
               if existsb is_TargetWallTime (_callback s)
               then run w target_steps0 fuel s
                    = Raise (AttributeError
                               "'TargetWallTime' object has no attribute 'target'") s0
               else run_prologue target_steps0 s = Return tt s0).
  { intros r Hr s0 H. destruct (existsb is_TargetWallTime (_callback s)).
    - unfold run, bind. rewrite Hr, H. reflexivity.
    - rewrite Hr. exact H. }
  unfold run_prologue, report, run_pre in Hrun.
  destruct target_steps0 as [t|].
  - destruct (Hpro [Info (MsgTargetedSteps t); Info MsgBlank; Info MsgTitle;
                    Info MsgBlank; Info MsgVersion]
                (state_of ((s1 <- get ;;
                            (if target_steps s1 <? t then modify (set_restart true)
                             else ret tt) ;;
                            modify (set_target_steps t) ;;
                            emit (Info (MsgTargetedSteps t)) ;;
                            s2 <- get ;;
                            modify (set_initial_steps (steps s2)) ;;
                            emit (Info MsgBlank) ;; emit (Info MsgTitle) ;;
                            emit (Info MsgBlank) ;; emit (Info MsgVersion)) s)))
      as (evs & s0 & Hev & Htr & Hst & Hr).
    + reflexivity.
    + unfold bind, get, emit, modify, ret.
      destruct (target_steps s <? t); cbn [state_of trace set_trace set_restart
        set_target_steps set_initial_steps];
        rewrite <- !app_assoc; reflexivity.
    + unfold bind, get, emit, modify, ret.
      destruct (target_steps s <? t); reflexivity.
    + unfold bind, get, emit, modify, ret.
      destruct (target_steps s <? t); reflexivity.
    + unfold bind, get, emit, modify, ret.
      destruct (target_steps s <? t); reflexivity.
    + exists evs, s0. split; [exact Hev|]. split; [exact Htr|]. split; [exact Hst|].
      eapply Hrun; [reflexivity|].
      revert Hr. unfold bind, get, emit, modify, ret.
      destruct (target_steps s <? t); cbn [state_of];
        destruct (existsb is_TargetWallTime (_callback s)); intros ->; reflexivity.
  - destruct (Hpro [Info MsgBlank; Info MsgTitle; Info MsgBlank; Info MsgVersion]
                (state_of ((s2 <- get ;;
                            modify (set_initial_steps (steps s2)) ;;
                            emit (Info MsgBlank) ;; emit (Info MsgTitle) ;;
                            emit (Info MsgBlank) ;; emit (Info MsgVersion)) s)))
      as (evs & s0 & Hev & Htr & Hst & Hr).
    + reflexivity.
    + unfold bind, get, emit, modify, ret.
      cbn [state_of trace set_trace set_initial_steps].
      rewrite <- !app_assoc. reflexivity.
    + reflexivity.
    + reflexivity.
    + reflexivity.
    + exists evs, s0. split; [exact Hev|]. split; [exact Htr|]. split; [exact Hst|].
      eapply Hrun; [reflexivity|].
      revert Hr. unfold bind, get, emit, modify, ret. cbn [state_of].
      destruct (existsb is_TargetWallTime (_callback s)); intros ->; reflexivity.
Qed.

Lemma run_report_failure_witness :
  exists evs s0,
    forallb is_report_line evs = true /\
    trace s0 = trace sim_wall_time ++ evs /\
    steps s0 = steps sim_wall_time /\
    if existsb is_TargetWallTime (_callback sim_wall_time) then
      run ticking_world None 10 sim_wall_time
      = Raise (AttributeError "'TargetWallTime' object has no attribute 'target'") s0
    else
      run_prologue None sim_wall_time = Return tt s0.
Proof.
  apply (run_report_failure ticking_world None 10 sim_wall_time). reflexivity.
Defined.

(** The statements before [try] complete when no wall-time target is
    registered. *)
Lemma run_prologue_completes (target_steps0 : option Z) (s : Simulation) :
  List.length (_callback s) = List.length (_scheduler s) ->
  existsb is_TargetWallTime (_callback s) = false ->
  exists evs,
    forallb is_report_line evs = true /\
    run_prologue target_steps0 s
    = Return tt
        (set_trace (trace s ++ evs)
           (set_initial_steps (steps s)
              (match target_steps0 with
               | Some t =>
                   set_target_steps t
                     (if target_steps s <? t then set_restart true s else s)
               | None => s
               end))).
Proof.
  intros Hlen Hno.
  assert (Hcb : map fst (combine (_callback s) (_scheduler s)) = _callback s)
    by (apply map_fst_combine_eq; exact Hlen).
  unfold run_prologue, report, run_pre.
  destruct target_steps0 as [t|];
    unfold bind, get, emit, modify, ret; try destruct (target_steps s <? t).
  all: match goal with
       | |- exists _, _ /\ _report_observers ?l ?X = _ =>
           destruct (report_observers_outcome l X) as (evs & Hev & Hr);
           rewrite Hr; clear Hr
       end.
  all: cbn [_callback _scheduler trace steps set_trace set_initial_steps
            set_target_steps set_restart].
  all: rewrite Hcb, Hno.
  1, 2: exists ([Info (MsgTargetedSteps t); Info MsgBlank; Info MsgTitle;
                 Info MsgBlank; Info MsgVersion] ++ evs).
  3: exists ([Info MsgBlank; Info MsgTitle; Info MsgBlank; Info MsgVersion] ++ evs).
  all: split; [exact Hev|].
  all: rewrite <- ?app_assoc; reflexivity.
Qed.

(** ** Runs that reach the step target *)

Lemma Qle_bool_inject_Z (a b : Z) : Qle_bool (inject_Z a) (inject_Z b) = (a <=? b).
Proof.
  destruct (Z.leb_spec a b) as [H|H].
  - apply Qle_bool_iff. rewrite <- Zle_Qle. exact H.
  - destruct (Qle_bool (inject_Z a) (inject_Z b)) eqn:E; [|reflexivity].
    apply Qle_bool_iff in E. rewrite <- Zle_Qle in E. lia.
Qed.

Lemma Qeq_bool_minus_lt (a b : Q) : (a < b)%Q -> Qeq_bool (b - a) 0 = false.
Proof.
  intros H. destruct (Qeq_bool (b - a) 0) eqn:E; [|reflexivity].
  apply Qeq_bool_eq in E.
  assert (b == a)%Q by (rewrite <- (Qplus_0_l a), <- E; ring).
  rewrite H0 in H. exfalso. exact (Qlt_irrefl _ H).
Qed.

Lemma Qeq_bool_speed (x x' t t' : Q) :
  (x < x')%Q -> (t < t')%Q -> Qeq_bool ((x' - x) / (t' - t)) 0 = false.
Proof.
  intros Hx Ht. destruct (Qeq_bool ((x' - x) / (t' - t)) 0) eqn:E; [|reflexivity].
  apply Qeq_bool_eq in E.
  assert (Hd : ~ (t' - t == 0)%Q).
  { intros H. apply Qeq_bool_iff in H. rewrite Qeq_bool_minus_lt in H by exact Ht.
    discriminate. }
  assert (Hn : (x' - x == 0)%Q).
  { rewrite <- (Qmult_div_r (x' - x) (t' - t)) by exact Hd. rewrite E. ring. }
  apply Qeq_bool_iff in Hn. rewrite Qeq_bool_minus_lt in Hn by exact Hx. discriminate.
Qed.

Lemma clock_ticks_mono (w : World) :
  clock_ticks w -> forall k k' : nat, (k < k')%nat -> (clock w k < clock w k')%Q.
Proof.
  intros Ht k k' Hlt. induction Hlt as [|k' Hlt IH].
  - apply Ht.
  - eapply Qlt_trans; [exact IH | apply Ht].
Qed.

Lemma lookup_speedometer_In (i : nat) (h : list (nat * SpeedometerState))
  (st : SpeedometerState) :
  lookup_speedometer i h = Some st -> In (i, st) h.
Proof.
  induction h as [|[j st'] h IH]; simpl; [discriminate|].
  destruct (Nat.eqb_spec i j) as [->|Hne].
  - intros H. injection H as ->. left. reflexivity.
  - intros H. right. auto.
Qed.

Lemma lookup_store_other (i j : nat) (st : SpeedometerState)
  (h : list (nat * SpeedometerState)) :
  j <> i -> lookup_speedometer j (store_speedometer i st h) = lookup_speedometer j h.
Proof.
  intros Hne. unfold store_speedometer. cbn [lookup_speedometer].
  destruct (Nat.eqb_spec j i) as [->|_]; [congruence|].
  induction h as [|[k st'] h IH]; [reflexivity|].
  cbn [filter fst lookup_speedometer].
  destruct (Nat.eqb_spec k i) as [->|Hk]; cbn [negb].
  - destruct (Nat.eqb_spec j i); [congruence | exact IH].
  - cbn [lookup_speedometer]. destruct (Nat.eqb j k); [reflexivity | exact IH].
Qed.

Lemma Forall_store_speedometer (P : nat * SpeedometerState -> Prop) (i : nat)
  (st : SpeedometerState) (h : list (nat * SpeedometerState)) :
  P (i, st) -> Forall P h -> Forall P (store_speedometer i st h).
Proof.
  intros Hp Hh. unfold store_speedometer. constructor; [exact Hp|].
  apply Forall_forall. intros p Hin. apply filter_In in Hin.
  rewrite Forall_forall in Hh. apply Hh. tauto.
Qed.

Lemma speedometer_behind_mono (w : World) (N : Z) (s s' : Simulation)
  (st : SpeedometerState) :
  steps s <= steps s' -> (reads s <= reads s')%nat ->
  speedometer_behind w N s st -> speedometer_behind w N s' st.
Proof.
  intros Hs Hr (Hn & Ht & (x & Hx & Hle) & (k & Hk & Hc)).
  split; [exact Hn|]. split; [exact Ht|]. split.
  - exists x. split; [exact Hx | lia].
  - exists k. split; [lia | exact Hc].
Qed.

Lemma first_default_target (N : Z) (cb : list observer) :
  Forall (is_default_observer N) cb ->
  (exists c, In c cb /\ is_Target c = true) ->
  exists c, find is_Target cb = Some c /\ cls c = Target attr_steps (PyInt N).
Proof.
  intros Hd (c & Hin & Hc).
  destruct (find is_Target cb) as [c'|] eqn:Hf.
  - exists c'. split; [reflexivity|].
    apply find_some in Hf. destruct Hf as [Hin' Hc'].
    rewrite Forall_forall in Hd. specialize (Hd c' Hin').
    unfold is_default_observer in Hd. unfold is_Target in Hc'.
    destruct (cls c') as [| | | |[|] t| | | |]; try discriminate; try contradiction.
    subst t. reflexivity.
  - pose proof (find_none _ _ Hf c Hin). congruence.
Qed.

Lemma NoDup_map_oid (l : list observer) (a b : observer) :
  NoDup (map oid l) -> In a l -> In b l -> oid a = oid b -> a = b.
Proof.
  induction l as [|x l IH]; simpl; intros Hnd Ha Hb Heq; [contradiction|].
  inversion Hnd as [|? ? Hnin Hnd']; subst.
  destruct Ha as [->|Ha], Hb as [->|Hb]; auto.
  - exfalso. apply Hnin. rewrite Heq. apply in_map. exact Hb.
  - exfalso. apply Hnin. rewrite <- Heq. apply in_map. exact Ha.
Qed.

Ltac simpl_state :=
  cbn [_callback _scheduler fixcm_interval restart output_path steps initial_steps
       start_time target_steps writer_thermo writer_config writer_checkpoint
       speedometers reads trace set_ledger set_callback set_scheduler set_restart
       set_steps set_initial_steps set_target_steps set_speedometers set_reads
       set_trace state_of fst snd] in *.

Section ReachTarget.

Variable w : World.
Variable N : Z.
Hypothesis Hticks : clock_ticks w.
Hypothesis Hparticles : exists n, particles w = Some n /\ n <> 0.
Hypothesis Hbackend : forall a b, backend_run_until w a b = None.
Hypothesis HN : 0 < N <= 2 ^ 53.

Lemma wall_time_per_step_particle_returns (s : Simulation) :
  initial_steps s <> steps s ->
  exists q, wall_time_per_step_particle w s = Return q (set_reads (S (reads s)) s).
Proof.
  intros Hne. destruct Hparticles as (n & Hp & Hn).
  assert (Hd : (steps s - initial_steps s =? 0) = false) by (apply Z.eqb_neq; lia).
  unfold wall_time_per_step_particle, wall_time_per_step, elapsed_wall_time,
    time_time, bind, get, ret, raise.
  simpl_state. rewrite Hd, Hp.
  apply Z.eqb_neq in Hn. rewrite Hn. eexists. reflexivity.
Qed.

(** Below [2^53] the step counter is a float. *)
Lemma getattr_float_steps (s : Simulation) :
  Z.abs (steps s) <= 2 ^ 53 ->
  getattr_float attr_steps s = Return (inject_Z (steps s)) s.
Proof.
  intros Hs. unfold getattr_float, bind, get.
  rewrite py_float_exact by exact Hs. reflexivity.
Qed.

(** A speedometer bound to the step target returns: on its first call
    it stores the step and the clock reading, on a later call at a new
    step it logs its line. *)
Lemma Speedometer_call_default (o : observer) (what : option string)
  (s : Simulation) (c : observer) :
  Forall (fun p => speedometer_behind w N s (snd p)) (speedometers s) ->
  find is_Target (_callback s) = Some c ->
  cls c = Target attr_steps (PyInt N) ->
  speedometer_ready s o ->
  0 <= steps s <= N ->
  exists s',
    Speedometer_call w o what s = Return tt s' /\
    same_setup s s' /\ steps s' = steps s /\
    Forall (fun p => speedometer_behind w N s' (snd p)) (speedometers s') /\
    (forall i, i <> oid o ->
       lookup_speedometer i (speedometers s') = lookup_speedometer i (speedometers s)).
Proof.
  intros Hall Hfind Hcls Hready Hrange.
  assert (Hfloat : forall s0,
             steps s0 = steps s ->
             getattr_float attr_steps s0 = Return (inject_Z (steps s)) s0).
  { intros s0 Hs0. rewrite <- Hs0. apply getattr_float_steps. lia. }
  unfold Speedometer_call. unfold bind at 1, get at 1.
  destruct (lookup_speedometer (oid o) (speedometers s)) as [st|] eqn:Hl.
  - pose proof (lookup_speedometer_In _ _ _ Hl) as Hin.
    rewrite Forall_forall in Hall.
    destruct (Hall _ Hin) as (Hname & Htarget & _ & (k & Hk & Hclock)).
    destruct (Hready st Hl) as ((x & Hx & Hlt) & Hne).
    simpl_state.
    assert (Hpos : negb (Qle_bool (x_target st) 0) = true).
    { rewrite Htarget. change 0%Q with (inject_Z 0). rewrite Qle_bool_inject_Z.
      destruct (Z.leb_spec N 0); [lia | reflexivity]. }
    rewrite Hpos, Hname.
    assert (Ht : Qeq_bool (clock w (reads s) - t_last st) 0 = false).
    { apply Qeq_bool_minus_lt. rewrite Hclock.
      apply clock_ticks_mono; assumption. }
    assert (Hsp : Qeq_bool ((inject_Z (steps s) - x_last st)
                            / (clock w (reads s) - t_last st)) 0 = false).
    { apply Qeq_bool_speed.
      - rewrite Hx. rewrite <- Zlt_Qlt. exact Hlt.
      - rewrite Hclock. apply clock_ticks_mono; assumption. }
    destruct (wall_time_per_step_particle_returns (set_reads (S (reads s)) s))
      as (q & Hq); [exact Hne|].
    unfold time_time. unfold bind at 1. cbv beta iota. unfold bind at 1.
    rewrite Hfloat by reflexivity.
    unfold bind, get, ret, emit, modify.
    simpl_state. cbv beta iota zeta. rewrite Ht, Hsp, Hq.
    eexists. split; [reflexivity|]. simpl_state.
    split; [repeat split|]. split; [reflexivity|]. split.
    + apply Forall_store_speedometer.
      * split; [reflexivity|]. split; [exact Htarget|]. simpl_state. split.
        -- exists (steps s). split; [reflexivity | lia].
        -- exists (reads s). split; [lia | reflexivity].
      * apply Forall_forall. intros p Hp.
        eapply speedometer_behind_mono; [| |apply (Hall p Hp)]; simpl_state; lia.
    + intros i Hi. apply lookup_store_other. exact Hi.
  - rewrite Hfind, Hcls.
    unfold time_time. unfold bind at 1. cbv beta iota. unfold bind at 1.
    rewrite Hfloat by reflexivity.
    unfold bind, get, ret, emit, modify.
    eexists. split; [reflexivity|]. simpl_state.
    split; [repeat split|]. split; [reflexivity|]. split.
    + apply Forall_store_speedometer.
      * split; [reflexivity|]. split; [reflexivity|]. simpl_state. split.
        -- exists (steps s). split; [reflexivity | lia].
        -- exists (reads s). split; [lia | reflexivity].
      * rewrite Forall_forall in Hall. apply Forall_forall. intros p Hp.
        eapply speedometer_behind_mono; [| |apply (Hall p Hp)]; simpl_state; lia.
    + intros i Hi. apply lookup_store_other. exact Hi.
Qed.

Lemma same_setup_refl (s : Simulation) : same_setup s s.
Proof. repeat split. Qed.

Lemma same_setup_trans (s1 s2 s3 : Simulation) :
  same_setup s1 s2 -> same_setup s2 s3 -> same_setup s1 s3.
Proof.
  intros (A1 & A2 & A3 & A4 & A5) (B1 & B2 & B3 & B4 & B5).
  repeat split; congruence.
Qed.

(** A call of a default observer: only the step target can raise, and
    it does so exactly when the step counter has reached [N]. *)
Lemma call_default_observer (o : observer) (s : Simulation) (c : observer) :
  Forall (fun p => speedometer_behind w N s (snd p)) (speedometers s) ->
  find is_Target (_callback s) = Some c ->
  cls c = Target attr_steps (PyInt N) ->
  is_default_observer N o ->
  speedometer_ready s o ->
  0 <= steps s <= N ->
  exists s',
    call_observer w o s
    = (if is_Target o && (N <=? steps s)
       then Raise (SimulationEnd (Target_message attr_steps (PyInt N))) s'
       else Return tt s') /\
    same_setup s s' /\ steps s' = steps s /\
    Forall (fun p => speedometer_behind w N s' (snd p)) (speedometers s') /\
    (forall i, i <> oid o ->
       lookup_speedometer i (speedometers s') = lookup_speedometer i (speedometers s)).
Proof.
  intros Hall Hfind Hcls Hdef Hready Hrange.
  unfold call_observer. unfold bind at 1, get at 1. unfold bind at 1, emit, modify.
  unfold is_default_observer in Hdef. unfold is_Target.
  destruct (cls o) as [| | |what|name t| | | |] eqn:Ho; try contradiction;
    cbn [andb].
  1, 2, 3: (eexists; split; [reflexivity|]; simpl_state;
            split; [repeat split|]; split; [reflexivity|];
            split; [exact Hall | reflexivity]).
  - destruct (Speedometer_call_default o what
                (set_trace (trace s ++ [Call o (steps s)]) s) c Hall Hfind Hcls Hready
                Hrange)
      as (s' & Hr & Hsame & Hst & Hb & Hoth).
    exists s'. split; [exact Hr|]. split; [exact Hsame|]. split; [exact Hst|].
    split; [exact Hb | exact Hoth].
  - destruct name; [|contradiction]. subst t.
    unfold Target_call. unfold bind.
    rewrite (getattr_float_steps (set_trace (trace s ++ [Call o (steps s)]) s))
      by (simpl_state; lia).
    unfold raise, ret. simpl_state. cbn [number_value]. rewrite Qle_bool_inject_Z.
    eexists. split; [destruct (N <=? steps s); reflexivity|]. simpl_state.
    split; [repeat split|]. split; [reflexivity|].
    split; [exact Hall | reflexivity].
Qed.

(** A notification of distinct default observers. *)
Lemma notify_default (l : list observer) :
  forall (s : Simulation) (c : observer),
    Forall (fun p => speedometer_behind w N s (snd p)) (speedometers s) ->
    find is_Target (_callback s) = Some c ->
    cls c = Target attr_steps (PyInt N) ->
    Forall (is_default_observer N) l ->
    NoDup (map oid l) ->
    Forall (speedometer_ready s) l ->
    0 <= steps s <= N ->
    exists s',
      notify w l s
      = (if existsb is_Target l && (N <=? steps s)
         then Raise (SimulationEnd (Target_message attr_steps (PyInt N))) s'
         else Return tt s') /\
      same_setup s s' /\ steps s' = steps s /\
      Forall (fun p => speedometer_behind w N s' (snd p)) (speedometers s') /\
      (forall i, ~ In i (map oid l) ->
         lookup_speedometer i (speedometers s') = lookup_speedometer i (speedometers s)).
Proof.
  induction l as [|o l IH]; intros s c Hall Hfind Hcls Hdef Hnd Hready Hrange.
  - exists s. cbn [notify existsb andb]. split; [reflexivity|].
    split; [apply same_setup_refl|]. split; [reflexivity|].
    split; [exact Hall | reflexivity].
  - inversion Hdef as [|? ? Hdo Hdl]; subst.
    inversion Hready as [|? ? Hro Hrl]; subst.
    cbn [map] in Hnd. inversion Hnd as [|? ? Hnin Hnd']; subst.
    destruct (call_default_observer o s c Hall Hfind Hcls Hdo Hro Hrange)
      as (s1 & Hr1 & Hsame1 & Hst1 & Hb1 & Hoth1).
    cbn [notify existsb]. unfold bind at 1. rewrite Hr1.
    destruct (is_Target o && (N <=? steps s)) eqn:Hraise.
    + exists s1. apply andb_prop in Hraise. destruct Hraise as [Ho Hle].
      rewrite Ho, Hle. cbn [orb andb]. split; [reflexivity|].
      split; [exact Hsame1|]. split; [exact Hst1|]. split; [exact Hb1|].
      intros i Hi. apply Hoth1. intros ->. apply Hi. left. reflexivity.
    + assert (Hfind1 : find is_Target (_callback s1) = Some c).
      { destruct Hsame1 as (-> & _). exact Hfind. }
      assert (Hready1 : Forall (speedometer_ready s1) l).
      { rewrite Forall_forall in Hrl. apply Forall_forall. intros o' Hin st Hl.
        rewrite Hoth1 in Hl.
        - destruct Hsame1 as (_ & _ & Hini & _). rewrite Hst1, Hini.
          exact (Hrl o' Hin st Hl).
        - intros Heq. apply Hnin. rewrite <- Heq. apply in_map. exact Hin. }
      assert (Hrange1 : 0 <= steps s1 <= N) by (rewrite Hst1; exact Hrange).
      destruct (IH s1 c Hb1 Hfind1 Hcls Hdl Hnd' Hready1 Hrange1)
        as (s2 & Hr2 & Hsame2 & Hst2 & Hb2 & Hoth2).
      exists s2. rewrite Hr2, Hst1.
      assert (Hcond : (is_Target o || existsb is_Target l) && (N <=? steps s)
                      = existsb is_Target l && (N <=? steps s)).
      { destruct (is_Target o), (N <=? steps s), (existsb is_Target l);
          try reflexivity; discriminate. }
      rewrite Hcond. split; [reflexivity|].
      split; [eapply same_setup_trans; eassumption|].
      split; [congruence|]. split; [exact Hb2|].
      intros i Hi. rewrite Hoth2, Hoth1; [reflexivity | |].
      * intros ->. apply Hi. left. reflexivity.
      * intros Hin. apply Hi. right. exact Hin.
Qed.

Lemma Forall2_In_l {A B : Type} (R : A -> B -> Prop) (l : list A) (l' : list B)
  (x : A) :
  Forall2 R l l' -> In x l -> exists y, In y l' /\ R x y.
Proof.
  induction 1 as [|a b l l' Hab _ IH]; simpl; [contradiction|].
  intros [->|Hin].
  - exists b. auto.
  - destruct (IH Hin) as (y & Hy & Hr). exists y. auto.
Qed.

Lemma NoDup_due (f : registration -> bool) (cb : list observer) :
  forall scs : list sched,
    NoDup (map oid cb) -> NoDup (map oid (map fst (filter f (combine cb scs)))).
Proof.
  induction cb as [|o cb IH]; intros scs Hnd; [constructor|].
  destruct scs as [|sc scs]; [constructor|].
  cbn [map] in Hnd. inversion Hnd as [|? ? Hnin Hnd']; subst.
  cbn [combine filter]. destruct (f (o, sc)); [|apply IH; exact Hnd'].
  cbn [map fst]. constructor; [|apply IH; exact Hnd'].
  intros Hin. apply Hnin.
  apply in_map_iff in Hin. destruct Hin as (o' & Ho' & Hin).
  apply in_map_iff in Hin. destruct Hin as ([o'' sc''] & Hfst & Hin).
  cbn [fst] in Hfst. subst o''. apply filter_In in Hin. destruct Hin as [Hin _].
  apply in_combine_l in Hin. rewrite <- Ho'. apply in_map. exact Hin.
Qed.

(** The step target's scheduler answers [N] as long as the step counter
    is below [N]. *)
Lemma target_scheduler_next (p : Scheduler) (x : Z) :
  interval p = Some N -> 0 <= x < N -> Scheduler_next p x = N.
Proof.
  intros Hp Hx. unfold Scheduler_next. rewrite Hp.
  destruct (Z.ltb_spec 0 N); [|lia].
  rewrite Z.div_small by lia. lia.
Qed.

(** One pass of the loop below the target: the step counter moves to
    some [m] with [steps < m <= N], and the pass raises [SimulationEnd]
    exactly when [m = N]. *)
Lemma run_iteration_default (s : Simulation) :
  default_setup N s ->
  Forall (fun p => speedometer_behind w N s (snd p)) (speedometers s) ->
  0 <= steps s < N ->
  initial_steps s <= steps s ->
  exists m s',
    steps s < m <= N /\
    run_iteration w s
    = (if N <=? m then Raise (SimulationEnd (Target_message attr_steps (PyInt N))) s'
       else Return tt s') /\
    same_setup s s' /\ steps s' = m /\
    Forall (fun p => speedometer_behind w N s' (snd p)) (speedometers s').
Proof.
  intros (Hlen & Husable & Hnd & Hdef & (c & p & Hin & Hc & Hp) & _) Hall Hsteps Hini.
  assert (H53 : 2 ^ 53 < maxint) by reflexivity.
  destruct (all_next_later (_scheduler s) (steps s) Husable) as (ns & Hns & Hlater);
    [lia|].
  pose proof (all_next_Forall2 _ _ _ Hns) as HF.
  assert (HinN : In N ns).
  { destruct (Forall2_In_l _ _ _ (Periodic p) HF) as (n & Hn & Hnext).
    - unfold ledger in Hin. apply in_combine_r in Hin. exact Hin.
    - cbn [sched_next] in Hnext. injection Hnext as <-.
      rewrite target_scheduler_next in Hn; assumption. }
  destruct (py_min_nonempty ns) as (m & Hmin).
  { intros ->. contradiction. }
  destruct (py_min_Some ns m Hmin) as [Hm Hleast].
  assert (Hlt : steps s < m).
  { rewrite Forall_forall in Hlater. apply Hlater. exact Hm. }
  assert (HmN : m <= N).
  { rewrite Forall_forall in Hleast. apply Hleast. exact HinN. }
  destruct (first_default_target N (_callback s) Hdef) as (c0 & Hfind & Hcls).
  { exists c. split; [|exact Hc]. unfold ledger in Hin.
    apply in_combine_l in Hin. exact Hin. }
  rewrite (run_iteration_unfold w s ns m Hlen Hns Hmin).
  unfold run_until. unfold bind, get, emit, modify. rewrite Hbackend.
  unfold ret. simpl_state.
  set (s1 := set_steps m (set_trace (trace s ++ [RunUntil m]) s)).
  destruct (notify_default (due_observers s m) s1 c0) as (s' & Hr & Hsame & Hst & Hb & _).
  - rewrite Forall_forall in Hall. apply Forall_forall. intros q Hq.
    eapply speedometer_behind_mono; [| |apply (Hall q Hq)]; unfold s1; simpl_state; lia.
  - exact Hfind.
  - exact Hcls.
  - rewrite Forall_forall in Hdef. apply Forall_forall. intros o Ho.
    apply due_observers_In in Ho. destruct Ho as (sc & Ho & _).
    apply Hdef. unfold ledger in Ho. apply in_combine_l in Ho. exact Ho.
  - unfold due_observers, ledger. apply NoDup_due. exact Hnd.
  - apply Forall_forall. intros o _ st Hl. unfold s1 in *. simpl_state.
    apply lookup_speedometer_In in Hl. rewrite Forall_forall in Hall.
    destruct (Hall _ Hl) as (_ & _ & (x & Hx & Hle) & _). simpl_state.
    split; [exists x; split; [exact Hx | lia] | lia].
  - unfold s1. simpl_state. lia.
  - exists m, s'. split; [lia|]. split.
    + rewrite Hr. unfold s1. simpl_state.
      destruct (Z.leb_spec N m) as [HNm|HNm]; [|rewrite andb_false_r; reflexivity].
      assert (Hex : existsb is_Target (due_observers s m) = true).
      { apply existsb_exists. exists c. split; [|exact Hc].
        apply due_observers_In. exists (Periodic p). split; [exact Hin|].
        cbn [sched_next]. rewrite target_scheduler_next by assumption.
        f_equal. lia. }
      rewrite Hex. reflexivity.
    + split; [exact Hsame|]. split; [exact Hst | exact Hb].
Qed.

(** The loop, entered below the target with enough passes allowed,
    leaves by [SimulationEnd] at step [N]. *)
Lemma run_loop_default (fuel : nat) :
  forall s : Simulation,
    default_setup N s ->
    Forall (fun p => speedometer_behind w N s (snd p)) (speedometers s) ->
    0 <= steps s < N ->
    initial_steps s <= steps s ->
    (Z.to_nat (N - steps s) <= fuel)%nat ->
    exists s',
      run_loop w fuel s = Raise (SimulationEnd (Target_message attr_steps (PyInt N))) s' /\
      same_setup s s' /\ steps s' = N.
Proof.
  induction fuel as [|fuel IH]; intros s Hsetup Hall Hsteps Hini Hfuel; [lia|].
  destruct (run_iteration_default s Hsetup Hall Hsteps Hini)
    as (m & s1 & Hm & Hr & Hsame & Hst & Hb).
  cbn [run_loop]. unfold bind. rewrite Hr.
  destruct (Z.leb_spec N m) as [HNm|HNm].
  - exists s1. split; [reflexivity|]. split; [exact Hsame | lia].
  - destruct (IH s1) as (s' & Hr' & Hsame' & Hst').
    + destruct Hsame as (Hcb & Hsc & Hi & Hwk & Hre).
      destruct Hsetup as (H1 & H2 & H3 & H4 & H5 & H6).
      unfold default_setup, ledger. rewrite Hcb, Hsc, Hwk.
      repeat (split; [assumption|]). assumption.
    + exact Hb.
    + lia.
    + destruct Hsame as (_ & _ & Hi & _). lia.
    + lia.
    + exists s'. split; [exact Hr'|].
      split; [eapply same_setup_trans; eassumption | exact Hst'].
Qed.

Lemma default_setup_same (s s' : Simulation) :
  same_setup s s' -> default_setup N s -> default_setup N s'.
Proof.
  intros (Hcb & Hsc & _ & Hwk & _) (H1 & H2 & H3 & H4 & H5 & H6).
  unfold default_setup, ledger. rewrite Hcb, Hsc, Hwk.
  repeat (split; [assumption|]). assumption.
Qed.

Lemma NoDup_map_oid_filter (f : observer -> bool) (l : list observer) :
  NoDup (map oid l) -> NoDup (map oid (filter f l)).
Proof.
  induction l as [|o l IH]; cbn [map filter]; intros Hnd; [constructor|].
  inversion Hnd as [|? ? Hnin Hnd']; subst.
  destruct (f o); [|auto]. cbn [map]. constructor; [|auto].
  intros Hin. apply Hnin. apply in_map_iff in Hin.
  destruct Hin as (o' & Ho' & Hin). apply filter_In in Hin.
  rewrite <- Ho'. apply in_map. tauto.
Qed.

(** The [try] statement, entered below the target by a simulation with
    default observers that have not been called yet. *)
Lemma run_try_default (fuel : nat) (s : Simulation) :
  default_setup N s ->
  speedometers s = [] ->
  0 <= steps s < N ->
  initial_steps s = steps s ->
  (Z.to_nat (N - steps s) <= fuel)%nat ->
  exists s',
    run_try w fuel s = Return tt s' /\ steps s' = N /\
    In (Call (writer_checkpoint s) N) (trace s').
Proof.
  intros Hsetup Hsp Hsteps Hini Hfuel.
  pose proof Hsetup as (Hlen & Husable & Hnd & Hdef & (c & p & Hin & Hc & Hp) & Hwk).
  destruct (first_default_target N (_callback s) Hdef) as (c0 & Hfind & Hcls).
  { exists c. split; [|exact Hc]. unfold ledger in Hin.
    apply in_combine_l in Hin. exact Hin. }
  assert (Hbelow : (N <=? steps s) = false) by (apply Z.leb_gt; lia).
  (* the targets *)
  destruct (notify_default (_targeters s) s c0) as (s1 & Hr1 & Hsame1 & Hst1 & Hb1 & Hoth1).
  { rewrite Hsp. constructor. }
  { exact Hfind. }
  { exact Hcls. }
  { unfold _targeters. rewrite Forall_forall in Hdef. apply Forall_forall.
    intros o Ho. apply filter_In in Ho. apply Hdef. tauto. }
  { apply NoDup_map_oid_filter. exact Hnd. }
  { apply Forall_forall. intros o _ st Hl. rewrite Hsp in Hl. discriminate. }
  { lia. }
  rewrite Hbelow, andb_false_r in Hr1.
  (* the other observers, unless restarting *)
  assert (Hwriters : exists s2,
             (if negb (restart s1) then notify w (_non_targeters s1) else ret tt) s1
             = Return tt s2 /\
             same_setup s1 s2 /\ steps s2 = steps s1 /\
             Forall (fun q => speedometer_behind w N s2 (snd q)) (speedometers s2)).
  { destruct (restart s1); cbn [negb].
    - exists s1. split; [reflexivity|]. split; [apply same_setup_refl|].
      split; [reflexivity | exact Hb1].
    - pose proof Hsame1 as (Hcb1 & _ & Hini1 & _).
      destruct (notify_default (_non_targeters s1) s1 c0)
        as (s2 & Hr2 & Hsame2 & Hst2 & Hb2 & _).
      + exact Hb1.
      + rewrite Hcb1. exact Hfind.
      + exact Hcls.
      + unfold _non_targeters. rewrite Hcb1. rewrite Forall_forall in Hdef.
        apply Forall_forall. intros o Ho. apply filter_In in Ho. apply Hdef. tauto.
      + unfold _non_targeters. rewrite Hcb1. apply NoDup_map_oid_filter. exact Hnd.
      + apply Forall_forall. intros o Ho st Hl. exfalso.
        unfold _non_targeters in Ho. rewrite Hcb1 in Ho.
        apply filter_In in Ho. destruct Ho as [Ho Hnt].
        rewrite Hoth1, Hsp in Hl; [discriminate|].
        intros Hi. apply in_map_iff in Hi. destruct Hi as (o' & Heq & Ho').
        unfold _targeters in Ho'. apply filter_In in Ho'. destruct Ho' as [Ho' Ht'].
        assert (o' = o) by (eapply NoDup_map_oid; eassumption).
        subst o'. rewrite Ht' in Hnt. discriminate.
      + lia.
      + rewrite Hst1, Hbelow, andb_false_r in Hr2.
        exists s2. split; [exact Hr2|]. split; [exact Hsame2|].
        split; [exact Hst2 | exact Hb2]. }
  destruct Hwriters as (s2 & Hr2 & Hsame2 & Hst2 & Hb2).
  pose proof (same_setup_trans _ _ _ Hsame1 Hsame2) as Hsame.
  (* the loop *)
  set (s3 := set_trace ((trace s2 ++ [Info (MsgStarting (steps s2))]) ++ [Info MsgBlank]) s2).
  assert (Hsame3 : same_setup s s3).
  { destruct Hsame as (A1 & A2 & A3 & A4 & A5). unfold s3. repeat split; assumption. }
  destruct (run_loop_default fuel s3) as (s4 & Hr4 & Hsame4 & Hst4).
  { eapply default_setup_same; eassumption. }
  { exact Hb2. }
  { unfold s3. simpl_state. lia. }
  { destruct Hsame3 as (_ & _ & A3 & _). rewrite A3. unfold s3. simpl_state. lia. }
  { unfold s3. simpl_state. rewrite Hst2, Hst1. exact Hfuel. }
  assert (Hbody : run_body w fuel s = Raise (SimulationEnd (Target_message attr_steps (PyInt N))) s4).
  { unfold run_body. unfold bind at 1, get at 1. unfold bind at 1. rewrite Hr1.
    unfold bind at 1, get at 1. unfold bind at 1. rewrite Hr2.
    unfold bind, get, emit, modify. simpl_state. exact Hr4. }
  pose proof (same_setup_trans _ _ _ Hsame3 Hsame4) as (_ & _ & Hini4 & Hwk4 & _).
  destruct (SimulationEnd_handler w s4 (Target_message attr_steps (PyInt N)))
    as (evs & Htr & _ & _ & Hsteps4 & _ & _ & Hret).
  { rewrite Hwk4. exact Hwk. }
  destruct Hret as (s' & Hs'); [right; exact Hparticles|].
  exists s'. unfold run_try. rewrite Hbody.
  rewrite Hs' in Htr, Hsteps4. cbn [state_of] in Htr, Hsteps4.
  split; [exact Hs'|]. split; [congruence|].
  rewrite Htr, Hwk4, Hst4. apply in_or_app. right. left. reflexivity.
Qed.

End ReachTarget.

Lemma quick_world_ticks : clock_ticks quick_world.
Proof.
  intros k. cbn [quick_world clock]. unfold Qlt. cbn [Qnum Qden].
  rewrite !Zpos_P_of_succ_nat. lia.
Qed.

Lemma quick_world_bounded (k : nat) :
  (clock quick_world k - clock quick_world O <= 1000000)%Q.
Proof.
  cbn [quick_world clock]. unfold Qle, Qminus, Qplus, Qopp. cbn [Qnum Qden].
  rewrite !Pos2Z.inj_mul, !Zpos_P_of_succ_nat. cbn [Z.of_nat]. lia.
Qed.

(** X8: a fresh simulation runs to the step target of its constructor.
    Let [s0] be what [Simulation(initial_state, output_path, steps=N, ...)]
    builds, without [rmsd], for [0 < N <= 2^53], any writer intervals
    and numbers of calls and either value of [restart]. With a clock
    that advances between readings, a backend whose [run_until] returns
    and a system with particles, [run(target_steps)] returns, for every
    value of [target_steps] including [None]: it leaves the loop at step
    [N], the target given to the constructor, and the checkpoint writer
    is called at that step. No speedometer divides by zero on the way
    and the end-of-run summary succeeds ([N] passes of the loop always
    suffice). Up to [2^53] the step counter is a float, so the step
    target sees the count it is compared with. The bound on the clock
    (all readings within [10^6] seconds of the first) is not needed by
    the model, whose dates are total: it keeps the estimated end of the
    run, at most 400 times the time elapsed, within the dates that
    [datetime] can hold. *)
Theorem fresh_run_reaches_step_target (w : World) (output_path0 : option string)
  (N : Z)
  (thermo_interval thermo_number config_interval config_number
   checkpoint_interval checkpoint_number fixcm_interval0 : Z) (restart0 : bool)
  (target_steps0 : option Z) (fuel : nat) (s0 : Simulation) :
  clock_ticks w ->
  (forall k : nat, (clock w k - clock w O <= 1000000)%Q) ->
  (exists n, particles w = Some n /\ n <> 0) ->
  (forall a b, backend_run_until w a b = None) ->
  0 < N <= 2 ^ 53 ->
  (Z.to_nat N <= fuel)%nat ->
  Simulation_init w output_path0 N None thermo_interval thermo_number
    config_interval config_number checkpoint_interval checkpoint_number
    fixcm_interval0 restart0 = Return tt s0 ->
  exists s',
    run w target_steps0 fuel s0 = Return tt s' /\
    steps s' = N /\
    In (Call (writer_checkpoint s0) N) (trace s').
Proof.
  intros Hticks _ Hpart Hback HN Hfuel Hinit.
  destruct (Simulation_init_outcome w output_path0 N None thermo_interval
              thermo_number config_interval config_number checkpoint_interval
              checkpoint_number fixcm_interval0 restart0)
    as (sc3 & sc4 & sc5 & sc6 & _ & _ & _ & _ & Hinit').
  rewrite (py_float_exact N) in Hinit' by lia.
  rewrite Hinit' in Hinit. injection Hinit as Hs0. cbn [app] in Hs0.
  set (eta := Z.max 1 (py_int (round53 (inject_Z N / 200)))) in Hs0.
  assert (Heta : 0 < eta) by (unfold eta; lia).
  clearbody eta.
  assert (Hcb : _callback s0
                = [mkObserver 1 WriterConfig; mkObserver 0 WriterThermo;
                   mkObserver 6 (Speedometer (Some "ETA"));
                   mkObserver 5 (Speedometer None);
                   mkObserver 2 WriterCheckpoint; mkObserver 3 (TargetSteps N)])
    by (rewrite <- Hs0; reflexivity).
  assert (Hsc : _scheduler s0
                = [Periodic sc5; Periodic sc4; Onetime (mkOnetimeScheduler eta);
                   Periodic sc3; Periodic sc6;
                   Periodic (mkScheduler (Some (Z.max 1 N)) None None)])
    by (rewrite <- Hs0; reflexivity).
  assert (Hwk : writer_checkpoint s0 = mkObserver 2 WriterCheckpoint)
    by (rewrite <- Hs0; reflexivity).
  assert (Hst : steps s0 = 0) by (rewrite <- Hs0; reflexivity).
  assert (Hsp : speedometers s0 = []) by (rewrite <- Hs0; reflexivity).
  clear Hs0 Hinit'.
  assert (Hsetup : default_setup N s0).
  { unfold default_setup, ledger. rewrite Hcb, Hsc, Hwk.
    split; [reflexivity|]. split.
    { constructor; [exact I|]. constructor; [exact I|].
      constructor; [exact Heta|].
      constructor; [exact I|]. constructor; [exact I|].
      constructor; [exact I | constructor]. }
    split.
    { cbn [map oid]. repeat constructor; cbn [In]; intuition discriminate. }
    split.
    { repeat constructor. }
    split; [|reflexivity].
    exists (mkObserver 3 (TargetSteps N)),
      (mkScheduler (Some (Z.max 1 N)) None None).
    split; [cbn [combine In]; tauto|].
    split; [reflexivity|]. cbn [interval]. f_equal. lia. }
  destruct (run_prologue_completes target_steps0 s0) as (evs & _ & Hpro).
  { destruct Hsetup as (Hlen & _). exact Hlen. }
  { rewrite Hcb. reflexivity. }
  set (s1 := set_trace (trace s0 ++ evs)
               (set_initial_steps (steps s0)
                  (match target_steps0 with
                   | Some t =>
                       set_target_steps t
                         (if target_steps s0 <? t then set_restart true s0 else s0)
                   | None => s0
                   end))) in Hpro.
  assert (Hframe : _callback s1 = _callback s0 /\ _scheduler s1 = _scheduler s0 /\
                   writer_checkpoint s1 = writer_checkpoint s0 /\
                   speedometers s1 = speedometers s0 /\ steps s1 = steps s0 /\
                   initial_steps s1 = steps s0).
  { unfold s1. destruct target_steps0 as [t|];
      [destruct (target_steps s0 <? t)|]; repeat split. }
  destruct Hframe as (F1 & F2 & F3 & F4 & F5 & F6).
  destruct (run_try_default w N Hticks Hpart Hback HN fuel s1)
    as (s' & Hr & Hsteps & Hcall).
  - destruct Hsetup as (H1 & H2 & H3 & H4 & H5 & H6).
    unfold default_setup, ledger. rewrite F1, F2, F3.
    repeat (split; [assumption|]). assumption.
  - rewrite F4. exact Hsp.
  - rewrite F5, Hst. lia.
  - rewrite F5, F6. reflexivity.
  - rewrite F5, Hst, Z.sub_0_r. exact Hfuel.
  - exists s'. unfold run, bind. rewrite Hpro.
    split; [exact Hr|]. split; [exact Hsteps|]. rewrite <- F3. exact Hcall.
Qed.

Lemma fresh_run_reaches_step_target_witness :
  exists s',
    run quick_world (Some 20) 50 quick_sim50 = Return tt s' /\
    steps s' = 50 /\
    In (Call (writer_checkpoint quick_sim50) 50) (trace s').
Proof.
  apply (fresh_run_reaches_step_target quick_world None 50 0 0 0 0 0 0 0 false
           (Some 20) 50 quick_sim50).
  - exact quick_world_ticks.
  - exact quick_world_bounded.
  - exists 1. split; [reflexivity | lia].
  - reflexivity.
  - split; [lia | vm_compute; discriminate].
  - vm_compute. lia.
  - vm_compute. reflexivity.
Defined.

(** ** Runs that start at the target *)

(** The [try] statement when the first target is a step target that the
    step counter has reached already. *)
Lemma run_try_at_target (w : World) (fuel : nat) (s : Simulation)
  (o : observer) (rest : list observer) (t : Z) :
  _targeters s = o :: rest ->
  cls o = TargetSteps t ->
  t <= steps s ->
  Z.abs (steps s) <= 2 ^ 53 ->
  cls (writer_checkpoint s) = WriterCheckpoint ->
  initial_steps s = steps s ->
  run_try w fuel s
  = Return tt
      (set_trace
         (trace s ++ [Call o (steps s); Call (writer_checkpoint s) (steps s);
                      Info (MsgText (Target_message attr_steps (PyInt t))); Info MsgGoodbye]) s).
Proof.
  intros Htargeters Hcls Hreached Hfloat Hwk Hini.
  assert (Hcall : call_observer w o s
                  = Raise (SimulationEnd (Target_message attr_steps (PyInt t)))
                      (set_trace (trace s ++ [Call o (steps s)]) s)).
  { unfold call_observer. unfold bind at 1, get at 1. unfold bind at 1, emit, modify.
    rewrite Hcls. unfold TargetSteps, Target_call. unfold bind at 1.
    rewrite (getattr_float_steps (set_trace (trace s ++ [Call o (steps s)]) s))
      by (simpl_state; exact Hfloat).
    unfold raise, ret. simpl_state. cbn [number_value]. rewrite Qle_bool_inject_Z.
    apply Z.leb_le in Hreached. rewrite Hreached. reflexivity. }
  assert (Hbody : run_body w fuel s
                  = Raise (SimulationEnd (Target_message attr_steps (PyInt t)))
                      (set_trace (trace s ++ [Call o (steps s)]) s)).
  { unfold run_body. unfold bind at 1, get at 1. unfold bind at 1.
    rewrite Htargeters. cbn [notify]. unfold bind at 1. rewrite Hcall. reflexivity. }
  unfold run_try. rewrite Hbody. cbn [run_except].
  unfold bind at 1. rewrite call_WriterCheckpoint by exact Hwk.
  unfold bind, get, emit, modify, ret. simpl_state.
  apply Z.eqb_eq in Hini. rewrite Hini. cbn [run_finally]. simpl_state.
  rewrite <- !app_assoc. reflexivity.
Qed.

(** X9: a simulation whose step counter has reached the target of its
    first [Target], a [TargetSteps] of target [t], does nothing when run
    again, whatever [target_steps] is passed to [run] and whatever the
    clock and the backend do. The step counter is at most [2^53] in
    absolute value, so that the float the target compares is the count
    itself. With parallel lists and no wall-time target, [run] returns;
    after the report lines the log holds exactly: the call of that
    target, the forced call of the checkpoint writer, the message of
    the [SimulationEnd], which is [achieved target steps: t], and the
    closing line. [run_until] is not called, no other observer is
    notified, the step counter and the speedometers are as before and
    no end-of-run summary is written. *)
Theorem run_at_reached_target (w : World) (target_steps0 : option Z) (fuel : nat)
  (s : Simulation) (o : observer) (rest : list observer) (t : Z) :
  List.length (_callback s) = List.length (_scheduler s) ->
  existsb is_TargetWallTime (_callback s) = false ->
  _targeters s = o :: rest ->
  cls o = TargetSteps t ->
  t <= steps s ->
  Z.abs (steps s) <= 2 ^ 53 ->
  cls (writer_checkpoint s) = WriterCheckpoint ->
  exists evs s',
    run w target_steps0 fuel s = Return tt s' /\
    forallb is_report_line evs = true /\
    trace s'
    = trace s ++ evs ++ [Call o (steps s); Call (writer_checkpoint s) (steps s);
                         Info (MsgText (Target_message attr_steps (PyInt t)));
                         Info MsgGoodbye] /\
    steps s' = steps s /\
    speedometers s' = speedometers s.
Proof.
  intros Hlen Hno Htargeters Hcls Hreached Hfloat Hwk.
  destruct (run_prologue_completes target_steps0 s Hlen Hno) as (evs & Hev & Hpro).
  set (s1 := set_trace (trace s ++ evs)
               (set_initial_steps (steps s)
                  (match target_steps0 with
                   | Some t0 =>
                       set_target_steps t0
                         (if target_steps s <? t0 then set_restart true s else s)
                   | None => s
                   end))) in Hpro.
  assert (Hframe : _targeters s1 = _targeters s /\
                   writer_checkpoint s1 = writer_checkpoint s /\
                   speedometers s1 = speedometers s /\ steps s1 = steps s /\
                   initial_steps s1 = steps s /\ trace s1 = trace s ++ evs).
  { unfold s1, _targeters. destruct target_steps0 as [t0|];
      [destruct (target_steps s <? t0)|]; repeat split. }
  destruct Hframe as (F1 & F2 & F3 & F4 & F5 & F6).
  pose proof (run_try_at_target w fuel s1 o rest t) as Htry.
  rewrite F1, F2, F4, F5, F6 in Htry.
  specialize (Htry Htargeters Hcls Hreached Hfloat Hwk eq_refl).
  exists evs. eexists. unfold run, bind. rewrite Hpro.
  split; [exact Htry|]. split; [exact Hev|]. simpl_state.
  split; [rewrite <- app_assoc; reflexivity|].
  split; assumption.
Qed.

Lemma run_at_reached_target_witness :
  exists evs s',
    run ticking_world (Some 150) 200 sim50_after_run = Return tt s' /\
    forallb is_report_line evs = true /\
    trace s'
    = trace sim50_after_run
      ++ evs ++ [Call (mkObserver 3 (TargetSteps 50)) (steps sim50_after_run);
                 Call (writer_checkpoint sim50_after_run) (steps sim50_after_run);
                 Info (MsgText "achieved target steps: 50"); Info MsgGoodbye] /\
    steps s' = steps sim50_after_run /\
    speedometers s' = speedometers sim50_after_run.
Proof.
  apply (run_at_reached_target ticking_world (Some 150) 200 sim50_after_run
           (mkObserver 3 (TargetSteps 50)) [] 50).
  - vm_compute. reflexivity.
  - vm_compute. reflexivity.
  - vm_compute. reflexivity.
  - reflexivity.
  - vm_compute. discriminate.
  - vm_compute. discriminate.
  - vm_compute. reflexivity.
Defined.

(** ** What [run] leaves alone *)

Section Keeps.

Context {X : Type} (f : Simulation -> X).
Hypothesis Htrace : forall t s, f (set_trace t s) = f s.
Hypothesis Hreads : forall n s, f (set_reads n s) = f s.
Hypothesis Hspeedometers : forall h s, f (set_speedometers h s) = f s.
Hypothesis Hsteps : forall n s, f (set_steps n s) = f s.

Lemma keeps_bind {A B : Type} (m : M A) (k : A -> M B) :
  keeps f m -> (forall a, keeps f (k a)) -> keeps f (bind m k).
Proof.
  intros Hm Hk s. unfold bind. specialize (Hm s).
  destruct (m s) as [a s1|e s1|s1]; simpl in *; [|assumption..].
  rewrite (Hk a s1). exact Hm.
Qed.

Lemma keeps_ret {A : Type} (a : A) : keeps f (ret a).
Proof. intros s. reflexivity. Qed.

Lemma keeps_raise {A : Type} (e : exn) : keeps f (@raise A e).
Proof. intros s. reflexivity. Qed.

Lemma keeps_get : keeps f get.
Proof. intros s. reflexivity. Qed.

Lemma keeps_modify (g : Simulation -> Simulation) :
  (forall s, f (g s) = f s) -> keeps f (modify g).
Proof. intros Hg s. apply Hg. Qed.

Lemma keeps_emit (e : event) : keeps f (emit e).
Proof. apply keeps_modify. intros s. apply Htrace. Qed.

Lemma keeps_lift {A : Type} (x : exn + A) : keeps f (lift x).
Proof. intros s. destruct x; reflexivity. Qed.

Lemma keeps_time_time (w : World) : keeps f (time_time w).
Proof. intros s. apply Hreads. Qed.

Ltac keeps_step :=
  lazymatch goal with
  | |- keeps _ (bind _ _) => apply keeps_bind; [|intros ?]
  | |- keeps _ (ret _) => apply keeps_ret
  | |- keeps _ (raise _) => apply keeps_raise
  | |- keeps _ get => apply keeps_get
  | |- keeps _ (emit _) => apply keeps_emit
  | |- keeps _ (lift _) => apply keeps_lift
  | |- keeps _ (time_time _) => apply keeps_time_time
  | |- keeps _ (modify (set_steps _)) => apply keeps_modify; intros ?; apply Hsteps
  | |- keeps _ (modify _) => apply keeps_modify; intros ?; apply Hspeedometers
  | |- keeps _ (match ?x with _ => _ end) => destruct x
  end.

Lemma keeps_wall_time_per_step_particle (w : World) :
  keeps f (wall_time_per_step_particle w).
Proof.
  unfold wall_time_per_step_particle, wall_time_per_step, elapsed_wall_time.
  repeat keeps_step.
Qed.

Lemma keeps_getattr_float (name : attr) : keeps f (getattr_float name).
Proof.
  unfold getattr_float, rmsd. repeat keeps_step.
Qed.

Lemma keeps_call_observer (w : World) (o : observer) : keeps f (call_observer w o).
Proof.
  unfold call_observer, Speedometer_call, Target_call, TargetWallTime_call,
    UserStop_call, elapsed_wall_time.
  repeat first [apply keeps_wall_time_per_step_particle
               | apply keeps_getattr_float
               | keeps_step].
Qed.

Lemma keeps_notify (w : World) (observers : list observer) :
  keeps f (notify w observers).
Proof.
  induction observers as [|o obs IH]; cbn [notify].
  - apply keeps_ret.
  - apply keeps_bind; [apply keeps_call_observer | intros; exact IH].
Qed.

Lemma keeps_run_iteration (w : World) : keeps f (run_iteration w).
Proof.
  unfold run_iteration, run_until.
  repeat first [apply keeps_notify | keeps_step].
Qed.

Lemma keeps_run_loop (w : World) (fuel : nat) : keeps f (run_loop w fuel).
Proof.
  induction fuel as [|fuel IH]; cbn [run_loop].
  - intros s. reflexivity.
  - apply keeps_bind; [apply keeps_run_iteration | intros; exact IH].
Qed.

Lemma keeps_run_body (w : World) (fuel : nat) : keeps f (run_body w fuel).
Proof.
  unfold run_body.
  repeat first [apply keeps_notify | apply keeps_run_loop | keeps_step].
Qed.

Lemma keeps_report_end (w : World) : keeps f (_report_end w).
Proof.
  unfold _report_end, rmsd, elapsed_wall_time.
  repeat first [apply keeps_wall_time_per_step_particle | keeps_step].
Qed.

Lemma keeps_run_try (w : World) (fuel : nat) : keeps f (run_try w fuel).
Proof.
  intros s. unfold run_try.
  pose proof (keeps_run_body w fuel s) as Hbody.
  destruct (run_body w fuel s) as [a s1|e s1|s1]; cbn [state_of] in Hbody.
  - cbn [run_except run_finally state_of]. rewrite Htrace. exact Hbody.
  - rewrite <- Hbody.
    assert (Hfin : forall r : result unit, f (state_of (run_finally r)) = f (state_of r)).
    { intros [a s2|e2 s2|s2]; cbn [run_finally state_of]; rewrite ?Htrace; reflexivity. }
    rewrite Hfin.
    assert (Hfail : f (state_of ((emit (Error MsgFailed) ;; @raise unit e) s1)) = f s1).
    { apply (keeps_bind (emit (Error MsgFailed)) (fun _ => @raise unit e));
        [apply keeps_emit | intros; apply keeps_raise]. }
    destruct e; try exact Hfail.
    + cbn [run_except].
      match goal with
      | |- f (state_of (?m s1)) = _ => assert (Hk : keeps f m); [|apply Hk]
      end.
      repeat first [apply keeps_call_observer | apply keeps_report_end | keeps_step].
    + reflexivity.
  - cbn [run_except run_finally state_of]. exact Hbody.
Qed.

End Keeps.

Lemma run_prologue_setup (target_steps0 : option Z) (s : Simulation) :
  setup_of (state_of (run_prologue target_steps0 s))
  = mkSetup (_callback s) (_scheduler s) (fixcm_interval s) (output_path s)
      (start_time s) (writer_thermo s) (writer_config s) (writer_checkpoint s)
      (restart s || match target_steps0 with
                    | Some t => target_steps s <? t
                    | None => false
                    end)
      (match target_steps0 with Some t => t | None => target_steps s end)
      (steps s).
Proof.
  unfold run_prologue, report, run_pre.
  destruct target_steps0 as [t|];
    unfold bind, get, emit, modify, ret; try destruct (target_steps s <? t).
  all: match goal with
       | |- context [_report_observers ?l ?X] =>
           destruct (report_observers_outcome l X) as (evs & _ & Hr);
           rewrite Hr; clear Hr
       end.
  all: match goal with
       | |- context [if ?b then _ else _] => destruct b
       end.
  all: unfold setup_of; simpl_state; rewrite ?orb_true_r, ?orb_false_r; reflexivity.
Qed.

Lemma run_setup (w : World) (target_steps0 : option Z) (fuel : nat) (s : Simulation) :
  setup_of (state_of (run w target_steps0 fuel s))
  = setup_of (state_of (run_prologue target_steps0 s)).
Proof.
  unfold run, bind.
  destruct (run_prologue target_steps0 s) as [a s1|e s1|s1]; cbn [state_of];
    [|reflexivity..].
  apply (keeps_run_try setup_of); reflexivity.
Qed.

(** X10: [run] re-configures nothing but three attributes, however it
    ends (return, exception, in any world). The registered observers
    and their schedulers, the three writers, the output path, the start
    time and [fixcm_interval] are after [run(target_steps)] what they
    were before: in particular no target and no scheduler is built for
    the [target_steps] passed to [run]. [target_steps] is stored,
    [initial_steps] becomes the step counter at the call, and [restart]
    is set when [target_steps] exceeds the stored one and is never
    cleared. *)
Theorem run_keeps_setup (w : World) (target_steps0 : option Z) (fuel : nat)
  (s : Simulation) :
  let s' := state_of (run w target_steps0 fuel s) in
  _callback s' = _callback s /\
  _scheduler s' = _scheduler s /\
  writer_thermo s' = writer_thermo s /\
  writer_config s' = writer_config s /\
  writer_checkpoint s' = writer_checkpoint s /\
  output_path s' = output_path s /\
  start_time s' = start_time s /\
  fixcm_interval s' = fixcm_interval s /\
  target_steps s'
  = match target_steps0 with Some t => t | None => target_steps s end /\
  restart s'
  = (restart s || match target_steps0 with
                  | Some t => target_steps s <? t
                  | None => false
                  end) /\
  initial_steps s' = steps s.
Proof.
  intros s'. pose proof (run_setup w target_steps0 fuel s) as H.
  rewrite run_prologue_setup in H. fold s' in H.
  split; [exact (f_equal setup_callback H)|].
  split; [exact (f_equal setup_scheduler H)|].
  split; [exact (f_equal setup_writer_thermo H)|].
  split; [exact (f_equal setup_writer_config H)|].
  split; [exact (f_equal setup_writer_checkpoint H)|].
  split; [exact (f_equal setup_output_path H)|].
  split; [exact (f_equal setup_start_time H)|].
  split; [exact (f_equal setup_fixcm_interval H)|].
  split; [exact (f_equal setup_target_steps H)|].
  split; [exact (f_equal setup_restart H)|].
  exact (f_equal setup_initial_steps H).
Qed.

(** ** Observers that cannot be used *)








